(** * Health-data standardisation: timestamp normalisation and the minute timeline

    A shallow embedding of [HealthDataStandardizer] from
    [src/data_standardization/standardize_health_data.py]:
    [_standardize_timestamp], [create_base_timeline] and [merge_all_data],
    together with the pandas operations these three methods call, and the two
    loaders that read one file per series, [process_sleep] and
    [process_stress_score].

    Layout: the pandas data model and operations ([Module Pandas]), the object
    store in which frames live ([Module Store]), the methods, concrete
    frames used in examples, and then the lemmas and theorems.

    Conventions.  An instant is a count of nanoseconds since 1970-01-01 00:00
    (the [int64] payload of a pandas [Timestamp]) held in [Z]; the missing
    instant [NaT] is [None].  The representable range of [int64] comes into
    play where the program computes with instants of its own, the day of
    padding that [create_base_timeline] puts at each end of the grid, and is
    modelled there; rounding to the minute never leaves the range.  The
    library calls are modelled as pandas 3 behaves.  Console output ([print])
    is dropped. *)

From Stdlib Require Import ZArith Lia String Ascii List.
From stdpp Require Import base list strings.

Local Open Scope Z_scope.

(** ** Instants *)

Module Instants.

Definition NS_PER_SEC : Z := 1000000000.
Definition NS_PER_MIN : Z := 60 * NS_PER_SEC.
Definition NS_PER_HOUR : Z := 3600 * NS_PER_SEC.
Definition NS_PER_DAY : Z := 86400 * NS_PER_SEC.

(** Days from 1970-01-01 to the proleptic Gregorian date [y]-[m]-[d];
    only used to write instants as calendar dates. *)
Definition days_from_civil (y m d : Z) : Z :=
  let y' := if m <=? 2 then y - 1 else y in
  let era := y' `div` 400 in
  let yoe := y' - era * 400 in
  let mp := if 2 <? m then m - 3 else m + 9 in
  let doy := (153 * mp + 2) `div` 5 + d - 1 in
  let doe := yoe * 365 + yoe `div` 4 - yoe `div` 100 + doy in
  era * 146097 + doe - 719468.

(** The instant [y]-[mo]-[d] [hh]:[mi]:[ss]. *)
Definition at_ (y mo d hh mi ss : Z) : Z :=
  days_from_civil y mo d * NS_PER_DAY
  + hh * NS_PER_HOUR + mi * NS_PER_MIN + ss * NS_PER_SEC.

(** The least and the greatest instant a [Timestamp] can hold
    ([Timestamp.min] and [Timestamp.max]; the least [int64] stands for
    [NaT]). *)
Definition TS_MIN : Z := - (2 ^ 63 - 1).
Definition TS_MAX : Z := 2 ^ 63 - 1.

End Instants.

Export Instants.

(** ** Exceptions and results *)

Inductive exn : Type :=
  | KeyError | ValueError | TypeError | AttributeError | MergeError
  | OutOfBoundsDatetime.

Inductive result (A : Type) : Type :=
  | Ok (a : A)
  | Raise (e : exn).

Arguments Ok {A} a.
Arguments Raise {A} e.

Definition rbind {A B : Type} (r : result A) (k : A → result B) : result B :=
  match r with
  | Ok a => k a
  | Raise e => Raise e
  end.

Notation "'let?' x := r 'in' k" := (rbind r (λ x, k))
  (at level 10, x pattern, r at level 100, k at level 200).

Definition is_ok {A : Type} (r : result A) : bool :=
  match r with Ok _ => true | Raise _ => false end.

(** ** The pandas data model and the operations the program calls *)

Module Pandas.

(** An instant, or [NaT]. *)
Abbreviation stamp := (option Z).

(** A cell of an [object] column as [read_csv] leaves it.  A text cell that
    the date grammar of [to_datetime] accepts is kept as what it denotes:
    the wall-clock instant written in it and, when the text carries one, its
    UTC offset in seconds ([12:00:30Z] has offset [0]).  Any other text is
    kept as it is written. *)
Inductive cell : Type :=
  | NaN
  | Num (v : Z)
  | Str (s : string)
  | DateStr (wall : Z) (off : option Z).

(** A column has one dtype: [object], or [datetime64[ns]] with at most one
    time zone for the whole column (a fixed UTC offset in seconds).  A
    zone-aware column stores UTC instants. *)
Inductive column : Type :=
  | Object (cells : list cell)
  | Datetime (tz : option Z) (stamps : list stamp).

(** A frame: its columns in order, each with its label.  Rows are numbered
    from 0 (the default [RangeIndex]). *)
Abbreviation DataFrame := (list (string * column)).

#[global] Instance cell_eq_dec : EqDecision cell.
Proof. solve_decision. Defined.

#[global] Instance column_eq_dec : EqDecision column.
Proof. solve_decision. Defined.

Definition UTC : Z := 0.

Definition columns (df : DataFrame) : list string := df.*1.

Definition col_len (c : column) : nat :=
  match c with
  | Object cells => length cells
  | Datetime _ stamps => length stamps
  end.

Definition nrows (df : DataFrame) : nat :=
  match df with
  | [] => 0%nat
  | (_, c) :: _ => col_len c
  end.

(** [df.empty]: no column or no row. *)
Definition empty (df : DataFrame) : bool :=
  match df with
  | [] => true
  | _ => bool_decide (nrows df = 0%nat)
  end.

(** [df[label]]: the column with that label.  A label carried by several
    columns selects a frame, on which every use made below raises. *)
Definition getitem (df : DataFrame) (label : string) : result column :=
  match filter (λ p, p.1 = label) df with
  | [] => Raise KeyError
  | [p] => Ok p.2
  | _ => Raise ValueError
  end.

(** [df[label] = c]: replaces the data under [label] in place, or appends a
    new column. *)
Definition setitem (df : DataFrame) (label : string) (c : column) : DataFrame :=
  if bool_decide (label ∈ columns df)
  then (λ p, if bool_decide (p.1 = label) then (label, c) else p) <$> df
  else df ++ [(label, c)].

Definition is_datetime64_any_dtype (c : column) : bool :=
  match c with
  | Datetime _ _ => true
  | Object _ => false
  end.

(** *** [to_datetime(..., format='mixed')] *)

Inductive reading : Type :=
  | Unparseable
  | NaT
  | Naive (ns : Z)
  | Aware (utc : Z) (off : Z).

(** The texts that the parser reads as a missing instant, besides the empty
    text. *)
Definition nat_strings : list string :=
  ["NaT"; "nat"; "NAT"; "nan"; "NaN"; "NAN"]%string.

(** Each element is read on its own: a missing cell is [NaT], and so is text
    that spells a missing value; a number is an offset in nanoseconds from
    the epoch, date text is the instant it writes (converted to UTC when it
    carries an offset). *)
Definition read_cell (c : cell) : reading :=
  match c with
  | NaN => NaT
  | Num v => Naive v
  | Str s =>
      if bool_decide (s = ""%string ∨ s ∈ nat_strings) then NaT else Unparseable
  | DateStr wall None => Naive wall
  | DateStr wall (Some off) => Aware (wall - off * NS_PER_SEC) off
  end.

Definition is_unparseable (r : reading) : bool :=
  match r with Unparseable => true | _ => false end.

Definition is_naive (r : reading) : bool :=
  match r with Naive _ => true | _ => false end.

Definition offset_of (r : reading) : option Z :=
  match r with Aware _ off => Some off | _ => None end.

Definition instant_of (r : reading) : stamp :=
  match r with
  | Naive ns => Some ns
  | Aware utc _ => Some utc
  | _ => None
  end.

(** The dtype of the parsed column.  Without [utc=True] the result is a
    datetime column only when no element carries an offset, or when all that
    hold an instant carry the same one.  Otherwise [to_datetime] raises
    [ValueError].  (pandas 2 returned an [object] column of [datetime]
    objects there, on which the [.dt] accessor used right after the call
    raises: either way the caller is left with an exception.) *)
Definition to_datetime (c : column) : result column :=
  match c with
  | Datetime tz s => Ok (Datetime tz s)
  | Object cells =>
      let rs := read_cell <$> cells in
      if existsb is_unparseable rs then Raise ValueError
      else
        match omap offset_of rs with
        | [] => Ok (Datetime None (instant_of <$> rs))
        | off :: offs =>
            if negb (existsb is_naive rs) && forallb (Z.eqb off) offs
            then Ok (Datetime (Some off) (instant_of <$> rs))
            else Raise ValueError
        end
  end.

(** *** The [.dt] accessor *)

Definition dt_tz (c : column) : result (option Z) :=
  match c with
  | Datetime tz _ => Ok tz
  | Object _ => Raise AttributeError
  end.

(** [.dt.tz_localize(tz)]: attaches a zone to wall-clock instants, or with
    [None] strips it and leaves the wall-clock instants of that zone. *)
Definition tz_localize (c : column) (tz : option Z) : result column :=
  match c, tz with
  | Datetime None s, Some z =>
      Ok (Datetime (Some z) (fmap (M:=option) (λ w, w - z * NS_PER_SEC) <$> s))
  | Datetime (Some z) s, None =>
      Ok (Datetime None (fmap (M:=option) (λ u, u + z * NS_PER_SEC) <$> s))
  | Datetime None s, None => Ok (Datetime None s)
  | Datetime (Some _) _, Some _ => Raise TypeError
  | Object _, _ => Raise AttributeError
  end.

(** [.dt.tz_convert(tz)]: same instants, another zone. *)
Definition tz_convert (c : column) (tz : Z) : result column :=
  match c with
  | Datetime (Some _) s => Ok (Datetime (Some tz) s)
  | Datetime None _ => Raise TypeError
  | Object _ => Raise AttributeError
  end.

(** Rounding to a multiple of [unit], ties to the even multiple
    ([RoundTo.NEAREST_HALF_EVEN] in [round_nsint64], the only mode that
    [round] uses; [unit] is even here). *)
Definition round_nsint64 (value unit : Z) : Z :=
  let quotient := value `div` unit in
  let remainder := value `mod` unit in
  if (unit `div` 2 <? remainder)
     || ((remainder =? unit `div` 2) && Z.odd quotient)
  then (quotient + 1) * unit
  else quotient * unit.

Definition round_min (value : Z) : Z := round_nsint64 value NS_PER_MIN.

(** [.dt.round('min')]: a zone-aware column is rounded on its wall clock. *)
Definition dt_round_min (c : column) : result column :=
  match c with
  | Datetime tz s =>
      let shift := default 0 tz * NS_PER_SEC in
      Ok (Datetime tz
            (fmap (M:=option) (λ v, round_min (v + shift) - shift) <$> s))
  | Object _ => Raise AttributeError
  end.

(** *** Reductions and ranges *)

Definition present (s : list stamp) : list Z := omap id s.

(** [Series.min()] and [Series.max()] skip [NaT]; with nothing left the
    result is [NaT]. *)
Definition stamps_min (s : list stamp) : stamp :=
  match present s with
  | [] => None
  | x :: xs => Some (foldr Z.min x xs)
  end.

Definition stamps_max (s : list stamp) : stamp :=
  match present s with
  | [] => None
  | x :: xs => Some (foldr Z.max x xs)
  end.

(** [pd.date_range(start, end, freq='min')]: [start], [start] + 1 min, ...
    while not after [end]; [NaT] bounds are refused. *)
Definition date_range (start end_ : stamp) : result (list stamp) :=
  match start, end_ with
  | Some a, Some b =>
      Ok ((λ k, Some (a + k * NS_PER_MIN))
            <$> seqZ 0 ((b - a) `div` NS_PER_MIN + 1))
  | _, _ => Raise ValueError
  end.

(** [Timestamp + Timedelta]: [NaT] stays [NaT]; a sum outside the range of
    [Timestamp] is refused. *)
Definition timestamp_add (t : stamp) (delta : Z) : result stamp :=
  match t with
  | None => Ok None
  | Some v =>
      if (TS_MIN <=? v + delta) && (v + delta <=? TS_MAX)
      then Ok (Some (v + delta))
      else Raise OutOfBoundsDatetime
  end.

(** *** [pd.merge(left, right, left_on=, right_on=, how='left', suffixes=)] *)

(** Positions of [rk] holding key [k], in order, counted from [j].  A
    missing key matches a missing key. *)
Fixpoint matches_from {K : Type} `{EqDecision K} (j : nat) (k : K) (rk : list K)
  : list nat :=
  match rk with
  | [] => []
  | x :: rest =>
      if decide (x = k) then j :: matches_from (S j) k rest
      else matches_from (S j) k rest
  end.

Definition matches {K : Type} `{EqDecision K} (k : K) (rk : list K) : list nat :=
  matches_from 0 k rk.

(** The left-join indexer: every left row in order, once per matching right
    row (in right order), or once with no partner. *)
Fixpoint left_join_from {K : Type} `{EqDecision K} (i : nat) (lk rk : list K)
  : list (nat * option nat) :=
  match lk with
  | [] => []
  | k :: rest =>
      match matches k rk with
      | [] => [(i, None)]
      | js => (λ j, (i, Some j)) <$> js
      end ++ left_join_from (S i) rest rk
  end.

Definition left_join_indexer {K : Type} `{EqDecision K} (lk rk : list K)
  : list (nat * option nat) :=
  left_join_from 0 lk rk.

(** Keys of different dtypes (text against datetime, naive against
    zone-aware) are refused. *)
Definition join_indexers (lk rk : column) : result (list (nat * option nat)) :=
  match lk, rk with
  | Datetime None sl, Datetime None sr => Ok (left_join_indexer sl sr)
  | Datetime (Some _) sl, Datetime (Some _) sr => Ok (left_join_indexer sl sr)
  | Object cl, Object cr => Ok (left_join_indexer cl cr)
  | _, _ => Raise ValueError
  end.

(** Gathering rows; a row without partner holds the missing marker. *)
Definition take (c : column) (idx : list (option nat)) : column :=
  match c with
  | Object cells =>
      Object ((λ o : option nat, default NaN (o ≫= (cells !!.))) <$> idx)
  | Datetime tz s =>
      Datetime tz ((λ o : option nat, mjoin (o ≫= (s !!.))) <$> idx)
  end.

(** [Index.duplicated()]: true at every occurrence of a label but its
    first. *)
Fixpoint duplicated_from (seen labels : list string) : list bool :=
  match labels with
  | [] => []
  | x :: rest => bool_decide (x ∈ seen) :: duplicated_from (x :: seen) rest
  end.

Definition duplicated (labels : list string) : list bool :=
  duplicated_from [] labels.

Definition renamer (to_rename : list string) (suffix x : string) : string :=
  if bool_decide (x ∈ to_rename) then x +:+ suffix else x.

(** Labels that renaming turned into a repetition within one side. *)
Definition suffix_dups (orig renamed : list string) : list string :=
  (filter (λ t, t.1.1 = true ∧ t.1.2 = false)
          (zip (zip (duplicated renamed) (duplicated orig)) renamed)).*2.

(** The labels of both sides after renaming.  A renamed label may neither
    repeat within its side (unless the side repeated it before) nor meet a
    label of the other side that was not itself renamed. *)
Definition _items_overlap_with_suffix (left right : list string)
    (suffixes : string * string) : result (list string * list string) :=
  let to_rename := filter (λ x, x ∈ right) left in
  match to_rename with
  | [] => Ok (left, right)
  | _ =>
      let '(lsuffix, rsuffix) := suffixes in
      if bool_decide (lsuffix = "") && bool_decide (rsuffix = "")
      then Raise ValueError
      else
        let llabels := renamer to_rename lsuffix <$> left in
        let rlabels := renamer to_rename rsuffix <$> right in
        match suffix_dups left llabels ++ suffix_dups right rlabels
              ++ filter (λ x, x ∈ right ∧ x ∉ to_rename) llabels
              ++ filter (λ x, x ∈ left ∧ x ∉ to_rename) rlabels with
        | [] => Ok (llabels, rlabels)
        | _ => Raise MergeError
        end
  end.

(** The left join.  When both keys have the same label the right frame's
    key column is dropped and the left one stands for both; otherwise both
    key columns stay, and like any other column they are renamed when their
    labels clash. *)
Definition merge (left right : DataFrame) (left_on right_on : string)
    (suffixes : string * string) : result DataFrame :=
  let? lk := getitem left left_on in
  let? rk := getitem right right_on in
  let? idx := join_indexers lk rk in
  let right := if bool_decide (left_on = right_on)
               then filter (λ p, p.1 ≠ right_on) right else right in
  let? labels := _items_overlap_with_suffix (columns left) (columns right) suffixes in
  Ok (zip labels.1 ((λ p, take p.2 (Some <$> idx.*1)) <$> left)
      ++ zip labels.2 ((λ p, take p.2 idx.*2) <$> right)).

(** [df.loc[:, ~df.columns.duplicated()]] *)
Definition drop_duplicated (df : DataFrame) : DataFrame :=
  (filter (λ t, t.1 = false) (zip (duplicated (columns df)) df)).*2.

(** *** Text *)

(** [str.lower()] on the ASCII letters. *)
Definition lower_ascii (a : ascii) : ascii :=
  let n := nat_of_ascii a in
  if ((65 <=? n) && (n <=? 90))%nat then ascii_of_nat (n + 32) else a.

Fixpoint lower (s : string) : string :=
  match s with
  | EmptyString => EmptyString
  | String a rest => String (lower_ascii a) (lower rest)
  end.

(** [term in s] *)
Fixpoint contains (term s : string) : bool :=
  String.prefix term s
  || match s with
     | EmptyString => false
     | String _ rest => contains term rest
     end.

End Pandas.

Export Pandas.

(** ** The object store *)

(** Frames are objects: a variable holds a reference, [df.copy()] makes a new
    object, and [df[label] = ...] updates the object a reference points to. *)

Module Store.

Abbreviation loc := nat.
Abbreviation store := (list DataFrame).

Definition M (A : Type) : Type := store → result (A * store).

Definition ret {A : Type} (a : A) : M A := λ σ, Ok (a, σ).

Definition bind {A B : Type} (m : M A) (k : A → M B) : M B :=
  λ σ, match m σ with
       | Ok (a, σ') => k a σ'
       | Raise e => Raise e
       end.

Definition lift {A : Type} (r : result A) : M A :=
  λ σ, match r with
       | Ok a => Ok (a, σ)
       | Raise e => Raise e
       end.

Definition raise {A : Type} (e : exn) : M A := λ _, Raise e.

Definition read (l : loc) : M DataFrame :=
  λ σ, match σ !! l with
       | Some df => Ok (df, σ)
       | None => Raise KeyError
       end.

Definition write (l : loc) (df : DataFrame) : M unit :=
  λ σ, Ok (tt, <[l := df]> σ).

Definition alloc (df : DataFrame) : M loc :=
  λ σ, Ok (length σ, σ ++ [df]).

End Store.

Export Store.

Notation "x <~ m ;; k" := (bind m (λ x, k))
  (at level 100, m at next level, k at level 200, right associativity).

(** [df.copy()] *)
Definition copy (df : loc) : M loc :=
  d <~ read df ;; alloc d.

(** [df[label]] and [df[label] = c] through a reference. *)
Definition getitem_at (df : loc) (label : string) : M column :=
  d <~ read df ;; lift (getitem d label).

Definition setitem_at (df : loc) (label : string) (c : column) : M unit :=
  d <~ read df ;; write df (setitem d label c).

(** ** [HealthDataStandardizer] *)

(** [self.data_frames]: logical series name to frame, in insertion order. *)
Abbreviation data_frames_t := (list (string * option loc)).

Definition dict_get {V : Type} (d : list (string * V)) (k : string) : option V :=
  snd <$> head (filter (λ p, p.1 = k) d).

(** *** [_standardize_timestamp] *)

Definition date_candidates : list string :=
  ["date"; "timestamp"; "creation_date"; "recorded_time"; "sleep_start"; "sleep_end"]%string.

(** Lines 18-25: the explicit name, or the first candidate that is a column. *)
Definition resolve_date_col (cols : list string) (date_col : option string)
  : result string :=
  match date_col with
  | Some c => Ok c
  | None =>
      match filter (λ col, col ∈ cols) date_candidates with
      | col :: _ => Ok col
      | [] => Raise ValueError
      end
  end.

(** An element of a column, as iteration or indexing yields it. *)
Inductive item : Type :=
  | Cell (c : cell)
  | Instant (tz : option Z) (t : stamp).

Definition items (c : column) : list item :=
  match c with
  | Object cells => Cell <$> cells
  | Datetime tz s => Instant tz <$> s
  end.

Definition stamps_of (c : column) : list stamp :=
  match c with
  | Datetime _ s => s
  | Object _ => []
  end.

(** One entry of the [adjustments] list.  [difference_seconds] is [None] for
    the float [nan]; a difference of two whole minutes is a whole number of
    seconds. *)
Record adjustment : Type := {
  index : nat;
  original : item;
  original_utc : stamp;
  final : stamp;
  difference_seconds : option Z
}.

Inductive adjustment_type : Type := round_up | round_down.

(** [lambda x: 'round_up' if x > 0 else 'round_down']; [nan > 0] is false. *)
Definition classify (x : option Z) : adjustment_type :=
  match x with
  | Some d => if 0 <? d then round_up else round_down
  | None => round_down
  end.

(** [orig != pd.Timestamp(final).tz_localize('UTC')]: both sides are UTC
    instants; [NaT] differs from everything, itself included. *)
Definition stamp_ne (orig final_utc : stamp) : bool :=
  match orig, final_utc with
  | Some a, Some b => negb (a =? b)
  | _, _ => true
  end.

(** [(b - a).total_seconds()], [nan] when either side is [NaT]. *)
Definition total_seconds_between (a b : stamp) : option Z :=
  match a, b with
  | Some x, Some y => Some ((y - x) `div` NS_PER_SEC)
  | _, _ => None
  end.

(** Lines 50-59.  The three columns have the frame's row count, so
    [original_timestamps[idx]] is the element zipped at position [idx]. *)
Definition collect_adjustments (original_timestamps : list item)
    (orig_utc final_col : list stamp) : list adjustment :=
  omap (λ t : nat * (item * (stamp * stamp)),
          let '(idx, (o, (orig, final))) := t in
          if stamp_ne orig final
          then Some {| index := idx; original := o; original_utc := orig;
                       final := final;
                       difference_seconds := total_seconds_between orig final |}
          else None)
       (imap (λ idx x, (idx, x))
             (zip original_timestamps (zip orig_utc final_col))).

(** The instants of a parsed column, each rounded to the minute. *)
Definition rounded (c : column) : list stamp :=
  fmap (M:=option) round_min <$> stamps_of c.

(** The method returns the new frame; the [adjustments] list, which the source
    only summarises on the console, is returned next to it. *)
Definition _standardize_timestamp (df : loc) (date_col : option string)
  : M (loc * list adjustment) :=
  df <~ copy df ;;
  d <~ read df ;;
  date_col <~ lift (resolve_date_col (columns d) date_col) ;;
  original_timestamps <~ getitem_at df date_col ;;
  c <~ getitem_at df date_col ;;
  _ <~ (if is_datetime64_any_dtype c then ret tt
        else c' <~ lift (to_datetime c) ;; setitem_at df date_col c') ;;
  orig_utc <~ getitem_at df date_col ;;
  tz <~ lift (dt_tz orig_utc) ;;
  orig_utc <~ lift (match tz with
                    | None => tz_localize orig_utc (Some UTC)
                    | Some _ => tz_convert orig_utc UTC
                    end) ;;
  orig_utc <~ lift (dt_round_min orig_utc) ;;
  c <~ getitem_at df date_col ;;
  tz <~ lift (dt_tz c) ;;
  _ <~ (match tz with
        | None => c' <~ lift (tz_localize c (Some UTC)) ;; setitem_at df date_col c'
        | Some _ => ret tt
        end) ;;
  c <~ getitem_at df date_col ;;
  c' <~ lift (let? u := tz_convert c UTC in tz_localize u None) ;;
  _ <~ setitem_at df date_col c' ;;
  c <~ getitem_at df date_col ;;
  c' <~ lift (dt_round_min c) ;;
  _ <~ setitem_at df date_col c' ;;
  final_col <~ getitem_at df date_col ;;
  ret (df, collect_adjustments (items original_timestamps)
                               (stamps_of orig_utc) (stamps_of final_col)).

(** *** [create_base_timeline] *)

(** Lines 210-235.  [min] and [max] skip missing entries.  On a column that
    is not datetime-typed they give [nan] when nothing is left, the bounds
    are then [NaT] and [date_range] refuses them; a number or a text minus a
    [Timedelta] is a [TypeError]. *)
Definition create_base_timeline (data_frames : data_frames_t) : M loc :=
  match dict_get data_frames "blood_glucose" with
  | Some (Some bgl_df) =>
      dates <~ getitem_at bgl_df "date" ;;
      match dates with
      | Datetime tz s =>
          let start_date := stamps_min s in
          let end_date := stamps_max s in
          start_date <~ lift (timestamp_add start_date (- NS_PER_DAY)) ;;
          end_date <~ lift (timestamp_add end_date NS_PER_DAY) ;;
          timeline <~ lift (date_range start_date end_date) ;;
          base_df <~ alloc [("timestamp"%string, Datetime tz timeline)] ;;
          r <~ _standardize_timestamp base_df (Some "timestamp"%string) ;;
          ret r.1
      | Object cells =>
          if forallb (λ c, bool_decide (c = NaN)) cells
          then raise ValueError else raise TypeError
      end
  | _ => raise ValueError
  end.

(** *** [merge_all_data] *)

(** No two rows hold the same instant. *)
Definition stamps_distinct (s : list stamp) : Prop :=
  ∀ i j v, s !! i = Some (Some v) → s !! j = Some (Some v) → i = j.

Definition time_terms : list string := ["time"; "date"; "timestamp"]%string.

(** [any(term in col.lower() for term in ['time', 'date', 'timestamp'])] *)
Definition is_time_like (col : string) : bool :=
  existsb (λ term, contains term (lower col)) time_terms.

(** Lines 270-272: the labels that contain one of the terms, in column
    order. *)
Definition time_cols (cols : list string) : list string :=
  filter (λ col, is_time_like col = true) cols.

(** Lines 263-289: the body of the loop over [self.data_frames.items()];
    [continue] leaves [final_df] as it is. *)
Definition merge_one (name : string) (df : option loc) (final_df : loc) : M loc :=
  match df with
  | None => ret final_df
  | Some df =>
      d <~ read df ;;
      if empty d || bool_decide (name = "blood_glucose"%string)
      then ret final_df
      else
        merge_df <~ copy df ;;
        m <~ read merge_df ;;
        match time_cols (columns m) with
        | [] => ret final_df
        | primary_time_col :: _ =>
            f <~ read final_df ;;
            merged <~ lift (merge f m "timestamp" primary_time_col
                                  (""%string, "_" +:+ name)) ;;
            alloc merged
        end
  end.

(** Lines 262-289. *)
Fixpoint merge_others (entries : list (string * option loc)) (final_df : loc)
  : M loc :=
  match entries with
  | [] => ret final_df
  | (name, df) :: rest =>
      final_df <~ merge_one name df final_df ;;
      merge_others rest final_df
  end.

Definition merge_all_data (data_frames : data_frames_t) : M loc :=
  final_df <~ create_base_timeline data_frames ;;
  final_df <~ (match dict_get data_frames "blood_glucose" with
               | Some (Some bgl) =>
                   bgl_df <~ copy bgl ;;
                   f <~ read final_df ;;
                   b <~ read bgl_df ;;
                   merged <~ lift (merge f b "timestamp" "date"
                                         ("_x"%string, "_y"%string)) ;;
                   alloc merged
               | Some None => raise AttributeError
               | None => ret final_df
               end) ;;
  final_df <~ merge_others data_frames final_df ;;
  f <~ read final_df ;;
  alloc (drop_duplicated f).

(** The column a registered series is joined on: [date] for the primary
    series (line 254), the first time-like label for any other (line 276). *)
Definition join_key (name : string) (df : DataFrame) : option string :=
  if bool_decide (name = "blood_glucose"%string) then Some "date"%string
  else head (time_cols (columns df)).

(** The frame that the join reads on the right: without its key column when
    that column is labelled like the left key. *)
Definition right_frame (left_on right_on : string) (right : DataFrame) : DataFrame :=
  if bool_decide (left_on = right_on)
  then filter (λ p, p.1 ≠ right_on) right else right.

(** For each grid instant, the row of [K] stamped with it, if any. *)
Definition partners (g K : list stamp) : list (option nat) :=
  (λ t, head (matches t K)) <$> g.

(** ** Invariant of the accumulated dataset *)

(** The first column of the accumulated dataset is the grid, it is the only
    column that can answer to the label [timestamp], and every other column
    has one row per grid entry. *)
Definition on_grid (g : list stamp) (f : DataFrame) : Prop :=
  ∃ lbl rest,
    f = (lbl, Datetime None g) :: rest
    ∧ (lbl = "timestamp"%string ∨ "timestamp"%string ∉ columns rest)
    ∧ Forall (λ p, col_len p.2 = length g) rest.

(** ** Registering series: [process_sleep] and [process_stress_score] *)

(** [self.data_frames[k] = v]: an existing key keeps its place. *)
Definition dict_set {V : Type} (d : list (string * V)) (k : string) (v : V)
  : list (string * V) :=
  if bool_decide (k ∈ d.*1)
  then (λ p, if bool_decide (p.1 = k) then (k, v) else p) <$> d
  else d ++ [(k, v)].

(** [pd.read_csv(path, usecols=cols)] on the table [file] that the file at
    [path] holds: a new frame with the listed columns, in the order of the
    file; a listed label that the file lacks is an error. *)
Definition read_csv (file : DataFrame) (usecols : list string) : M loc :=
  if forallb (λ c, bool_decide (c ∈ columns file)) usecols
  then alloc (filter (λ p, p.1 ∈ usecols) file)
  else raise ValueError.

Definition sleep_score_cols : list string :=
  ["timestamp"; "overall_score"; "deep_sleep_in_minutes"; "resting_heart_rate";
   "restlessness"]%string.

Definition sleep_profile_cols : list string :=
  ["creation_date"; "sleep_type"; "deep_sleep"; "rem_sleep"; "sleep_duration"]%string.

(** Lines 137-160.  A file argument is [None] when [os.path.exists] is false,
    and otherwise the table in the file.  The registry [self.data_frames] is
    passed in and returned. *)
Definition process_sleep (profile_file score_file : option DataFrame)
    (data_frames : data_frames_t)
  : M ((option loc * option loc) * data_frames_t) :=
  data_frames <~ match score_file with
                 | Some file =>
                     score_df <~ read_csv file sleep_score_cols ;;
                     score_df <~ _standardize_timestamp score_df (Some "timestamp"%string) ;;
                     ret (dict_set data_frames "sleep_score" (Some score_df.1))
                 | None => ret data_frames
                 end ;;
  data_frames <~ match profile_file with
                 | Some file =>
                     profile_df <~ read_csv file sleep_profile_cols ;;
                     profile_df <~ _standardize_timestamp profile_df (Some "creation_date"%string) ;;
                     ret (dict_set data_frames "sleep_profile" (Some profile_df.1))
                 | None => ret data_frames
                 end ;;
  ret ((mjoin (dict_get data_frames "sleep_profile"),
        mjoin (dict_get data_frames "sleep_score")), data_frames).

Definition essential_cols : list string :=
  ["DATE"; "STRESS_SCORE"; "SLEEP_POINTS"; "RESPONSIVENESS_POINTS";
   "EXERTION_POINTS"; "STATUS"]%string.

(** Lines 328-343. *)
Definition process_stress_score (file : option DataFrame)
    (data_frames : data_frames_t) : M (option loc * data_frames_t) :=
  match file with
  | None => ret (None, data_frames)
  | Some file =>
      df <~ read_csv file essential_cols ;;
      df <~ _standardize_timestamp df (Some "DATE"%string) ;;
      let data_frames := dict_set data_frames "stress_score" (Some df.1) in
      match dict_get data_frames "stress_score" with
      | Some r => ret (r, data_frames)
      | None => raise KeyError
      end
  end.

(** ** Further invariants and readings *)

(** The instants that a column denotes: what its text reads as, or the
    instants it holds. *)
Definition instants (c : column) : list stamp :=
  match c with
  | Object cells => (λ x, instant_of (read_cell x)) <$> cells
  | Datetime _ s => s
  end.

(** No row of the column has a value. *)
Definition all_missing (c : column) : Prop :=
  match c with
  | Object cells => Forall (λ x, x = NaN) cells
  | Datetime _ s => Forall (λ t, t = None) s
  end.

(** The first column of the accumulated dataset holds the instants [T], and
    no other column can answer to the label [timestamp]. *)
Definition keyed (T : list stamp) (f : DataFrame) : Prop :=
  ∃ lbl rest,
    f = (lbl, Datetime None T) :: rest
    ∧ (lbl = "timestamp"%string ∨ "timestamp"%string ∉ columns rest).

(** [expands l k]: [k] is [l] with each entry repeated in place, once or
    more. *)
Inductive expands {A : Type} : list A → list A → Prop :=
  | expands_nil : expands [] []
  | expands_cons x n l k :
      expands l k → expands (x :: l) (replicate (S n) x ++ k).

(** [carried jx f f']: the frame [f'] has every column of [f], under its
    label and at its position, with the rows [jx] of [f]. *)
Definition carried (jx : list nat) (f f' : DataFrame) : Prop :=
  ∀ k label col,
    f !! k = Some (label, col) → f' !! k = Some (label, take col (Some <$> jx)).

(** An entry of the registry that the loop of [merge_all_data] passes over:
    no frame, an empty frame, the primary series, or a frame none of whose
    labels is time-like. *)
Definition passed_over (σ : store) (entry : string * option loc) : Prop :=
  match entry.2 with
  | None => True
  | Some r =>
      ∃ df, σ !! r = Some df
            ∧ (empty df = true ∨ entry.1 = "blood_glucose"%string
               ∨ time_cols (columns df) = [])
  end.

(** ** Frames used in examples *)

(** One reading stamped 2023-01-01 12:00:30Z. *)
Definition tie_frame : DataFrame :=
  [("date", Object [DateStr (at_ 2023 1 1 12 0 30) (Some 0)]);
   ("bgl", Object [Num 101])]%string.

Definition tie_frame_out : DataFrame :=
  [("date", Datetime None [Some (at_ 2023 1 1 12 0 0)]);
   ("bgl", Object [Num 101])]%string.

(** What rounding half up would produce from [tie_frame]: the next minute,
    and one record classified [round_up] with a delta of +30 s. *)
Definition half_up_outcome (r : result (loc * list adjustment * store)) : Prop :=
  ∃ l' a σ' df',
    r = Ok ((l', [a]), σ') ∧ σ' !! l' = Some df'
    ∧ getitem df' "date" = Ok (Datetime None [Some (at_ 2023 1 1 12 1 0)])
    ∧ difference_seconds a = Some 30
    ∧ classify (difference_seconds a) = round_up.

(** Two readings, the second with an empty timestamp cell. *)
Definition gap_frame : DataFrame :=
  [("date", Object [DateStr (at_ 2023 1 1 12 0 0) None; NaN]);
   ("bgl", Object [Num 101; Num 99])]%string.

(** Two readings written with the offset +05:00. *)
Definition aware_frame : DataFrame :=
  [("date", Object [DateStr (at_ 2023 1 1 12 0 10) (Some 18000);
                    DateStr (at_ 2023 1 1 12 5 50) (Some 18000)]);
   ("bgl", Object [Num 101; Num 99])]%string.

Definition aware_frame_out : DataFrame :=
  [("date", Datetime None [Some (at_ 2023 1 1 7 0 0); Some (at_ 2023 1 1 7 6 0)]);
   ("bgl", Object [Num 101; Num 99])]%string.

(** One reading with an offset, one without. *)
Definition mixed_frame : DataFrame :=
  [("date", Object [DateStr (at_ 2023 1 1 12 0 0) (Some 18000);
                    DateStr (at_ 2023 1 1 12 5 0) None]);
   ("bgl", Object [Num 101; Num 99])]%string.

(** A series with two time-like columns, [timestamp] before [date]. *)
Definition two_clocks_frame : DataFrame :=
  [("timestamp", Object [DateStr (at_ 2023 1 1 12 0 0) None]);
   ("date", Object [DateStr (at_ 2023 1 1 0 0 0) None]);
   ("value", Object [Num 97])]%string.

(** A nightly series keyed by [sleep_start]. *)
Definition nightly_frame : DataFrame :=
  [("sleep_start", Object [DateStr (at_ 2023 1 1 23 0 0) None]);
   ("nightly_temperature", Object [Num 36])]%string.

(** A daily score keyed by [timestamp]. *)
Definition score_frame : DataFrame :=
  [("timestamp", Object [DateStr (at_ 2023 1 1 12 0 0) None]);
   ("overall_score", Object [Num 80])]%string.

(** A primary series spanning 2023-01-01 00:00 to 2023-01-02 00:00. *)
Definition primary_frame : DataFrame :=
  [("date", Datetime None [Some (at_ 2023 1 1 0 0 0); Some (at_ 2023 1 1 12 0 0);
                            Some (at_ 2023 1 2 0 0 0)]);
   ("bgl", Object [Num 101; Num 99; Num 104])]%string.

(** A normalised daily score stamped 2023-01-01 12:00. *)
Definition daily_score_frame : DataFrame :=
  [("timestamp", Datetime None [Some (at_ 2023 1 1 12 0 0)]);
   ("overall_score", Object [Num 80])]%string.

(** A primary series with two readings in the same minute. *)
Definition twin_primary_frame : DataFrame :=
  [("date", Datetime None [Some (at_ 2023 1 1 0 0 0); Some (at_ 2023 1 1 0 0 0)]);
   ("bgl", Object [Num 101; Num 99])]%string.

(** An accumulated dataset and a series that both have a column [score]. *)
Definition acc_frame : DataFrame :=
  [("timestamp", Datetime None [Some (at_ 2023 1 1 0 0 0); Some (at_ 2023 1 1 0 1 0)]);
   ("score", Object [Num 1; Num 2])]%string.

Definition sleep_frame : DataFrame :=
  [("timestamp", Datetime None [Some (at_ 2023 1 1 0 1 0)]);
   ("score", Object [Num 9])]%string.

Definition acc_sleep_frame : DataFrame :=
  [("timestamp", Datetime None [Some (at_ 2023 1 1 0 0 0); Some (at_ 2023 1 1 0 1 0)]);
   ("score", Object [Num 1; Num 2]);
   ("score_sleep", Object [NaN; Num 9])]%string.

(** A registry of two series and the store that holds them. *)
Definition demo_frames : data_frames_t :=
  [("blood_glucose", Some 0%nat); ("sleep_score", Some 1%nat)]%string.

Definition demo_store : store := [primary_frame; daily_score_frame].

(** Reading the outcome of a run. *)
Definition run_loc (r : result (loc * store)) : loc :=
  match r with Ok (l, _) => l | Raise _ => 0%nat end.

Definition run_store (r : result (loc * store)) : store :=
  match r with Ok (_, σ) => σ | Raise _ => [] end.

Definition frame_at (σ : store) (l : loc) : DataFrame := default [] (σ !! l).

Definition joined (r : result DataFrame) : DataFrame :=
  match r with Ok f => f | Raise _ => [] end.

Definition first_stamps (df : DataFrame) : list stamp :=
  match df with
  | (_, c) :: _ => stamps_of c
  | [] => []
  end.

Definition demo_run : result (loc * store) := merge_all_data demo_frames demo_store.

(** A primary series of one reading without a timestamp, and one of a single
    reading on the last day that can be represented. *)
Definition blank_primary_frame : DataFrame :=
  [("date", Datetime None [None]); ("bgl", Object [Num 101])]%string.

Definition late_primary_frame : DataFrame :=
  [("date", Datetime None [Some (at_ 2262 4 11 0 0 0)]);
   ("bgl", Object [Num 101])]%string.

(** Whether some text or number column of a frame holds the cell [v]. *)
Definition holds (v : cell) (df : DataFrame) : bool :=
  existsb (λ p : string * column,
             match p.2 with
             | Object cells => bool_decide (v ∈ cells)
             | Datetime _ _ => false
             end) df.

(** A primary series with a column [score], and a sleep series with a
    column [score] of its own. *)
Definition scored_primary_frame : DataFrame :=
  [("date", Datetime None [Some (at_ 2023 1 1 0 0 0)]);
   ("score", Object [Num 1])]%string.

Definition scored_sleep_frame : DataFrame :=
  [("timestamp", Datetime None [Some (at_ 2023 1 1 0 0 0)]);
   ("score", Object [Num 9])]%string.

Definition scored_frames : data_frames_t :=
  [("blood_glucose", Some 0%nat); ("sleep", Some 1%nat)]%string.

Definition scored_store : store := [scored_primary_frame; scored_sleep_frame].

Definition scored_run : result (loc * store) :=
  merge_all_data scored_frames scored_store.

(** The same two series when each also has a column [score_sleep]. *)
Definition twice_scored_primary_frame : DataFrame :=
  [("date", Datetime None [Some (at_ 2023 1 1 0 0 0)]);
   ("score", Object [Num 1]);
   ("score_sleep", Object [Num 2])]%string.

Definition twice_scored_sleep_frame : DataFrame :=
  [("timestamp", Datetime None [Some (at_ 2023 1 1 0 0 0)]);
   ("score", Object [Num 9]);
   ("score_sleep", Object [Num 8])]%string.

Definition twice_scored_run : result (loc * store) :=
  merge_all_data scored_frames
    [twice_scored_primary_frame; twice_scored_sleep_frame].

(** ** Frames used in further examples *)

(** A stress-score table: its timestamp column is labelled in capitals. *)
Definition stress_file : DataFrame :=
  [("DATE", Object [DateStr (at_ 2023 1 1 0 0 0) None]);
   ("STRESS_SCORE", Object [Num 70]);
   ("SLEEP_POINTS", Object [Num 20]);
   ("RESPONSIVENESS_POINTS", Object [Num 25]);
   ("EXERTION_POINTS", Object [Num 25]);
   ("STATUS", Object [Str "READY"]);
   ("CALCULATION_FAILED", Object [Str "false"])]%string.



(** A column already parsed, in the zone +05:00; it holds UTC instants. *)
Definition zoned_frame : DataFrame :=
  [("date", Datetime (Some 18000) [Some (at_ 2023 1 1 7 0 10); None]);
   ("bgl", Object [Num 101; Num 99])]%string.

(** Three readings, two of them in the same minute, and one missing. *)
Definition crowded_frame : DataFrame :=
  [("date", Object [DateStr (at_ 2023 1 1 12 0 10) None;
                    DateStr (at_ 2023 1 1 12 0 20) None; NaN; NaN]);
   ("bgl", Object [Num 101; Num 99; Num 98; Num 97])]%string.

(** [two_clocks_frame] after normalisation: [date] is canonical, [timestamp]
    is still text. *)
Definition two_clocks_out : DataFrame :=
  [("timestamp", Object [DateStr (at_ 2023 1 1 12 0 0) None]);
   ("date", Datetime None [Some (at_ 2023 1 1 0 0 0)]);
   ("value", Object [Num 97])]%string.

(** [nightly_frame] after normalisation. *)
Definition nightly_out : DataFrame :=
  [("sleep_start", Datetime None [Some (at_ 2023 1 1 23 0 0)]);
   ("nightly_temperature", Object [Num 36])]%string.

(** A registry with the primary series and a nightly series. *)
Definition nightly_frames : data_frames_t :=
  [("blood_glucose", Some 0%nat); ("computed_temperature", Some 1%nat)]%string.

Definition nightly_store : store := [primary_frame; nightly_out].

Definition nightly_run : result (loc * store) :=
  merge_all_data nightly_frames nightly_store.

(** A sleep-score table and a sleep-profile table. *)
Definition sleep_score_file : DataFrame :=
  [("sleep_log_entry_id", Object [Num 1]);
   ("timestamp", Object [DateStr (at_ 2023 1 1 6 30 29) (Some 0)]);
   ("overall_score", Object [Num 80]);
   ("deep_sleep_in_minutes", Object [Num 75]);
   ("resting_heart_rate", Object [Num 58]);
   ("restlessness", Object [Num 7])]%string.

Definition sleep_profile_file : DataFrame :=
  [("creation_date", Object [DateStr (at_ 2023 1 1 0 0 0) None]);
   ("sleep_type", Object [Str "Bear"]);
   ("deep_sleep", Object [Num 17]);
   ("rem_sleep", Object [Num 20]);
   ("sleep_duration", Object [Num 7])]%string.

(** What [process_stress_score] reads from [stress_file], and the frame it
    registers. *)
Definition stress_frame : DataFrame :=
  [("DATE", Object [DateStr (at_ 2023 1 1 0 0 0) None]);
   ("STRESS_SCORE", Object [Num 70]);
   ("SLEEP_POINTS", Object [Num 20]);
   ("RESPONSIVENESS_POINTS", Object [Num 25]);
   ("EXERTION_POINTS", Object [Num 25]);
   ("STATUS", Object [Str "READY"])]%string.

Definition stress_frame_out : DataFrame :=
  [("DATE", Datetime None [Some (at_ 2023 1 1 0 0 0)]);
   ("STRESS_SCORE", Object [Num 70]);
   ("SLEEP_POINTS", Object [Num 20]);
   ("RESPONSIVENESS_POINTS", Object [Num 25]);
   ("EXERTION_POINTS", Object [Num 25]);
   ("STATUS", Object [Str "READY"])]%string.

(** What [process_sleep] reads from the two sleep tables, and the frames it
    registers. *)
Definition sleep_score_frame : DataFrame :=
  [("timestamp", Object [DateStr (at_ 2023 1 1 6 30 29) (Some 0)]);
   ("overall_score", Object [Num 80]);
   ("deep_sleep_in_minutes", Object [Num 75]);
   ("resting_heart_rate", Object [Num 58]);
   ("restlessness", Object [Num 7])]%string.

Definition sleep_score_frame_out : DataFrame :=
  [("timestamp", Datetime None [Some (at_ 2023 1 1 6 30 0)]);
   ("overall_score", Object [Num 80]);
   ("deep_sleep_in_minutes", Object [Num 75]);
   ("resting_heart_rate", Object [Num 58]);
   ("restlessness", Object [Num 7])]%string.

Definition sleep_profile_frame_out : DataFrame :=
  [("creation_date", Datetime None [Some (at_ 2023 1 1 0 0 0)]);
   ("sleep_type", Object [Str "Bear"]);
   ("deep_sleep", Object [Num 17]);
   ("rem_sleep", Object [Num 20]);
   ("sleep_duration", Object [Num 7])]%string.

(** A primary series that has a column [timestamp] besides [date], and its
    join onto a grid of one instant. *)
Definition stamped_primary_frame : DataFrame :=
  [("date", Datetime None [Some (at_ 2023 1 1 0 0 0)]);
   ("timestamp", Object [Num 1672531200]);
   ("bgl", Object [Num 101])]%string.

Definition stamped_primary_joined : DataFrame :=
  [("timestamp_x", Datetime None [Some (at_ 2023 1 1 0 0 0)]);
   ("date", Datetime None [Some (at_ 2023 1 1 0 0 0)]);
   ("timestamp_y", Object [Num 1672531200]);
   ("bgl", Object [Num 101])]%string.
(** * Lemmas *)

(** ** Rounding to the minute *)

Lemma NS_PER_MIN_eq : NS_PER_MIN = 60000000000.
Proof. reflexivity. Qed.

Lemma round_min_multiple v : round_min v `mod` NS_PER_MIN = 0.
Proof.
  unfold round_min, round_nsint64.
  destruct (_ || _); apply Z.mod_mul; rewrite NS_PER_MIN_eq; lia.
Qed.

Lemma round_min_near v : Z.abs (round_min v - v) ≤ 30 * NS_PER_SEC.
Proof.
  unfold round_min, round_nsint64. rewrite NS_PER_MIN_eq. unfold NS_PER_SEC.
  change (60000000000 `div` 2) with 30000000000.
  pose proof (Z.div_mod v 60000000000 ltac:(lia)) as Hdm.
  pose proof (Z.mod_pos_bound v 60000000000 ltac:(lia)) as Hb.
  destruct (30000000000 <? v `mod` 60000000000) eqn:Hlt; simpl.
  - apply Z.ltb_lt in Hlt. lia.
  - apply Z.ltb_ge in Hlt.
    destruct (v `mod` 60000000000 =? 30000000000) eqn:Heq; simpl.
    + apply Z.eqb_eq in Heq. destruct (Z.odd _); lia.
    + lia.
Qed.

Lemma round_min_canonical v : v `mod` NS_PER_MIN = 0 → round_min v = v.
Proof.
  intros Hv. unfold round_min, round_nsint64. rewrite Hv.
  rewrite NS_PER_MIN_eq in *. change (60000000000 `div` 2) with 30000000000.
  simpl. pose proof (Z.div_mod v 60000000000 ltac:(lia)). lia.
Qed.

Lemma round_min_tie q :
  round_min (q * NS_PER_MIN + 30 * NS_PER_SEC)
  = if Z.even q then q * NS_PER_MIN else (q + 1) * NS_PER_MIN.
Proof.
  unfold round_min, round_nsint64. rewrite NS_PER_MIN_eq. unfold NS_PER_SEC.
  change (60000000000 `div` 2) with 30000000000.
  change (30 * 1000000000) with 30000000000.
  assert (Hq : (q * 60000000000 + 30000000000) `div` 60000000000 = q).
  { symmetry. apply (Z.div_unique _ _ q 30000000000); lia. }
  assert (Hr : (q * 60000000000 + 30000000000) `mod` 60000000000 = 30000000000).
  { symmetry. apply (Z.mod_unique _ _ q 30000000000); lia. }
  rewrite Hq, Hr. simpl. rewrite <- Z.negb_even. destruct (Z.even q); reflexivity.
Qed.

(** ** Frames *)

Lemma filter_label_nil (df : DataFrame) c :
  c ∉ columns df → filter (λ p : string * column, p.1 = c) df = [].
Proof.
  unfold columns. induction df as [|[l x] df IH]; intros Hc; [done|].
  rewrite fmap_cons, not_elem_of_cons in Hc. destruct Hc as [Hne Hc].
  rewrite filter_cons. simpl in *. rewrite decide_False by congruence. auto.
Qed.

Lemma filter_label_nil_inv (df : DataFrame) c :
  filter (λ p : string * column, p.1 = c) df = [] → c ∉ columns df.
Proof.
  unfold columns. induction df as [|[l x] df IH]; intros Hf.
  - apply not_elem_of_nil.
  - rewrite filter_cons in Hf. rewrite fmap_cons, not_elem_of_cons.
    simpl in *. destruct (decide (l = c)) as [->|Hne]; [done|].
    split; [congruence | auto].
Qed.

(** [df[c]] is a column exactly when one column carries the label. *)
Lemma getitem_Ok (df : DataFrame) c col :
  getitem df c = Ok col ↔
  ∃ pre post, df = pre ++ (c, col) :: post ∧ (c ∉ columns pre) ∧ (c ∉ columns post).
Proof.
  unfold getitem. split.
  - revert col. induction df as [|[l x] df IH]; intros col; [done|].
    rewrite filter_cons. simpl.
    destruct (decide (l = c)) as [->|Hne].
    + destruct (filter _ df) as [|q qs] eqn:Hf; [|done].
      intros [= <-]. exists [], df. split; [done|].
      split; [apply not_elem_of_nil | by apply filter_label_nil_inv].
    + intros Hg. destruct (IH col Hg) as (pre & post & -> & Hpre & Hpost).
      exists ((l, x) :: pre), post. split; [done|]. split; [|done].
      unfold columns in *. simpl. rewrite not_elem_of_cons. split; [congruence|done].
  - intros (pre & post & -> & Hpre & Hpost).
    rewrite filter_app, filter_cons. simpl.
    rewrite decide_True by done.
    by rewrite !filter_label_nil.
Qed.

Lemma setitem_unique pre post c col x :
  c ∉ columns pre → c ∉ columns post →
  setitem (pre ++ (c, col) :: post) c x = pre ++ (c, x) :: post.
Proof.
  intros Hpre Hpost. unfold setitem.
  rewrite bool_decide_true.
  2:{ unfold columns. rewrite fmap_app, fmap_cons. simpl.
      apply elem_of_app. right. apply elem_of_cons. by left. }
  assert (Hid : ∀ l : DataFrame, c ∉ columns l →
            (λ p : string * column, if bool_decide (p.1 = c) then (c, x) else p) <$> l = l).
  { induction l as [|[k y] l IH]; simpl; intros Hl; [done|].
    unfold columns in Hl. simpl in Hl. rewrite not_elem_of_cons in Hl.
    destruct Hl as [Hne Hl]. rewrite bool_decide_false by congruence.
    f_equal. by apply IH. }
  rewrite fmap_app, fmap_cons. simpl. rewrite bool_decide_true by done.
  by rewrite !Hid.
Qed.

Lemma getitem_unique pre post c col :
  c ∉ columns pre → c ∉ columns post →
  getitem (pre ++ (c, col) :: post) c = Ok col.
Proof. intros. apply getitem_Ok. eauto. Qed.

(** ** The store *)

Lemma bind_unfold {A B} (m : M A) (k : A → M B) σ :
  bind m k σ = match m σ with Ok (a, σ') => k a σ' | Raise e => Raise e end.
Proof. reflexivity. Qed.

Lemma lookup_fresh (σ : store) d : (σ ++ [d]) !! length σ = Some d.
Proof. by apply list_lookup_middle. Qed.

Lemma insert_fresh (σ : store) d d' : <[length σ := d']> (σ ++ [d]) = σ ++ [d'].
Proof.
  rewrite insert_app_r_alt by lia. rewrite Nat.sub_diag. reflexivity.
Qed.

Lemma read_fresh (σ : store) d : read (length σ) (σ ++ [d]) = Ok (d, σ ++ [d]).
Proof. unfold read. by rewrite lookup_fresh. Qed.

Lemma getitem_at_fresh (σ : store) d c :
  getitem_at (length σ) c (σ ++ [d])
  = match getitem d c with Ok x => Ok (x, σ ++ [d]) | Raise e => Raise e end.
Proof. unfold getitem_at. rewrite bind_unfold, read_fresh. reflexivity. Qed.

Lemma setitem_at_fresh (σ : store) d c x :
  setitem_at (length σ) c x (σ ++ [d]) = Ok (tt, σ ++ [setitem d c x]).
Proof.
  unfold setitem_at. rewrite bind_unfold, read_fresh. unfold write.
  by rewrite insert_fresh.
Qed.

(** ** [_standardize_timestamp] as a function of the frame *)

Lemma stamps_fmap_id (f : Z → Z) (s : list stamp) :
  (∀ v, f v = v) → fmap (M:=option) f <$> s = s.
Proof.
  intros Hf. induction s as [|o s IH]; [done|].
  rewrite fmap_cons, IH. f_equal. destruct o; simpl; [by rewrite Hf|done].
Qed.

Lemma stamps_fmap_ext (f g : Z → Z) (s : list stamp) :
  (∀ v, f v = g v) → fmap (M:=option) f <$> s = fmap (M:=option) g <$> s.
Proof.
  intros Hf. apply list_fmap_ext. intros _ [v|] _; simpl; [by rewrite Hf|done].
Qed.

Lemma shift_zero (s : list stamp) :
  fmap (M:=option) (λ w, w - 0 * NS_PER_SEC) <$> s = s.
Proof. apply stamps_fmap_id. intros v. lia. Qed.

Lemma unshift_zero (s : list stamp) :
  fmap (M:=option) (λ u, u + 0 * NS_PER_SEC) <$> s = s.
Proof. apply stamps_fmap_id. intros v. lia. Qed.

Lemma round_shift_zero (s : list stamp) :
  fmap (M:=option) (λ v, round_min (v + 0 * NS_PER_SEC) - 0 * NS_PER_SEC) <$> s
  = fmap (M:=option) round_min <$> s.
Proof.
  apply stamps_fmap_ext. intros v.
  rewrite Z.mul_0_l, Z.add_0_r, Z.sub_0_r. reflexivity.
Qed.

Lemma bind_ret {A B} (a : A) (k : A → M B) σ : bind (ret a) k σ = k a σ.
Proof. reflexivity. Qed.

Lemma bind_lift_Ok {A B} (a : A) (k : A → M B) σ : bind (lift (Ok a)) k σ = k a σ.
Proof. reflexivity. Qed.

Lemma bind_lift_Raise {A B} e (k : A → M B) σ : bind (lift (Raise e)) k σ = Raise e.
Proof. reflexivity. Qed.

Lemma bind_assoc {A B C} (m : M A) (f : A → M B) (k : B → M C) σ :
  bind (bind m f) k σ = bind m (λ x, bind (f x) k) σ.
Proof. unfold bind. destruct (m σ) as [[a σ']|e]; reflexivity. Qed.

Lemma bind_getitem_fresh {B} (σ : store) pre post c col (k : column → M B) :
  c ∉ columns pre → c ∉ columns post →
  bind (getitem_at (length σ) c) k (σ ++ [pre ++ (c, col) :: post])
  = k col (σ ++ [pre ++ (c, col) :: post]).
Proof.
  intros. by rewrite bind_unfold, getitem_at_fresh, getitem_unique.
Qed.

Lemma bind_setitem_fresh {B} (σ : store) pre post c col x (k : unit → M B) :
  c ∉ columns pre → c ∉ columns post →
  bind (setitem_at (length σ) c x) k (σ ++ [pre ++ (c, col) :: post])
  = k tt (σ ++ [pre ++ (c, x) :: post]).
Proof.
  intros. by rewrite bind_unfold, setitem_at_fresh, setitem_unique.
Qed.

Ltac mstep :=
  first [ rewrite bind_getitem_fresh by done
        | rewrite bind_setitem_fresh by done
        | rewrite bind_assoc
        | rewrite bind_ret
        | rewrite bind_lift_Ok
        | rewrite bind_lift_Raise ];
  cbn [dt_tz tz_localize tz_convert dt_round_min rbind is_datetime64_any_dtype];
  cbv beta iota.

Lemma standardize_spec (σ : store) l dc df :
  σ !! l = Some df →
  _standardize_timestamp l dc σ =
    (let? c := resolve_date_col (columns df) dc in
     let? col := getitem df c in
     let? p := to_datetime col in
     Ok ((length σ, collect_adjustments (items col) (rounded p) (rounded p)),
         σ ++ [setitem df c (Datetime None (rounded p))])).
Proof.
  intros Hl. unfold _standardize_timestamp.
  rewrite bind_unfold. unfold copy at 1. rewrite bind_unfold.
  unfold read at 1. rewrite Hl. unfold alloc at 1.
  rewrite bind_unfold, read_fresh.
  destruct (resolve_date_col (columns df) dc) as [c|e]; cbn [rbind];
    [rewrite bind_lift_Ok | by rewrite bind_lift_Raise].
  rewrite bind_unfold, getitem_at_fresh.
  destruct (getitem df c) as [col|e] eqn:Hg; cbn [rbind]; [|done].
  apply getitem_Ok in Hg as (pre & post & -> & Hpre & Hpost).
  mstep.
  assert (Hparsed : ∀ p, to_datetime col = Ok p → ∃ tz s, p = Datetime tz s).
  { intros p Hp. destruct col; unfold to_datetime in Hp;
      repeat case_match; simplify_eq; eauto. }
  destruct col as [cells|tz s]; cbn [is_datetime64_any_dtype]; cbv iota.
  - mstep.
    destruct (to_datetime (Object cells)) as [p|e] eqn:Hp; cbn [rbind];
      [|by rewrite bind_lift_Raise].
    destruct (Hparsed p eq_refl) as (tz & s & ->).
    rewrite setitem_unique by done.
    destruct tz as [z|]; repeat mstep; unfold ret, rounded, UTC;
      cbn [stamps_of default];
      rewrite ?shift_zero, ?unshift_zero;
      rewrite !round_shift_zero; reflexivity.
  - cbn [to_datetime rbind]. rewrite setitem_unique by done.
    destruct tz as [z|]; repeat mstep; unfold ret, rounded, UTC;
      cbn [stamps_of default];
      rewrite ?shift_zero, ?unshift_zero;
      rewrite !round_shift_zero; reflexivity.
Qed.
Lemma standardize_Ok (σ : store) l dc l' adj σ' :
  _standardize_timestamp l dc σ = Ok ((l', adj), σ') →
  ∃ c col p pre post,
    σ !! l = Some (pre ++ (c, col) :: post) ∧
    resolve_date_col (columns (pre ++ (c, col) :: post)) dc = Ok c ∧
    (c ∉ columns pre) ∧ (c ∉ columns post) ∧
    to_datetime col = Ok p ∧
    l' = length σ ∧
    adj = collect_adjustments (items col) (rounded p) (rounded p) ∧
    σ' = σ ++ [pre ++ (c, Datetime None (rounded p)) :: post].
Proof.
  intros Hrun. destruct (σ !! l) as [df|] eqn:Hl.
  - rewrite (standardize_spec _ _ _ _ Hl) in Hrun.
    destruct (resolve_date_col (columns df) dc) as [c|] eqn:Hc; [|done].
    cbn [rbind] in Hrun.
    destruct (getitem df c) as [col|] eqn:Hg; [|done].
    cbn [rbind] in Hrun.
    destruct (to_datetime col) as [p|] eqn:Hp; [|done].
    cbn [rbind] in Hrun.
    apply getitem_Ok in Hg as (pre & post & -> & Hpre & Hpost).
    rewrite setitem_unique in Hrun by done. simplify_eq.
    by exists c, col, p, pre, post.
  - unfold _standardize_timestamp in Hrun.
    rewrite bind_unfold in Hrun. unfold copy in Hrun.
    rewrite bind_unfold in Hrun. unfold read in Hrun. by rewrite Hl in Hrun.
Qed.

(** ** Parsing *)

Lemma to_datetime_Object cells p :
  to_datetime (Object cells) = Ok p →
  ∃ tz, p = Datetime tz (instant_of <$> (read_cell <$> cells)).
Proof.
  unfold to_datetime. intros Hp. repeat case_match; simplify_eq; eauto.
Qed.

Lemma existsb_false_Forall {A} (f : A → bool) (l : list A) :
  Forall (λ x, f x = false) l → existsb f l = false.
Proof. induction 1 as [|x l Hx _ IH]; simpl; [done|]. by rewrite Hx, IH. Qed.

Lemma existsb_true_elem {A} (f : A → bool) (l : list A) x :
  x ∈ l → f x = true → existsb f l = true.
Proof.
  intros Hx Hf. apply existsb_exists. exists x. split; [|done].
  by apply list_elem_of_In.
Qed.

(** A column whose date texts carry no offset parses to a naive column. *)
Lemma to_datetime_naive cells :
  Forall (λ c, c = NaN ∨ ∃ w, c = DateStr w None) cells →
  to_datetime (Object cells)
  = Ok (Datetime None (instant_of <$> (read_cell <$> cells))).
Proof.
  intros Hall. unfold to_datetime.
  rewrite existsb_false_Forall.
  2:{ apply Forall_fmap. eapply Forall_impl; [exact Hall|].
      intros c [->|[w ->]]; reflexivity. }
  assert (Hoff : omap offset_of (read_cell <$> cells) = []).
  { induction Hall as [|c cells Hc _ IH]; [done|].
    rewrite fmap_cons. cbn [omap list_omap]. fold (omap offset_of (read_cell <$> cells)).
    rewrite IH. by destruct Hc as [->|[w ->]]. }
  by rewrite Hoff.
Qed.

(** A column whose date texts all carry the offset [off] parses to a
    zone-aware column (naive when it holds no date at all). *)
Lemma to_datetime_aware cells off :
  Forall (λ c, c = NaN ∨ ∃ w, c = DateStr w (Some off)) cells →
  ∃ tz, to_datetime (Object cells)
        = Ok (Datetime tz (instant_of <$> (read_cell <$> cells))).
Proof.
  intros Hall. unfold to_datetime.
  rewrite existsb_false_Forall.
  2:{ apply Forall_fmap. eapply Forall_impl; [exact Hall|].
      intros c [->|[w ->]]; reflexivity. }
  assert (Hnaive : existsb is_naive (read_cell <$> cells) = false).
  { apply existsb_false_Forall, Forall_fmap. eapply Forall_impl; [exact Hall|].
    intros c [->|[w ->]]; reflexivity. }
  assert (Hoff : Forall (λ o, o = off) (omap offset_of (read_cell <$> cells))).
  { clear Hnaive. induction Hall as [|c cells Hc _ IH]; [by constructor|].
    rewrite fmap_cons. cbn [omap list_omap]. fold (omap offset_of (read_cell <$> cells)).
    destruct Hc as [->|[w ->]]; cbn [read_cell offset_of]; [exact IH|].
    by constructor. }
  destruct (omap offset_of (read_cell <$> cells)) as [|o os]; [eauto|].
  rewrite Hnaive. cbn [negb andb].
  apply Forall_cons in Hoff as [-> Hos].
  assert (forallb (Z.eqb off) os = true) as ->; [|eauto].
  apply forallb_forall. intros o Ho. apply list_elem_of_In in Ho.
  rewrite Forall_forall in Hos. rewrite (Hos o Ho). apply Z.eqb_refl.
Qed.

(** A column that holds both a date text with an offset and one without
    is refused. *)
Lemma to_datetime_mixed cells w o w' :
  DateStr w (Some o) ∈ cells → DateStr w' None ∈ cells →
  ∃ e, to_datetime (Object cells) = Raise e.
Proof.
  intros Haware Hnaive. unfold to_datetime.
  destruct (existsb is_unparseable _); [eauto|].
  destruct (omap offset_of (read_cell <$> cells)) as [|off offs] eqn:Hoff.
  - exfalso. assert (o ∈ omap offset_of (read_cell <$> cells)) as Hin.
    { apply list_elem_of_omap. exists (read_cell (DateStr w (Some o))).
      split; [|done]. by apply list_elem_of_fmap_2. }
    rewrite Hoff in Hin. by apply elem_of_nil in Hin.
  - rewrite (existsb_true_elem is_naive _ (read_cell (DateStr w' None))); eauto.
    by apply list_elem_of_fmap_2.
Qed.

(** ** The adjustments list *)

Lemma stamp_ne_same (o : stamp) : stamp_ne o o = true ↔ o = None.
Proof.
  destruct o as [v|]; simpl; [|done].
  rewrite Z.eqb_refl. simpl. split; done.
Qed.

(** With reference and final value computed alike, a row is recorded exactly
    when its instant is missing. *)
Lemma collect_adjustments_same its (s : list stamp) a :
  a ∈ collect_adjustments its s s →
  s !! index a = Some None ∧ original_utc a = None ∧ final a = None
  ∧ difference_seconds a = None.
Proof.
  unfold collect_adjustments. intros Ha.
  apply list_elem_of_omap in Ha as ([i [o [orig fin]]] & Hin & Hf).
  apply elem_of_lookup_imap in Hin as (j & [o' [orig' fin']] & Heq & Hy).
  injection Heq as -> -> -> ->.
  apply lookup_zip_Some in Hy as [_ Hy].
  apply lookup_zip_Some in Hy as [H1 H2].
  rewrite H1 in H2. injection H2 as <-.
  destruct (stamp_ne orig' orig') eqn:Hne; [|done].
  apply stamp_ne_same in Hne as ->. injection Hf as <-. by cbn.
Qed.

Lemma collect_adjustments_nil its (s : list stamp) :
  (∀ i, s !! i ≠ Some None) → collect_adjustments its s s = [].
Proof.
  intros Hs. apply elem_of_nil_inv. intros a Ha.
  apply collect_adjustments_same in Ha as (Hi & _). by apply Hs in Hi.
Qed.

Lemma collect_adjustments_missing its (s : list stamp) i :
  length its = length s → s !! i = Some None →
  ∃ a, a ∈ collect_adjustments its s s ∧ index a = i.
Proof.
  intros Hlen Hi.
  destruct (lookup_lt_is_Some_2 its i) as [o Ho].
  { rewrite Hlen. by eapply lookup_lt_Some. }
  eexists. split; [|shelve].
  unfold collect_adjustments. apply list_elem_of_omap.
  exists (i, (o, (None, None))). split; [|reflexivity].
  apply elem_of_lookup_imap. exists i, (o, (None, None)). split; [done|].
  apply lookup_zip_with_Some. exists o, (None, None). split; [done|].
  split; [done|]. apply lookup_zip_with_Some. by exists None, None.
  Unshelve. reflexivity.
Qed.
(** ** The normalizer: statements of the specification *)

Lemma lookup_snoc_fresh (σ : store) d k :
  (σ ++ [d]) !! k = if decide (k = length σ) then Some d
                    else if decide (k < length σ)%nat then σ !! k else None.
Proof.
  destruct (decide (k = length σ)) as [->|Hne]; [apply lookup_fresh|].
  destruct (decide (k < length σ)%nat) as [Hlt|Hge].
  - by apply lookup_app_l.
  - apply lookup_ge_None. rewrite length_app. simpl. lia.
Qed.

Lemma rounded_lookup tz (s : list stamp) i :
  rounded (Datetime tz s) !! i = fmap (M:=option) round_min <$> (s !! i).
Proof. unfold rounded. cbn [stamps_of]. apply list_lookup_fmap. Qed.

Lemma rounded_canonical p i v :
  rounded p !! i = Some (Some v) → v `mod` NS_PER_MIN = 0.
Proof.
  unfold rounded. rewrite list_lookup_fmap. intros Hv.
  destruct (stamps_of p !! i) as [[u|]|]; simplify_eq/=.
  apply round_min_multiple.
Qed.

Lemma rounded_rounded p : rounded (Datetime None (rounded p)) = rounded p.
Proof.
  unfold rounded at 1. cbn [stamps_of].
  apply list_eq. intros i. rewrite list_lookup_fmap.
  destruct (rounded p !! i) as [[v|]|] eqn:Hv; cbn; [|done..].
  by rewrite round_min_canonical by (by eapply rounded_canonical).
Qed.

(** What the method does to a column of date text. *)
Lemma standardize_date_text (σ : store) l dc l' adj σ' df c cells :
  σ !! l = Some df →
  resolve_date_col (columns df) dc = Ok c →
  getitem df c = Ok (Object cells) →
  _standardize_timestamp l dc σ = Ok ((l', adj), σ') →
  ∃ pre post s,
    df = pre ++ (c, Object cells) :: post
    ∧ (c ∉ columns pre) ∧ (c ∉ columns post)
    ∧ (∀ i, s !! i = (λ x, round_min <$> instant_of (read_cell x)) <$> cells !! i)
    ∧ l' = length σ
    ∧ σ' = σ ++ [pre ++ (c, Datetime None s) :: post]
    ∧ adj = collect_adjustments (items (Object cells)) s s.
Proof.
  intros Hl Hc Hg Hrun.
  rewrite (standardize_spec _ _ _ _ Hl), Hc in Hrun. cbn [rbind] in Hrun.
  rewrite Hg in Hrun. cbn [rbind] in Hrun.
  destruct (to_datetime (Object cells)) as [p|] eqn:Hp; [|done].
  cbn [rbind] in Hrun. simplify_eq.
  apply getitem_Ok in Hg as (pre & post & -> & Hpre & Hpost).
  rewrite setitem_unique by done.
  apply to_datetime_Object in Hp as [tz ->].
  eexists pre, post, _. do 3 (split; [done|]).
  split; [|done].
  intros i. rewrite rounded_lookup, !list_lookup_fmap.
  by destruct (cells !! i).
Qed.

(** C7: the final Canonical Timestamp of a date text is its UTC instant
    rounded to the nearest minute; a text without offset is taken as UTC
    as it stands, a text with offset [o] (+05:00 is 18000 s) is moved by
    [-o] first. *)
Theorem canonical_is_rounded_utc_instant
    (σ : store) l dc l' adj σ' df c cells i wall off :
  σ !! l = Some df →
  resolve_date_col (columns df) dc = Ok c →
  getitem df c = Ok (Object cells) →
  cells !! i = Some (DateStr wall off) →
  _standardize_timestamp l dc σ = Ok ((l', adj), σ') →
  let utc := match off with None => wall | Some o => wall - o * NS_PER_SEC end in
  ∃ df' s,
    σ' !! l' = Some df' ∧ getitem df' c = Ok (Datetime None s)
    ∧ s !! i = Some (Some (round_min utc))
    ∧ round_min utc `mod` NS_PER_MIN = 0
    ∧ Z.abs (round_min utc - utc) ≤ 30 * NS_PER_SEC
    ∧ (off = Some 18000 →
       s !! i = Some (Some (round_min (wall - 5 * NS_PER_HOUR)))).
Proof.
  intros Hl Hc Hg Hi Hrun utc.
  destruct (standardize_date_text _ _ _ _ _ _ _ _ _ Hl Hc Hg Hrun)
    as (pre & post & s & -> & Hpre & Hpost & Hs & -> & -> & _).
  assert (Hsi : s !! i = Some (Some (round_min utc))).
  { rewrite Hs, Hi. subst utc. by destruct off. }
  exists (pre ++ (c, Datetime None s) :: post), s.
  split; [apply lookup_fresh|].
  split; [by apply getitem_unique|].
  split; [exact Hsi|].
  split; [apply round_min_multiple|].
  split; [apply round_min_near|].
  intros ->. rewrite Hsi. reflexivity.
Qed.

Lemma canonical_is_rounded_utc_instant_witness :
  [aware_frame] !! 0%nat = Some aware_frame
  ∧ resolve_date_col (columns aware_frame) None = Ok "date"%string
  ∧ (∃ df' s,
       [aware_frame; aware_frame_out] !! 1%nat = Some df'
       ∧ getitem df' "date" = Ok (Datetime None s)
       ∧ s !! 0%nat = Some (Some (round_min (at_ 2023 1 1 12 0 10 - 18000 * NS_PER_SEC)))
       ∧ round_min (at_ 2023 1 1 12 0 10 - 18000 * NS_PER_SEC) `mod` NS_PER_MIN = 0
       ∧ Z.abs (round_min (at_ 2023 1 1 12 0 10 - 18000 * NS_PER_SEC)
                - (at_ 2023 1 1 12 0 10 - 18000 * NS_PER_SEC)) ≤ 30 * NS_PER_SEC
       ∧ (Some 18000 = Some 18000 →
          s !! 0%nat = Some (Some (round_min (at_ 2023 1 1 12 0 10 - 5 * NS_PER_HOUR))))).
Proof.
  split; [reflexivity|]. split; [reflexivity|].
  apply (canonical_is_rounded_utc_instant [aware_frame] 0%nat None 1%nat []
           [aware_frame; aware_frame_out] aware_frame "date"
           [DateStr (at_ 2023 1 1 12 0 10) (Some 18000);
            DateStr (at_ 2023 1 1 12 5 50) (Some 18000)]
           0%nat (at_ 2023 1 1 12 0 10) (Some 18000));
    reflexivity.
Defined.

Lemma columns_set_unique (pre post : DataFrame) c x y :
  columns (pre ++ (c, x) :: post) = columns (pre ++ (c, y) :: post).
Proof. unfold columns. by rewrite !fmap_app, !fmap_cons. Qed.

(** C8: after normalisation the timestamp column carries no zone and every
    instant in it is a whole minute; normalising the result again gives the
    very same frame back (same column, same row order). *)
Theorem normalized_column_is_canonical_and_stable (σ : store) l dc l' adj σ' :
  _standardize_timestamp l dc σ = Ok ((l', adj), σ') →
  ∃ c df' s,
    σ' !! l' = Some df'
    ∧ resolve_date_col (columns df') dc = Ok c
    ∧ getitem df' c = Ok (Datetime None s)
    ∧ (∀ i v, s !! i = Some (Some v) → v `mod` NS_PER_MIN = 0)
    ∧ ∃ adj', _standardize_timestamp l' dc σ'
              = Ok ((length σ', adj'), σ' ++ [df']).
Proof.
  intros Hrun.
  apply standardize_Ok in Hrun
    as (c & col & p & pre & post & Hl & Hc & Hpre & Hpost & Hp & -> & -> & ->).
  set (df' := pre ++ (c, Datetime None (rounded p)) :: post).
  assert (Hc' : resolve_date_col (columns df') dc = Ok c).
  { unfold df'. by rewrite (columns_set_unique _ _ _ _ col). }
  assert (Hg' : getitem df' c = Ok (Datetime None (rounded p))).
  { by apply getitem_unique. }
  exists c, df', (rounded p).
  split; [apply lookup_fresh|]. split; [done|]. split; [done|].
  split; [intros i v; apply rounded_canonical|].
  eexists. rewrite (standardize_spec _ _ _ df') by apply lookup_fresh.
  rewrite Hc'. cbn [rbind]. rewrite Hg'. cbn [rbind to_datetime].
  rewrite rounded_rounded. unfold df'. rewrite setitem_unique by done.
  reflexivity.
Qed.

Lemma normalized_column_is_canonical_and_stable_witness :
  _standardize_timestamp 0%nat None [aware_frame]
    = Ok ((1%nat, []), [aware_frame; aware_frame_out])
  ∧ ∃ c df' s,
      [aware_frame; aware_frame_out] !! 1%nat = Some df'
      ∧ resolve_date_col (columns df') None = Ok c
      ∧ getitem df' c = Ok (Datetime None s)
      ∧ (∀ i v, s !! i = Some (Some v) → v `mod` NS_PER_MIN = 0)
      ∧ ∃ adj', _standardize_timestamp 1%nat None [aware_frame; aware_frame_out]
                = Ok ((length [aware_frame; aware_frame_out], adj'),
                      [aware_frame; aware_frame_out] ++ [df']).
Proof.
  split; [reflexivity|].
  apply (normalized_column_is_canonical_and_stable [aware_frame] 0%nat None
           1%nat [] [aware_frame; aware_frame_out]).
  reflexivity.
Defined.

(** C1 (counterexample): 12:00:30Z does not become 12:01 with a [round_up]
    record of +30 s. *)
Lemma half_up_refuted_at_12_00_30 :
  ¬ half_up_outcome (_standardize_timestamp 0%nat None [tie_frame]).
Proof.
  intros (l' & a & σ' & df' & Hrun & _).
  assert (Hval : _standardize_timestamp 0%nat None [tie_frame]
                 = Ok ((1%nat, []), [tie_frame; tie_frame_out])) by reflexivity.
  rewrite Hval in Hrun. discriminate Hrun.
Qed.

(** C1 (amended): a tie goes to the even minute.  For a date text whose UTC
    instant lies exactly 30 s after minute number [q], the Canonical Timestamp
    is minute [q] when [q] is even and minute [q + 1] when it is odd
    (12:00:30Z gives 12:00, 12:01:30Z gives 12:02); the reference value is
    rounded by the same rule, so the row is not in the adjustments list. *)
Theorem ties_round_to_the_even_minute
    (σ : store) l dc l' adj σ' df c cells i wall off q :
  σ !! l = Some df →
  resolve_date_col (columns df) dc = Ok c →
  getitem df c = Ok (Object cells) →
  cells !! i = Some (DateStr wall off) →
  match off with None => wall | Some o => wall - o * NS_PER_SEC end
    = q * NS_PER_MIN + 30 * NS_PER_SEC →
  _standardize_timestamp l dc σ = Ok ((l', adj), σ') →
  ∃ df' s,
    σ' !! l' = Some df' ∧ getitem df' c = Ok (Datetime None s)
    ∧ s !! i = Some (Some (if Z.even q then q * NS_PER_MIN
                           else (q + 1) * NS_PER_MIN))
    ∧ ∀ a, a ∈ adj → index a ≠ i.
Proof.
  intros Hl Hc Hg Hi Hq Hrun.
  destruct (standardize_date_text _ _ _ _ _ _ _ _ _ Hl Hc Hg Hrun)
    as (pre & post & s & -> & Hpre & Hpost & Hs & -> & -> & ->).
  assert (Hsi : s !! i = Some (Some (if Z.even q then q * NS_PER_MIN
                                     else (q + 1) * NS_PER_MIN))).
  { rewrite Hs, Hi, <- round_min_tie, <- Hq. by destruct off. }
  exists (pre ++ (c, Datetime None s) :: post), s.
  split; [apply lookup_fresh|].
  split; [by apply getitem_unique|].
  split; [exact Hsi|].
  intros a Ha Hidx.
  apply collect_adjustments_same in Ha as (Hnone & _).
  rewrite Hidx in Hnone. by rewrite Hsi in Hnone.
Qed.

Lemma ties_round_to_the_even_minute_witness :
  [tie_frame] !! 0%nat = Some tie_frame
  ∧ at_ 2023 1 1 12 0 30 - 0 * NS_PER_SEC = 27876240 * NS_PER_MIN + 30 * NS_PER_SEC
  ∧ ∃ df' s,
      [tie_frame; tie_frame_out] !! 1%nat = Some df'
      ∧ getitem df' "date" = Ok (Datetime None s)
      ∧ s !! 0%nat = Some (Some (if Z.even 27876240 then 27876240 * NS_PER_MIN
                                 else (27876240 + 1) * NS_PER_MIN))
      ∧ ∀ a, a ∈ @nil adjustment → index a ≠ 0%nat.
Proof.
  split; [reflexivity|]. split; [reflexivity|].
  apply (ties_round_to_the_even_minute [tie_frame] 0%nat None 1%nat []
           [tie_frame; tie_frame_out] tie_frame "date"
           [DateStr (at_ 2023 1 1 12 0 30) (Some 0)] 0%nat
           (at_ 2023 1 1 12 0 30) (Some 0) 27876240);
    reflexivity.
Defined.

(** C3 (counterexample): normalisation of a frame with an empty timestamp
    cell succeeds and its adjustments list is not empty. *)
Lemma missing_timestamp_is_recorded :
  ∃ l' a σ',
    _standardize_timestamp 0%nat None [gap_frame] = Ok ((l', [a]), σ')
    ∧ index a = 1%nat ∧ original_utc a = None ∧ final a = None
    ∧ classify (difference_seconds a) = round_down.
Proof. eexists _, _, _. split; [reflexivity|]. by cbn. Qed.

(** C3 (amended): reference and final value are computed by the same
    convert-then-round procedure, so a row whose timestamp is present is never
    recorded; the adjustments list holds exactly the rows whose timestamp is
    missing (there reference and final are both [NaT], which differs from
    itself), and it is empty when no timestamp is missing. *)
Theorem adjustments_only_for_missing_timestamps (σ : store) l dc l' adj σ' :
  _standardize_timestamp l dc σ = Ok ((l', adj), σ') →
  ∃ c df' s,
    σ' !! l' = Some df' ∧ getitem df' c = Ok (Datetime None s)
    ∧ (∀ a, a ∈ adj →
         s !! index a = Some None ∧ original_utc a = None ∧ final a = None)
    ∧ (∀ i, s !! i = Some None → ∃ a, a ∈ adj ∧ index a = i)
    ∧ ((∀ i, s !! i ≠ Some None) → adj = []).
Proof.
  intros Hrun.
  apply standardize_Ok in Hrun
    as (c & col & p & pre & post & Hl & Hc & Hpre & Hpost & Hp & -> & -> & ->).
  exists c, (pre ++ (c, Datetime None (rounded p)) :: post), (rounded p).
  split; [apply lookup_fresh|]. split; [by apply getitem_unique|].
  split; [|split].
  - intros a Ha. apply collect_adjustments_same in Ha as (H1 & H2 & H3 & _).
    done.
  - intros i Hi. apply collect_adjustments_missing; [|done].
    unfold rounded. rewrite length_fmap.
    destruct col as [cells|tz s].
    + apply to_datetime_Object in Hp as [tz ->]. cbn.
      by rewrite !length_fmap.
    + cbn in Hp. simplify_eq. cbn. by rewrite length_fmap.
  - apply collect_adjustments_nil.
Qed.

Lemma adjustments_only_for_missing_timestamps_witness :
  _standardize_timestamp 0%nat None [aware_frame]
    = Ok ((1%nat, []), [aware_frame; aware_frame_out])
  ∧ ∃ c df' s,
      [aware_frame; aware_frame_out] !! 1%nat = Some df'
      ∧ getitem df' c = Ok (Datetime None s)
      ∧ (∀ a, a ∈ @nil adjustment →
           s !! index a = Some None ∧ original_utc a = None ∧ final a = None)
      ∧ (∀ i, s !! i = Some None → ∃ a, a ∈ @nil adjustment ∧ index a = i)
      ∧ ((∀ i, s !! i ≠ Some None) → @nil adjustment = []).
Proof.
  split; [reflexivity|].
  apply (adjustments_only_for_missing_timestamps [aware_frame] 0%nat None
           1%nat [] [aware_frame; aware_frame_out]).
  reflexivity.
Defined.

(** C4 (counterexample): a column with one offset-carrying row and one row
    without offset makes the normaliser raise. *)
Lemma mixed_offsets_are_refused :
  _standardize_timestamp 0%nat None [mixed_frame] = Raise ValueError.
Proof. reflexivity. Qed.

(** C4 (amended): the timestamp column has one dtype and one zone.  A column
    of date texts (empty cells allowed) is normalised, with a Canonical
    Timestamp for every dated row, when none of its rows carries an offset or
    when all dated rows carry the same offset; a column that holds both a row
    with an offset and a row without is refused with an exception. *)
Theorem uniform_timestamp_columns_are_accepted
    (σ : store) l dc df c cells :
  σ !! l = Some df →
  resolve_date_col (columns df) dc = Ok c →
  getitem df c = Ok (Object cells) →
  ((Forall (λ x, x = NaN ∨ ∃ w, x = DateStr w None) cells
    ∨ ∃ off, Forall (λ x, x = NaN ∨ ∃ w, x = DateStr w (Some off)) cells) →
   ∃ adj df' s,
     _standardize_timestamp l dc σ = Ok ((length σ, adj), σ ++ [df'])
     ∧ getitem df' c = Ok (Datetime None s)
     ∧ length s = length cells
     ∧ ∀ i w o, cells !! i = Some (DateStr w o) →
         ∃ v, s !! i = Some (Some v) ∧ v `mod` NS_PER_MIN = 0)
  ∧ (∀ w o w', DateStr w (Some o) ∈ cells → DateStr w' None ∈ cells →
       ∃ e, _standardize_timestamp l dc σ = Raise e).
Proof.
  intros Hl Hc Hg.
  rewrite (standardize_spec _ _ _ _ Hl), Hc. cbn [rbind].
  rewrite Hg. cbn [rbind].
  apply getitem_Ok in Hg as (pre & post & -> & Hpre & Hpost).
  split.
  - intros Hu.
    assert (∃ tz, to_datetime (Object cells)
                  = Ok (Datetime tz (instant_of <$> (read_cell <$> cells))))
      as [tz ->].
    { destruct Hu as [Hn|[off Ha]].
      - exists None. by apply to_datetime_naive.
      - by eapply to_datetime_aware. }
    cbn [rbind]. rewrite setitem_unique by done.
    eexists _, _, _. split; [reflexivity|].
    split; [by apply getitem_unique|].
    split; [unfold rounded; cbn [stamps_of]; by rewrite !length_fmap|].
    intros i w o Hi. rewrite rounded_lookup, !list_lookup_fmap, Hi.
    destruct o; cbn; eexists; (split; [reflexivity|apply round_min_multiple]).
  - intros w o w' Ha Hn.
    destruct (to_datetime_mixed cells w o w' Ha Hn) as [e ->].
    by exists e.
Qed.

Lemma uniform_timestamp_columns_are_accepted_witness :
  [aware_frame] !! 0%nat = Some aware_frame
  ∧ resolve_date_col (columns aware_frame) None = Ok "date"%string
  ∧ getitem aware_frame "date"
    = Ok (Object [DateStr (at_ 2023 1 1 12 0 10) (Some 18000);
                  DateStr (at_ 2023 1 1 12 5 50) (Some 18000)])
  ∧ ∃ adj df' s,
      _standardize_timestamp 0%nat None [aware_frame]
        = Ok ((length [aware_frame], adj), [aware_frame] ++ [df'])
      ∧ getitem df' "date" = Ok (Datetime None s)
      ∧ length s = 2%nat
      ∧ ∀ i w o,
          [DateStr (at_ 2023 1 1 12 0 10) (Some 18000);
           DateStr (at_ 2023 1 1 12 5 50) (Some 18000)] !! i
          = Some (DateStr w o) →
          ∃ v, s !! i = Some (Some v) ∧ v `mod` NS_PER_MIN = 0.
Proof.
  split; [reflexivity|]. split; [reflexivity|]. split; [reflexivity|].
  apply (uniform_timestamp_columns_are_accepted [aware_frame] 0%nat None
           aware_frame "date" _ eq_refl eq_refl eq_refl).
  right. exists 18000.
  apply Forall_cons; split; [right; eexists; reflexivity|].
  apply Forall_cons; split; [right; eexists; reflexivity|].
  apply Forall_nil_2.
Defined.

(** ** Which column is the key *)

Lemma time_cols_app pre post :
  time_cols (pre ++ post) = time_cols pre ++ time_cols post.
Proof. unfold time_cols. apply filter_app. Qed.

Lemma time_cols_none pre :
  Forall (λ x, is_time_like x = false) pre → time_cols pre = [].
Proof.
  unfold time_cols. induction 1 as [|x pre Hx _ IH]; [done|].
  rewrite filter_cons, decide_False; [done|]. by rewrite Hx.
Qed.

Lemma resolve_date_col_candidate cols c :
  resolve_date_col cols None = Ok c → c ∈ date_candidates ∧ c ∈ cols.
Proof.
  unfold resolve_date_col. intros Hc.
  destruct (filter _ date_candidates) as [|x xs] eqn:Hf; simplify_eq.
  assert (c ∈ filter (λ col, col ∈ cols) date_candidates) as Hin.
  { rewrite Hf. apply elem_of_cons. by left. }
  apply list_elem_of_filter in Hin. tauto.
Qed.

(** C2 (counterexample): with [timestamp] before [date] in the series, the
    normaliser resolves [date] and the merger joins on [timestamp]; a series
    keyed by [sleep_start] is normalised on it and has no join key at all. *)
Lemma join_key_differs_from_normalizer_key :
  resolve_date_col (columns two_clocks_frame) None = Ok "date"%string
  ∧ head (time_cols (columns two_clocks_frame)) = Some "timestamp"%string
  ∧ resolve_date_col (columns nightly_frame) None = Ok "sleep_start"%string
  ∧ head (time_cols (columns nightly_frame)) = None.
Proof. repeat split; reflexivity. Qed.

(** C2 (amended): the merger does not consult the priority list.  Its join
    key is the first label, in the series' own column order, whose lower-cased
    text contains [time], [date] or [timestamp].  It is the column the
    normaliser resolved from the priority list when that column is one of
    [date], [timestamp], [creation_date], [recorded_time] and no label before
    it in the series is time-like. *)
Theorem join_key_is_first_time_like_label (cols pre post : list string) c :
  resolve_date_col cols None = Ok c →
  c ≠ "sleep_start"%string → c ≠ "sleep_end"%string →
  cols = pre ++ c :: post →
  Forall (λ x, is_time_like x = false) pre →
  head (time_cols cols) = Some c.
Proof.
  intros Hc Hs1 Hs2 -> Hpre.
  apply resolve_date_col_candidate in Hc as [Hcand _].
  assert (Htl : is_time_like c = true).
  { unfold date_candidates in Hcand.
    repeat (apply elem_of_cons in Hcand as [->|Hcand]; [try reflexivity; done|]).
    by apply elem_of_nil in Hcand. }
  rewrite time_cols_app, (time_cols_none pre Hpre). cbn [app].
  unfold time_cols. rewrite filter_cons, decide_True by done. reflexivity.
Qed.

Lemma join_key_is_first_time_like_label_witness :
  resolve_date_col (columns score_frame) None = Ok "timestamp"%string
  ∧ "timestamp"%string ≠ "sleep_start"%string
  ∧ "timestamp"%string ≠ "sleep_end"%string
  ∧ columns score_frame = [] ++ "timestamp"%string :: ["overall_score"%string]
  ∧ Forall (λ x, is_time_like x = false) []
  ∧ head (time_cols (columns score_frame)) = Some "timestamp"%string.
Proof.
  split; [reflexivity|]. split; [discriminate|]. split; [discriminate|].
  split; [reflexivity|]. split; [apply Forall_nil_2|].
  apply (join_key_is_first_time_like_label (columns score_frame) []
           ["overall_score"%string] "timestamp");
    [reflexivity | discriminate | discriminate | reflexivity | apply Forall_nil_2].
Defined.

(** ** Minimum and maximum of a column *)

Lemma elem_of_present (s : list stamp) v : v ∈ present s ↔ Some v ∈ s.
Proof.
  unfold present. rewrite list_elem_of_omap. split.
  - intros (x & Hx & Hid). unfold id in Hid. by subst.
  - intros Hv. by exists (Some v).
Qed.

Lemma foldr_min_le x xs y : y ∈ x :: xs → foldr Z.min x xs ≤ y.
Proof.
  induction xs as [|z xs IH]; cbn [foldr].
  - intros Hy. apply list_elem_of_singleton in Hy as ->. lia.
  - intros Hy. apply elem_of_cons in Hy as [->|Hy].
    + pose proof (IH ltac:(apply elem_of_cons; by left)). lia.
    + apply elem_of_cons in Hy as [->|Hy]; [lia|].
      pose proof (IH ltac:(apply elem_of_cons; by right)). lia.
Qed.

Lemma foldr_min_in x xs : foldr Z.min x xs ∈ x :: xs.
Proof.
  induction xs as [|z xs IH]; cbn [foldr]; [apply elem_of_cons; by left|].
  destruct (Z.min_spec z (foldr Z.min x xs)) as [[_ ->]|[_ ->]].
  - apply elem_of_cons. right. apply elem_of_cons. by left.
  - apply elem_of_cons in IH as [->|IH]; [apply elem_of_cons; by left|].
    apply elem_of_cons. right. apply elem_of_cons. by right.
Qed.

Lemma foldr_max_ge x xs y : y ∈ x :: xs → y ≤ foldr Z.max x xs.
Proof.
  induction xs as [|z xs IH]; cbn [foldr].
  - intros Hy. apply list_elem_of_singleton in Hy as ->. lia.
  - intros Hy. apply elem_of_cons in Hy as [->|Hy].
    + pose proof (IH ltac:(apply elem_of_cons; by left)). lia.
    + apply elem_of_cons in Hy as [->|Hy]; [lia|].
      pose proof (IH ltac:(apply elem_of_cons; by right)). lia.
Qed.

Lemma foldr_max_in x xs : foldr Z.max x xs ∈ x :: xs.
Proof.
  induction xs as [|z xs IH]; cbn [foldr]; [apply elem_of_cons; by left|].
  destruct (Z.max_spec z (foldr Z.max x xs)) as [[_ ->]|[_ ->]].
  - apply elem_of_cons in IH as [->|IH]; [apply elem_of_cons; by left|].
    apply elem_of_cons. right. apply elem_of_cons. by right.
  - apply elem_of_cons. right. apply elem_of_cons. by left.
Qed.

(** [stamps_min] is the least instant present, [stamps_max] the greatest. *)
Lemma stamps_min_least (s : list stamp) lo :
  Some lo ∈ s → (∀ v, Some v ∈ s → lo ≤ v) → stamps_min s = Some lo.
Proof.
  intros Hin Hle. unfold stamps_min.
  apply elem_of_present in Hin.
  destruct (present s) as [|x xs] eqn:Hp; [by apply elem_of_nil in Hin|].
  f_equal. apply Z.le_antisymm.
  - by apply foldr_min_le.
  - apply Hle, elem_of_present. rewrite Hp. apply foldr_min_in.
Qed.

Lemma stamps_max_greatest (s : list stamp) hi :
  Some hi ∈ s → (∀ v, Some v ∈ s → v ≤ hi) → stamps_max s = Some hi.
Proof.
  intros Hin Hle. unfold stamps_max.
  apply elem_of_present in Hin.
  destruct (present s) as [|x xs] eqn:Hp; [by apply elem_of_nil in Hin|].
  f_equal. apply Z.le_antisymm.
  - apply Hle, elem_of_present. rewrite Hp. apply foldr_max_in.
  - by apply foldr_max_ge.
Qed.

(** ** [create_base_timeline] *)

Lemma getitem_at_Some (σ : store) l d c :
  σ !! l = Some d →
  getitem_at l c σ
  = match getitem d c with Ok x => Ok (x, σ) | Raise e => Raise e end.
Proof. intros Hl. unfold getitem_at. rewrite bind_unfold. unfold read. by rewrite Hl. Qed.

Lemma getitem_single c x : getitem [(c, x)] c = Ok x.
Proof. apply (getitem_unique [] []); apply not_elem_of_nil. Qed.

Lemma setitem_single c x y : setitem [(c, x)] c y = [(c, y)].
Proof. apply (setitem_unique [] []); apply not_elem_of_nil. Qed.

Lemma stamps_min_le_max (s : list stamp) lo hi :
  stamps_min s = Some lo → stamps_max s = Some hi → lo ≤ hi.
Proof.
  unfold stamps_min, stamps_max. destruct (present s) as [|x xs]; [done|].
  intros [= <-] [= <-]. etrans.
  - apply (foldr_min_le x xs x). apply elem_of_cons. by left.
  - apply foldr_max_ge. apply elem_of_cons. by left.
Qed.

Lemma timestamp_add_Ok v delta :
  TS_MIN ≤ v + delta ≤ TS_MAX → timestamp_add (Some v) delta = Ok (Some (v + delta)).
Proof.
  intros [H1 H2]. unfold timestamp_add.
  by rewrite (proj2 (Z.leb_le _ _) H1), (proj2 (Z.leb_le _ _) H2).
Qed.

Lemma timestamp_add_Some_Ok v delta t :
  timestamp_add (Some v) delta = Ok t → t = Some (v + delta) ∧ TS_MIN ≤ v + delta ≤ TS_MAX.
Proof.
  unfold timestamp_add.
  destruct (Z.leb_spec TS_MIN (v + delta)), (Z.leb_spec (v + delta) TS_MAX);
    cbn; intros [= <-]; auto.
Qed.

Lemma timestamp_add_out v delta :
  v + delta < TS_MIN ∨ TS_MAX < v + delta →
  timestamp_add (Some v) delta = Raise OutOfBoundsDatetime.
Proof.
  intros Hout. unfold timestamp_add.
  destruct (Z.leb_spec TS_MIN (v + delta)), (Z.leb_spec (v + delta) TS_MAX);
    cbn; try done; lia.
Qed.

Lemma create_base_timeline_spec dfs (σ : store) b bgl tz s lo hi :
  dict_get dfs "blood_glucose" = Some (Some b) →
  σ !! b = Some bgl →
  getitem bgl "date" = Ok (Datetime tz s) →
  stamps_min s = Some lo → stamps_max s = Some hi →
  TS_MIN ≤ lo - NS_PER_DAY → hi + NS_PER_DAY ≤ TS_MAX →
  let timeline :=
    (λ k, Some (lo - NS_PER_DAY + k * NS_PER_MIN))
      <$> seqZ 0 ((hi + NS_PER_DAY - (lo - NS_PER_DAY)) `div` NS_PER_MIN + 1) in
  create_base_timeline dfs σ
  = Ok (S (length σ),
        σ ++ [[("timestamp"%string, Datetime tz timeline)]]
          ++ [[("timestamp"%string,
                Datetime None (fmap (M:=option) round_min <$> timeline))]]).
Proof.
  intros Hd Hb Hg Hlo Hhi Hmin Hmax timeline. unfold create_base_timeline.
  pose proof (stamps_min_le_max _ _ _ Hlo Hhi) as Hle.
  assert (Hday : 0 ≤ NS_PER_DAY) by (by vm_compute).
  rewrite Hd, bind_unfold, (getitem_at_Some _ _ _ _ Hb), Hg.
  rewrite Hlo, Hhi.
  rewrite timestamp_add_Ok by lia. rewrite bind_lift_Ok.
  rewrite timestamp_add_Ok by lia. rewrite bind_lift_Ok.
  rewrite Z.add_opp_r. cbn [date_range].
  rewrite bind_lift_Ok, bind_unfold. unfold alloc at 1.
  rewrite bind_unfold.
  rewrite (standardize_spec _ _ _ [("timestamp"%string, Datetime tz timeline)])
    by apply lookup_fresh.
  cbn [resolve_date_col rbind].
  rewrite getitem_single.
  cbn [rbind to_datetime].
  rewrite setitem_single.
  unfold ret, rounded. cbn [stamps_of fst app].
  rewrite length_app. cbn [length]. rewrite Nat.add_1_r, <- app_assoc.
  reflexivity.
Qed.

(** The instants of the grid are whole minutes when its start is. *)
Lemma timeline_canonical (start n : Z) :
  start `mod` NS_PER_MIN = 0 →
  fmap (M:=option) round_min <$> ((λ k, Some (start + k * NS_PER_MIN)) <$> seqZ 0 n)
  = (λ k, Some (start + k * NS_PER_MIN)) <$> seqZ 0 n.
Proof.
  intros Hs. rewrite <- list_fmap_compose. apply list_fmap_ext.
  intros _ k _. cbn. f_equal. apply round_min_canonical.
  rewrite Z.add_mod, Hs, Z.mod_mul, Z.add_0_l by (rewrite NS_PER_MIN_eq; lia).
  by rewrite Z.mod_0_l by (rewrite NS_PER_MIN_eq; lia).
Qed.

Lemma day_is_whole_minutes : NS_PER_DAY = 1440 * NS_PER_MIN.
Proof. reflexivity. Qed.

(** C6 (counterexample): a primary series can have rows and still no
    Timeline Grid.  One reading whose timestamp is missing leaves the bounds
    of the range undefined, and [create_base_timeline] raises [ValueError];
    one reading stamped 2262-04-11 00:00 is less than a day from the last
    instant that can be represented, and the padding raises
    [OutOfBoundsDatetime]. *)
Lemma non_empty_primary_series_without_a_grid :
  empty blank_primary_frame = false ∧ nrows blank_primary_frame = 1%nat
  ∧ create_base_timeline [("blood_glucose"%string, Some 0%nat)] [blank_primary_frame]
    = Raise ValueError
  ∧ empty late_primary_frame = false ∧ nrows late_primary_frame = 1%nat
  ∧ create_base_timeline [("blood_glucose"%string, Some 0%nat)] [late_primary_frame]
    = Raise OutOfBoundsDatetime.
Proof. vm_compute. repeat split; reflexivity. Qed.

(** C6 (amended): for a primary series with at least one Canonical Timestamp,
    whose earliest timestamp is at least a day after the first representable
    instant and whose latest is at least a day before the last, the Timeline
    Grid starts one day before its minimum, ends one day after its maximum
    (both included) and steps by exactly one minute; a primary span of
    2023-01-01 00:00 to 2023-01-02 00:00 gives 4321 rows from 2022-12-31 00:00
    to 2023-01-03 00:00. *)
Theorem timeline_grid_spans_padded_primary_range
    dfs (σ : store) b bgl (s : list stamp) lo hi :
  dict_get dfs "blood_glucose" = Some (Some b) →
  σ !! b = Some bgl →
  getitem bgl "date" = Ok (Datetime None s) →
  (∀ v, Some v ∈ s → v `mod` NS_PER_MIN = 0) →
  Some lo ∈ s → Some hi ∈ s → (∀ v, Some v ∈ s → lo ≤ v ≤ hi) →
  TS_MIN ≤ lo - NS_PER_DAY → hi + NS_PER_DAY ≤ TS_MAX →
  ∃ l' σ' g,
    create_base_timeline dfs σ = Ok (l', σ')
    ∧ σ' !! l' = Some [("timestamp"%string, Datetime None (Some <$> g))]
    ∧ length g = Z.to_nat ((hi - lo) `div` NS_PER_MIN + 2881)
    ∧ (∀ k, (k < length g)%nat →
         g !! k = Some (lo - NS_PER_DAY + Z.of_nat k * NS_PER_MIN))
    ∧ head g = Some (lo - NS_PER_DAY)
    ∧ last g = Some (hi + NS_PER_DAY)
    ∧ (lo = at_ 2023 1 1 0 0 0 → hi = at_ 2023 1 2 0 0 0 →
       length g = 4321%nat
       ∧ head g = Some (at_ 2022 12 31 0 0 0)
       ∧ last g = Some (at_ 2023 1 3 0 0 0)).
Proof.
  intros Hd Hb Hg Hcanon Hlo Hhi Hbounds Hlow Hhigh.
  assert (Hmin : stamps_min s = Some lo).
  { apply stamps_min_least; [done|]. intros v Hv. by apply Hbounds. }
  assert (Hmax : stamps_max s = Some hi).
  { apply stamps_max_greatest; [done|]. intros v Hv. by apply Hbounds. }
  pose proof (Hcanon _ Hlo) as Hlo0. pose proof (Hcanon _ Hhi) as Hhi0.
  pose proof (proj2 (Hbounds _ Hlo)) as Hle.
  set (n := (hi + NS_PER_DAY - (lo - NS_PER_DAY)) `div` NS_PER_MIN + 1).
  set (g := (λ k, lo - NS_PER_DAY + k * NS_PER_MIN) <$> seqZ 0 n).
  assert (∃ d, hi - lo = d * NS_PER_MIN ∧ 0 ≤ d) as (d & Hd1 & Hd2).
  { exists ((hi - lo) `div` NS_PER_MIN).
    rewrite NS_PER_MIN_eq in *.
    pose proof (Z.div_mod hi 60000000000 ltac:(lia)).
    pose proof (Z.div_mod lo 60000000000 ltac:(lia)).
    pose proof (Z.div_mod (hi - lo) 60000000000 ltac:(lia)).
    pose proof (Z.mod_pos_bound (hi - lo) 60000000000 ltac:(lia)).
    assert ((hi - lo) `mod` 60000000000 = 0).
    { rewrite Zminus_mod, Hlo0, Hhi0. reflexivity. }
    split; [lia|]. apply Z.div_pos; lia. }
  assert (Hn : n = d + 2881).
  { unfold n. replace (hi + NS_PER_DAY - (lo - NS_PER_DAY))
      with ((d + 2880) * NS_PER_MIN) by (rewrite day_is_whole_minutes; lia).
    rewrite Z.div_mul by (rewrite NS_PER_MIN_eq; lia). lia. }
  assert (Hlen : length g = Z.to_nat (d + 2881)).
  { unfold g. by rewrite length_fmap, length_seqZ, Hn. }
  assert (Hlook : ∀ k, (k < length g)%nat →
            g !! k = Some (lo - NS_PER_DAY + Z.of_nat k * NS_PER_MIN)).
  { intros k Hk. unfold g. rewrite list_lookup_fmap, lookup_seqZ_lt by lia.
    cbn. by rewrite Z.add_0_l. }
  assert (Hhead : head g = Some (lo - NS_PER_DAY)).
  { rewrite head_lookup, Hlook by lia. f_equal. lia. }
  assert (Hlast : last g = Some (hi + NS_PER_DAY)).
  { rewrite last_lookup, Hlook by lia. f_equal.
    rewrite Hlen, day_is_whole_minutes. rewrite day_is_whole_minutes in *. lia. }
  assert (Hdd : (hi - lo) `div` NS_PER_MIN = d).
  { rewrite Hd1. apply Z.div_mul. rewrite NS_PER_MIN_eq. lia. }
  eexists (S (length σ)), _, g.
  split; [by apply (create_base_timeline_spec dfs σ b bgl None s lo hi)|].
  split.
  { rewrite (lookup_app_r σ) by lia.
    replace (S (length σ) - length σ)%nat with 1%nat by lia. cbn.
    do 3 f_equal. fold n.
    rewrite (timeline_canonical (lo - NS_PER_DAY) n).
    - unfold g. by rewrite <- list_fmap_compose.
    - rewrite day_is_whole_minutes, Zminus_mod, Hlo0, Z.mod_mul
        by (rewrite NS_PER_MIN_eq; lia).
      reflexivity. }
  split; [by rewrite Hdd|].
  split; [done|]. split; [done|]. split; [done|].
  intros -> ->. rewrite Hhead, Hlast.
  split; [|split; reflexivity].
  rewrite Hlen. assert (d = 1440) as ->; [|reflexivity].
  apply (Z.mul_cancel_r _ _ NS_PER_MIN); [by rewrite NS_PER_MIN_eq|].
  rewrite <- Hd1. reflexivity.
Qed.

Lemma timeline_grid_spans_padded_primary_range_witness :
  dict_get [("blood_glucose"%string, Some 0%nat)] "blood_glucose" = Some (Some 0%nat)
  ∧ [primary_frame] !! 0%nat = Some primary_frame
  ∧ (∀ v, Some v ∈ [Some (at_ 2023 1 1 0 0 0); Some (at_ 2023 1 1 12 0 0);
                     Some (at_ 2023 1 2 0 0 0)] → v `mod` NS_PER_MIN = 0)
  ∧ (∀ v, Some v ∈ [Some (at_ 2023 1 1 0 0 0); Some (at_ 2023 1 1 12 0 0);
                     Some (at_ 2023 1 2 0 0 0)]
          → at_ 2023 1 1 0 0 0 ≤ v ≤ at_ 2023 1 2 0 0 0)
  ∧ TS_MIN ≤ at_ 2023 1 1 0 0 0 - NS_PER_DAY
  ∧ at_ 2023 1 2 0 0 0 + NS_PER_DAY ≤ TS_MAX
  ∧ ∃ l' σ' g,
      create_base_timeline [("blood_glucose"%string, Some 0%nat)] [primary_frame]
        = Ok (l', σ')
      ∧ σ' !! l' = Some [("timestamp"%string, Datetime None (Some <$> g))]
      ∧ length g = 4321%nat
      ∧ head g = Some (at_ 2022 12 31 0 0 0)
      ∧ last g = Some (at_ 2023 1 3 0 0 0).
Proof.
  assert (Hmem : ∀ v, Some v ∈ [Some (at_ 2023 1 1 0 0 0); Some (at_ 2023 1 1 12 0 0);
                                  Some (at_ 2023 1 2 0 0 0)] →
                 v = at_ 2023 1 1 0 0 0 ∨ v = at_ 2023 1 1 12 0 0
                 ∨ v = at_ 2023 1 2 0 0 0).
  { intros v Hv.
    repeat (apply elem_of_cons in Hv as [Heq|Hv]; [injection Heq as ->; tauto|]).
    by apply elem_of_nil in Hv. }
  assert (Hcanon : ∀ v, Some v ∈ [Some (at_ 2023 1 1 0 0 0); Some (at_ 2023 1 1 12 0 0);
                                    Some (at_ 2023 1 2 0 0 0)] → v `mod` NS_PER_MIN = 0).
  { intros v Hv. destruct (Hmem v Hv) as [-> | [-> | ->]]; reflexivity. }
  assert (Hbounds : ∀ v, Some v ∈ [Some (at_ 2023 1 1 0 0 0); Some (at_ 2023 1 1 12 0 0);
                                     Some (at_ 2023 1 2 0 0 0)]
                         → at_ 2023 1 1 0 0 0 ≤ v ≤ at_ 2023 1 2 0 0 0).
  { intros v Hv. destruct (Hmem v Hv) as [-> | [-> | ->]]; split; by vm_compute. }
  assert (Hlow : TS_MIN ≤ at_ 2023 1 1 0 0 0 - NS_PER_DAY) by (by vm_compute).
  assert (Hhigh : at_ 2023 1 2 0 0 0 + NS_PER_DAY ≤ TS_MAX) by (by vm_compute).
  split; [reflexivity|]. split; [reflexivity|]. split; [exact Hcanon|].
  split; [exact Hbounds|]. split; [exact Hlow|]. split; [exact Hhigh|].
  destruct (timeline_grid_spans_padded_primary_range
              [("blood_glucose"%string, Some 0%nat)] [primary_frame] 0%nat
              primary_frame _ (at_ 2023 1 1 0 0 0) (at_ 2023 1 2 0 0 0)
              eq_refl eq_refl eq_refl Hcanon
              ltac:(apply elem_of_cons; by left)
              ltac:(do 2 (apply elem_of_cons; right); apply elem_of_cons; by left)
              Hbounds Hlow Hhigh)
    as (l' & σ' & g & Hrun & Hl' & _ & _ & _ & _ & Hex).
  destruct (Hex eq_refl eq_refl) as (H1 & H2 & H3).
  exists l', σ', g. split; [exact Hrun|]. split; [exact Hl'|].
  split; [exact H1|]. split; [exact H2|exact H3].
Defined.

(** ** The left join *)

Lemma matches_from_absent {K} `{EqDecision K} o (k : K) rk :
  k ∉ rk → matches_from o k rk = [].
Proof.
  revert o. induction rk as [|x rk IH]; intros o Hk; [done|].
  apply not_elem_of_cons in Hk as [Hne Hk]. cbn [matches_from].
  rewrite decide_False by done. by apply IH.
Qed.

Lemma matches_from_elem {K} `{EqDecision K} o (k : K) rk j :
  j ∈ matches_from o k rk → ∃ j', j = (o + j')%nat ∧ rk !! j' = Some k.
Proof.
  revert o. induction rk as [|x rk IH]; intros o Hj; cbn [matches_from] in Hj.
  - by apply elem_of_nil in Hj.
  - destruct (decide (x = k)) as [->|Hne].
    + apply elem_of_cons in Hj as [->|Hj].
      * exists 0%nat. split; [lia|done].
      * destruct (IH _ Hj) as (j' & -> & Hj'). exists (S j'). split; [lia|done].
    + destruct (IH _ Hj) as (j' & -> & Hj'). exists (S j'). split; [lia|done].
Qed.

(** A key held by at most one right row has at most one match. *)
Lemma matches_from_unique {K} `{EqDecision K} o (k : K) rk :
  (∀ j1 j2, rk !! j1 = Some k → rk !! j2 = Some k → j1 = j2) →
  matches_from o k rk = []
  ∨ ∃ j, matches_from o k rk = [(o + j)%nat] ∧ rk !! j = Some k.
Proof.
  revert o. induction rk as [|x rk IH]; intros o Hu; [by left|].
  cbn [matches_from]. destruct (decide (x = k)) as [->|Hne].
  - right. exists 0%nat. split; [|done].
    rewrite matches_from_absent; [by rewrite Nat.add_0_r|].
    intros Hin. apply list_elem_of_lookup in Hin as [j Hj].
    specialize (Hu 0%nat (S j) eq_refl Hj). lia.
  - destruct (IH (S o)) as [->|(j & -> & Hj)].
    + intros j1 j2 H1 H2. specialize (Hu (S j1) (S j2) H1 H2). lia.
    + by left.
    + right. exists (S j). split; [f_equal; lia|done].
Qed.

Lemma matches_unique_head {K} `{EqDecision K} (k : K) rk :
  (∀ j1 j2, rk !! j1 = Some k → rk !! j2 = Some k → j1 = j2) →
  match matches k rk with
  | [] => [(0%nat, @None nat)]
  | js => (λ j, (0%nat, Some j)) <$> js
  end = [(0%nat, head (matches k rk))].
Proof.
  intros Hu. unfold matches.
  by destruct (matches_from_unique 0 k rk Hu) as [->|(j & -> & _)].
Qed.

Lemma head_matches_Some {K} `{EqDecision K} (k : K) rk j :
  head (matches k rk) = Some j → rk !! j = Some k.
Proof.
  unfold matches. intros Hh.
  destruct (matches_from 0 k rk) as [|j0 js] eqn:Hm; [done|].
  cbn in Hh. simplify_eq.
  destruct (matches_from_elem 0 k rk j) as (j' & -> & Hj').
  { rewrite Hm. apply elem_of_cons. by left. }
  done.
Qed.

Lemma head_matches_None {K} `{EqDecision K} (k : K) rk :
  head (matches k rk) = None → k ∉ rk.
Proof.
  unfold matches. generalize 0%nat.
  induction rk as [|x rk IH]; intros o Hh; [apply not_elem_of_nil|].
  cbn [matches_from] in Hh. destruct (decide (x = k)) as [->|Hne]; [done|].
  apply not_elem_of_cons. split; [done|]. by eapply IH.
Qed.

(** With at most one match per left key, the indexer lists every left row
    once, in order, next to its partner if it has one. *)
Lemma left_join_from_unique {K} `{EqDecision K} o (lk rk : list K) :
  (∀ k, k ∈ lk → ∀ j1 j2, rk !! j1 = Some k → rk !! j2 = Some k → j1 = j2) →
  left_join_from o lk rk = imap (λ i k, ((o + i)%nat, head (matches k rk))) lk.
Proof.
  revert o. induction lk as [|k lk IH]; intros o Hu; [done|].
  cbn [left_join_from imap].
  assert (Hk : ∀ j1 j2, rk !! j1 = Some k → rk !! j2 = Some k → j1 = j2).
  { apply Hu. apply elem_of_cons. by left. }
  rewrite IH by (intros k' Hk'; apply Hu; apply elem_of_cons; by right).
  unfold matches in *.
  destruct (matches_from_unique 0 k rk Hk) as [->|(j & -> & _)]; cbn;
    rewrite Nat.add_0_r; f_equal; apply imap_ext; intros i x _; cbn;
    do 2 f_equal; lia.
Qed.

Lemma left_join_indexer_unique {K} `{EqDecision K} (lk rk : list K) :
  (∀ k, k ∈ lk → ∀ j1 j2, rk !! j1 = Some k → rk !! j2 = Some k → j1 = j2) →
  (left_join_indexer lk rk).*1 = seq 0 (length lk)
  ∧ (left_join_indexer lk rk).*2 = (λ k, head (matches k rk)) <$> lk.
Proof.
  intros Hu. unfold left_join_indexer. rewrite left_join_from_unique by done.
  split.
  - rewrite fmap_imap.
    transitivity (id <$> seq 0 (length lk)); [|apply list_fmap_id].
    rewrite <- (imap_seq_0 lk id). apply imap_ext. by intros.
  - rewrite fmap_imap. rewrite <- (imap_const (λ k, head (matches k rk))).
    apply imap_ext. by intros.
Qed.

(** Every left row appears in the indexer, so a join never has fewer rows
    than its left frame. *)
Lemma left_join_from_length {K} `{EqDecision K} o (lk rk : list K) :
  (length lk ≤ length (left_join_from o lk rk))%nat.
Proof.
  revert o. induction lk as [|k lk IH]; intros o; [done|].
  cbn [left_join_from]. rewrite length_app. specialize (IH (S o)).
  destruct (matches k rk); cbn; lia.
Qed.

Lemma col_len_take c idx : col_len (take c idx) = length idx.
Proof. destruct c; cbn; by rewrite length_fmap. Qed.

(** Gathering rows 0, 1, ..., n-1 of a column with n rows is the column. *)
Lemma take_all c :
  take c (Some <$> seq 0 (col_len c)) = c.
Proof.
  destruct c as [cells|tz s]; cbn [take col_len]; f_equal.
  - apply list_eq. intros i. rewrite !list_lookup_fmap.
    destruct (decide (i < length cells)%nat) as [Hi|Hi].
    + rewrite lookup_seq_lt by done. cbn.
      destruct (lookup_lt_is_Some_2 cells i Hi) as [x Hx]. by rewrite Hx.
    + rewrite lookup_seq_ge by lia. cbn. symmetry. apply lookup_ge_None. lia.
  - apply list_eq. intros i. rewrite !list_lookup_fmap.
    destruct (decide (i < length s)%nat) as [Hi|Hi].
    + rewrite lookup_seq_lt by done. cbn.
      destruct (lookup_lt_is_Some_2 s i Hi) as [x Hx]. by rewrite Hx.
    + rewrite lookup_seq_ge by lia. cbn. symmetry. apply lookup_ge_None. lia.
Qed.

(** *** Labels *)

Lemma append_empty_r (s : string) : s +:+ "" = s.
Proof.
  induction s as [|a s IH]; [done|].
  change (String a (s +:+ "") = String a s). by rewrite IH.
Qed.

Lemma renamer_empty to_rename x : renamer to_rename "" x = x.
Proof. unfold renamer. case_bool_decide; [apply append_empty_r|done]. Qed.

Lemma renamer_nil suffix x : renamer [] suffix x = x.
Proof. unfold renamer. rewrite bool_decide_false; [done|apply not_elem_of_nil]. Qed.

Lemma overlap_Ok (left right : list string) ls rs ll rl :
  _items_overlap_with_suffix left right (ls, rs) = Ok (ll, rl) →
  ll = renamer (filter (λ x, x ∈ right) left) ls <$> left
  ∧ rl = renamer (filter (λ x, x ∈ right) left) rs <$> right.
Proof.
  unfold _items_overlap_with_suffix.
  destruct (filter (λ x, x ∈ right) left) as [|t ts] eqn:Hf.
  - intros [= <- <-]. split; symmetry.
    + rewrite <- (list_fmap_id left) at 2. apply list_fmap_ext.
      intros. apply renamer_nil.
    + rewrite <- (list_fmap_id right) at 2. apply list_fmap_ext.
      intros. apply renamer_nil.
  - destruct (_ && _); [done|].
    destruct (_ ++ _); [|done]. by intros [= <- <-].
Qed.

(** What a successful join is made of. *)
Lemma merge_Ok (left right : DataFrame) lo ro sfx res :
  merge left right lo ro sfx = Ok res →
  ∃ lk rk idx ll rl,
    getitem left lo = Ok lk ∧ getitem right ro = Ok rk
    ∧ join_indexers lk rk = Ok idx
    ∧ _items_overlap_with_suffix
        (columns left)
        (columns (if bool_decide (lo = ro)
                  then filter (λ p, p.1 ≠ ro) right else right))
        sfx = Ok (ll, rl)
    ∧ res = zip ll ((λ p, take p.2 (Some <$> idx.*1)) <$> left)
            ++ zip rl ((λ p, take p.2 idx.*2)
                         <$> (if bool_decide (lo = ro)
                              then filter (λ p, p.1 ≠ ro) right else right)).
Proof.
  unfold merge. intros Hm.
  destruct (getitem left lo) as [lk|] eqn:Hlk; [|done]. cbn [rbind] in Hm.
  destruct (getitem right ro) as [rk|] eqn:Hrk; [|done]. cbn [rbind] in Hm.
  destruct (join_indexers lk rk) as [idx|] eqn:Hidx; [|done]. cbn [rbind] in Hm.
  destruct (_items_overlap_with_suffix _ _ _) as [[ll rl]|] eqn:Hov; [|done].
  cbn [rbind fst snd] in Hm. simplify_eq.
  by exists lk, rk, idx, ll, rl.
Qed.

(** ** The store only grows *)

Lemma read_Ok (σ : store) l d σ' : read l σ = Ok (d, σ') → σ !! l = Some d ∧ σ' = σ.
Proof. unfold read. destruct (σ !! l); naive_solver. Qed.

Lemma merge_one_Ok name r final (σ : store) l' σ' :
  merge_one name (Some r) final σ = Ok (l', σ') →
  ∃ right, σ !! r = Some right ∧
    ((l' = final ∧ σ' = σ
      ∧ (empty right = true ∨ name = "blood_glucose"%string))
     ∨ (l' = final ∧ σ' = σ ++ [right]
        ∧ empty right = false ∧ name ≠ "blood_glucose"%string
        ∧ time_cols (columns right) = [])
     ∨ (∃ key ks left merged,
          empty right = false ∧ name ≠ "blood_glucose"%string
          ∧ time_cols (columns right) = key :: ks
          ∧ (σ ++ [right]) !! final = Some left
          ∧ merge left right "timestamp" key (""%string, "_" +:+ name) = Ok merged
          ∧ l' = S (length σ) ∧ σ' = σ ++ [right] ++ [merged])).
Proof.
  unfold merge_one. rewrite bind_unfold. unfold read at 1.
  destruct (σ !! r) as [right|] eqn:Hr; [|done].
  intros Hrun. exists right. split; [done|].
  destruct (empty right) eqn:Hempty; cbn [orb] in Hrun.
  { unfold ret in Hrun. simplify_eq. left. auto. }
  case_bool_decide as Hname; cbn in Hrun.
  { unfold ret in Hrun. simplify_eq. left. auto. }
  right. unfold copy in Hrun.
  rewrite !bind_unfold in Hrun. unfold read at 1 in Hrun. rewrite Hr in Hrun.
  unfold alloc at 1 in Hrun. rewrite bind_unfold, read_fresh in Hrun.
  destruct (time_cols (columns right)) as [|key ks] eqn:Htc.
  { unfold ret in Hrun. simplify_eq. left. auto. }
  right. rewrite bind_unfold in Hrun. unfold read at 1 in Hrun.
  destruct ((σ ++ [right]) !! final) as [left|] eqn:Hf; [|done].
  rewrite bind_unfold in Hrun.
  destruct (merge left right "timestamp" key ("", "_" +:+ name)) as [merged|] eqn:Hm;
    [|done].
  unfold lift, alloc in Hrun. simplify_eq.
  exists key, ks, left, merged. rewrite length_app, <- app_assoc. cbn.
  rewrite Nat.add_1_r. auto 10.
Qed.

Lemma merge_one_prefix name df final (σ : store) l' σ' :
  merge_one name df final σ = Ok (l', σ') → σ `prefix_of` σ'.
Proof.
  destruct df as [r|]; [|by intros [= _ ->]].
  intros Hrun. apply merge_one_Ok in Hrun as (right & _ & Hcases).
  destruct Hcases as [(_ & -> & _)|[(_ & -> & _)|(key & ks & left & merged & H)]].
  - done.
  - by apply prefix_app_r.
  - destruct H as (_ & _ & _ & _ & _ & _ & ->). by apply prefix_app_r.
Qed.

Lemma merge_others_prefix entries final (σ : store) l' σ' :
  merge_others entries final σ = Ok (l', σ') → σ `prefix_of` σ'.
Proof.
  revert final σ. induction entries as [|[name df] entries IH]; intros final σ.
  - by intros [= _ ->].
  - cbn [merge_others]. rewrite bind_unfold.
    destruct (merge_one name df final σ) as [[l1 σ1]|] eqn:H1; [|done].
    intros H2. etrans; [by eapply merge_one_prefix|by eapply IH].
Qed.

Lemma standardize_prefix (σ : store) l dc l' adj σ' :
  _standardize_timestamp l dc σ = Ok ((l', adj), σ') → σ `prefix_of` σ'.
Proof.
  intros Hrun. apply standardize_Ok in Hrun
    as (c & col & p & pre & post & _ & _ & _ & _ & _ & _ & _ & ->).
  by apply prefix_app_r.
Qed.

Lemma create_base_timeline_Ok dfs (σ : store) l' σ' :
  create_base_timeline dfs σ = Ok (l', σ') →
  ∃ b bgl tz s g,
    dict_get dfs "blood_glucose" = Some (Some b)
    ∧ σ !! b = Some bgl
    ∧ getitem bgl "date" = Ok (Datetime tz s)
    ∧ (∀ t, t ∈ g → is_Some t)
    ∧ l' = S (length σ)
    ∧ σ' = σ ++ [[("timestamp"%string, Datetime tz g)]]
             ++ [[("timestamp"%string,
                   Datetime None (fmap (M:=option) round_min <$> g))]].
Proof.
  intros Hrun. pose proof Hrun as Hrun'. unfold create_base_timeline in Hrun.
  destruct (dict_get dfs "blood_glucose") as [[b|]|] eqn:Hd; [|done..].
  rewrite bind_unfold in Hrun. unfold getitem_at in Hrun.
  rewrite bind_unfold in Hrun. unfold read at 1 in Hrun.
  destruct (σ !! b) as [bgl|] eqn:Hb; [|done].
  unfold lift at 1 in Hrun.
  destruct (getitem bgl "date") as [[cells|tz s]|] eqn:Hg;
    [by destruct (forallb _ cells)| |done].
  destruct (stamps_min s) as [lo|] eqn:Hlo.
  2:{ cbn [timestamp_add] in Hrun. rewrite bind_lift_Ok, bind_unfold in Hrun.
      by destruct (timestamp_add (stamps_max s) NS_PER_DAY). }
  destruct (timestamp_add (Some lo) (- NS_PER_DAY)) as [start|] eqn:Hstart;
    [|by rewrite bind_lift_Raise in Hrun].
  apply timestamp_add_Some_Ok in Hstart as [-> Hmin].
  rewrite bind_lift_Ok in Hrun.
  destruct (stamps_max s) as [hi|] eqn:Hhi;
    [|by cbn [timestamp_add] in Hrun; rewrite bind_lift_Ok in Hrun].
  destruct (timestamp_add (Some hi) NS_PER_DAY) as [stop|] eqn:Hstop;
    [|by rewrite bind_lift_Raise in Hrun].
  apply timestamp_add_Some_Ok in Hstop as [-> Hmax].
  rewrite (create_base_timeline_spec _ _ _ _ _ _ _ _ Hd Hb Hg Hlo Hhi) in Hrun'
    by lia.
  simplify_eq. eexists b, bgl, tz, s, _.
  do 3 (split; [done|]). split; [|done].
  intros t Ht. apply list_elem_of_fmap in Ht as (k & -> & _). by eexists.
Qed.

Lemma create_base_timeline_prefix dfs (σ : store) l' σ' :
  create_base_timeline dfs σ = Ok (l', σ') → σ `prefix_of` σ'.
Proof.
  intros Hrun. apply create_base_timeline_Ok in Hrun
    as (b & bgl & tz & s & g & _ & _ & _ & _ & _ & ->).
  by apply prefix_app_r.
Qed.

Lemma merge_all_data_Ok dfs (σ : store) l' σ' :
  merge_all_data dfs σ = Ok (l', σ') →
  ∃ lb σb b bgl base m1 la σa acc,
    create_base_timeline dfs σ = Ok (lb, σb)
    ∧ dict_get dfs "blood_glucose" = Some (Some b)
    ∧ σb !! b = Some bgl
    ∧ σb !! lb = Some base
    ∧ merge base bgl "timestamp" "date" ("_x"%string, "_y"%string) = Ok m1
    ∧ merge_others dfs (S (length σb)) (σb ++ [bgl] ++ [m1]) = Ok (la, σa)
    ∧ σa !! la = Some acc
    ∧ l' = length σa
    ∧ σ' = σa ++ [drop_duplicated acc].
Proof.
  unfold merge_all_data. rewrite bind_unfold.
  destruct (create_base_timeline dfs σ) as [[lb σb]|] eqn:Hbase; [|done].
  pose proof (create_base_timeline_Ok _ _ _ _ Hbase)
    as (b & bgl0 & tz & s & g & Hd & Hb0 & _ & _ & -> & Hσb).
  rewrite Hd. rewrite bind_unfold.
  unfold copy at 1. rewrite !bind_unfold. unfold read at 1.
  destruct (σb !! b) as [bgl|] eqn:Hb; [|done].
  unfold alloc at 1. rewrite bind_unfold. unfold read at 1.
  destruct ((σb ++ [bgl]) !! S (length σ)) as [base|] eqn:Hlb; [|done].
  rewrite bind_unfold, read_fresh, bind_unfold.
  destruct (merge base bgl "timestamp" "date" ("_x", "_y")) as [m1|] eqn:Hm1;
    [|done].
  unfold lift at 1, alloc at 1. rewrite bind_unfold.
  rewrite length_app. cbn [length]. rewrite Nat.add_1_r, <- app_assoc.
  destruct (merge_others dfs _ _) as [[la σa]|] eqn:Hloop; [|done].
  rewrite bind_unfold. unfold read at 1.
  destruct (σa !! la) as [acc|] eqn:Hacc; [|done].
  unfold alloc. intros [= <- <-].
  exists (S (length σ)), σb, b, bgl, base, m1, la, σa, acc.
  split; [done|]. split; [done|]. split; [done|].
  split; [|done].
  rewrite lookup_app_l in Hlb; [done|].
  rewrite Hσb, !length_app. cbn. lia.
Qed.

Lemma merge_all_data_prefix dfs (σ : store) l' σ' :
  merge_all_data dfs σ = Ok (l', σ') → σ `prefix_of` σ'.
Proof.
  intros Hrun. apply merge_all_data_Ok in Hrun
    as (lb & σb & b & bgl & base & m1 & la & σa & acc
        & Hbase & _ & _ & _ & _ & Hloop & _ & _ & ->).
  etrans; [by eapply create_base_timeline_prefix|].
  etrans; [|by apply prefix_app_r].
  etrans; [|by eapply merge_others_prefix]. by apply prefix_app_r.
Qed.

(** ** The accumulated dataset stays on the grid *)

Lemma on_grid_timestamp g f lk :
  on_grid g f → getitem f "timestamp" = Ok lk →
  lk = Datetime None g
  ∧ ∃ rest, f = ("timestamp"%string, Datetime None g) :: rest
            ∧ Forall (λ p, col_len p.2 = length g) rest.
Proof.
  intros (lbl & rest & -> & Hlbl & Hlen) Hg.
  apply getitem_Ok in Hg as (pre & post & Heq & Hpre & Hpost).
  destruct pre as [|p pre].
  - cbn in Heq. simplify_eq. eauto.
  - cbn in Heq. simplify_eq. exfalso.
    unfold columns in Hpre. rewrite fmap_cons in Hpre.
    apply not_elem_of_cons in Hpre as [Hne _]. cbn in Hne.
    destruct Hlbl as [->|Hrest]; [done|]. apply Hrest.
    unfold columns. rewrite fmap_app, fmap_cons. cbn.
    apply elem_of_app. right. apply elem_of_cons. by left.
Qed.

Lemma distinct_unique_matches (g K : list stamp) :
  (∀ t, t ∈ g → is_Some t) → stamps_distinct K →
  ∀ k, k ∈ g → ∀ j1 j2, K !! j1 = Some k → K !! j2 = Some k → j1 = j2.
Proof.
  intros Hg HK k Hk j1 j2 H1 H2. destruct (Hg k Hk) as [v ->]. by eapply HK.
Qed.

Lemma take_columns_all (g : list stamp) (f : DataFrame) :
  Forall (λ p, col_len p.2 = length g) f →
  (λ p : string * column, take p.2 (Some <$> seq 0 (length g))) <$> f = f.*2.
Proof.
  induction 1 as [|p f Hp _ IH]; [done|].
  rewrite !fmap_cons, IH. f_equal. rewrite <- Hp. apply take_all.
Qed.

(** A join of the accumulated dataset with a series whose stamps are
    distinct: the existing columns are untouched, and each incoming column is
    gathered through [partners]. *)
Lemma merge_on_grid g (left right : DataFrame) key sfx res K :
  on_grid g left → (∀ t, t ∈ g → is_Some t) →
  getitem right key = Ok (Datetime None K) → stamps_distinct K →
  merge left right "timestamp" key sfx = Ok res →
  ∃ rest ll rl,
    left = ("timestamp"%string, Datetime None g) :: rest
    ∧ Forall (λ p, col_len p.2 = length g) rest
    ∧ _items_overlap_with_suffix (columns left)
        (columns (right_frame "timestamp" key right)) sfx = Ok (ll, rl)
    ∧ res = zip ll left.*2
            ++ zip rl ((λ p, take p.2 (partners g K))
                         <$> right_frame "timestamp" key right).
Proof.
  intros Hgrid Hg Hrk HK Hm.
  apply merge_Ok in Hm as (lk & rk & idx & ll & rl & Hlk & Hrk' & Hidx & Hov & ->).
  rewrite Hrk in Hrk'. simplify_eq.
  destruct (on_grid_timestamp _ _ _ Hgrid Hlk) as (-> & rest & -> & Hlen).
  cbn [join_indexers] in Hidx. simplify_eq.
  destruct (left_join_indexer_unique g K (distinct_unique_matches g K Hg HK))
    as [H1 H2].
  exists rest, ll, rl. split; [done|]. split; [done|]. split; [exact Hov|].
  rewrite H1, H2. fold (partners g K). fold (right_frame "timestamp" key right).
  f_equal. f_equal. apply take_columns_all.
  apply Forall_cons. split; [done|exact Hlen].
Qed.

Lemma zip_take_col_len (labels : list string) (f : DataFrame) idx :
  Forall (λ p : string * column, col_len p.2 = length idx)
         (zip labels ((λ p : string * column, take p.2 idx) <$> f)).
Proof.
  apply Forall_forall. intros [c col] Hin.
  apply elem_of_zip_r in Hin. cbn in Hin.
  apply list_elem_of_fmap in Hin as (p & -> & _). cbn. apply col_len_take.
Qed.

Lemma length_partners g K : length (partners g K) = length g.
Proof. unfold partners. apply length_fmap. Qed.

(** The joins of the loop (left suffix empty) keep the invariant. *)
Lemma merge_loop_on_grid g (left right : DataFrame) key rs res K :
  on_grid g left → (∀ t, t ∈ g → is_Some t) →
  getitem right key = Ok (Datetime None K) → stamps_distinct K →
  merge left right "timestamp" key (""%string, rs) = Ok res →
  on_grid g res
  ∧ ∃ rl, res = left ++ zip rl ((λ p, take p.2 (partners g K))
                                  <$> right_frame "timestamp" key right)
          ∧ rl = renamer (filter (λ x, x ∈ columns (right_frame "timestamp" key right))
                                 (columns left)) rs
                   <$> columns (right_frame "timestamp" key right).
Proof.
  intros Hgrid Hg Hrk HK Hm.
  destruct (merge_on_grid _ _ _ _ _ _ _ Hgrid Hg Hrk HK Hm)
    as (rest & ll & rl & -> & Hlen & Hov & ->).
  apply overlap_Ok in Hov as [-> ->].
  assert (Hll : ∀ tr (l : list string), renamer tr "" <$> l = l).
  { intros tr l. rewrite <- (list_fmap_id l) at 2. apply list_fmap_ext.
    intros. apply renamer_empty. }
  rewrite Hll.
  assert (Hzip : ∀ f : DataFrame, zip (columns f) f.*2 = f)
    by (intros f; unfold columns; apply zip_fst_snd).
  rewrite Hzip.
  split; [|eexists; split; reflexivity].
  exists "timestamp"%string, (rest ++ zip
    (renamer (filter (λ x, x ∈ columns (right_frame "timestamp" key right))
                     (columns (("timestamp"%string, Datetime None g) :: rest))) rs
       <$> columns (right_frame "timestamp" key right))
    ((λ p, take p.2 (partners g K)) <$> right_frame "timestamp" key right)).
  split; [done|]. split; [by left|].
  apply Forall_app. split; [done|].
  rewrite <- (length_partners g K). apply zip_take_col_len.
Qed.

(** The join of the primary series (suffixes [_x], [_y]) onto the bare grid
    keeps the invariant. *)
Lemma merge_primary_on_grid g (right : DataFrame) res K :
  (∀ t, t ∈ g → is_Some t) →
  getitem right "date" = Ok (Datetime None K) → stamps_distinct K →
  merge [("timestamp"%string, Datetime None g)] right "timestamp" "date"
        ("_x"%string, "_y"%string) = Ok res →
  on_grid g res.
Proof.
  intros Hg Hrk HK Hm.
  assert (Hgrid : on_grid g [("timestamp"%string, Datetime None g)]).
  { exists "timestamp"%string, []. split; [done|]. split; [by left|]. constructor. }
  destruct (merge_on_grid _ _ _ _ _ _ _ Hgrid Hg Hrk HK Hm)
    as (rest & ll & rl & Heq & _ & Hov & ->).
  apply overlap_Ok in Hov as [-> ->].
  set (R := columns (right_frame "timestamp" "date" right)).
  cbn [columns fmap list_fmap fst snd zip zip_with app].
  eexists _, _. split; [reflexivity|]. split.
  - destruct (decide ("timestamp"%string ∈ R)) as [Hin|Hnin].
    + right. intros Hts. unfold columns in Hts.
      apply list_elem_of_fmap in Hts as ([c col] & Hc & Hin').
      cbn in Hc. subst c. apply elem_of_zip_l in Hin'.
      apply list_elem_of_fmap in Hin' as (x & Hx & HxR).
      unfold renamer in Hx. case_bool_decide as Htr.
      * apply list_elem_of_filter in Htr as [_ Htr].
        apply list_elem_of_singleton in Htr. subst x. discriminate Hx.
      * subst x. apply Htr. apply list_elem_of_filter. split; [done|].
        apply elem_of_cons. by left.
    + left. unfold renamer. rewrite bool_decide_false; [done|].
      intros Htr. apply list_elem_of_filter in Htr as [Htr _]. done.
  - rewrite <- (length_partners g K). apply zip_take_col_len.
Qed.

(** *** Dropping repeated labels *)

Lemma drop_duplicated_from_cons seen c col (rest : DataFrame) :
  (filter (λ t : bool * (string * column), t.1 = false)
          (zip (duplicated_from seen (columns ((c, col) :: rest)))
               ((c, col) :: rest))).*2
  = if bool_decide (c ∈ seen)
    then (filter (λ t : bool * (string * column), t.1 = false)
                 (zip (duplicated_from (c :: seen) (columns rest)) rest)).*2
    else (c, col)
         :: (filter (λ t : bool * (string * column), t.1 = false)
                    (zip (duplicated_from (c :: seen) (columns rest)) rest)).*2.
Proof.
  unfold columns. rewrite fmap_cons. cbn [duplicated_from zip zip_with fst].
  rewrite filter_cons. cbn [fst].
  case_bool_decide; [by rewrite decide_False|by rewrite decide_True].
Qed.

Lemma drop_duplicated_from_spec seen (df : DataFrame) c col :
  (c, col) ∈ (filter (λ t : bool * (string * column), t.1 = false)
                     (zip (duplicated_from seen (columns df)) df)).*2
  → (c ∉ seen) ∧ ∃ pre post, df = pre ++ (c, col) :: post ∧ (c ∉ columns pre).
Proof.
  revert seen. induction df as [|[c' col'] df IH]; intros seen Hin.
  - by apply elem_of_nil in Hin.
  - rewrite drop_duplicated_from_cons in Hin.
    assert (Hrest : (c, col) ∈ (filter (λ t : bool * (string * column), t.1 = false)
                       (zip (duplicated_from (c' :: seen) (columns df)) df)).*2
              → (c ∉ seen) ∧ ∃ pre post,
                  (c', col') :: df = pre ++ (c, col) :: post ∧ (c ∉ columns pre)).
    { intros Hin'. destruct (IH _ Hin') as (Hns & pre & post & -> & Hpre).
      apply not_elem_of_cons in Hns as [Hne Hns]. split; [done|].
      exists ((c', col') :: pre), post. split; [done|].
      unfold columns. rewrite fmap_cons. apply not_elem_of_cons. by split. }
    case_bool_decide as Hseen; [by apply Hrest|].
    apply elem_of_cons in Hin as [Heq|Hin]; [|by apply Hrest].
    simplify_eq. split; [done|]. exists [], df. split; [done|].
    apply not_elem_of_nil.
Qed.

Lemma drop_duplicated_from_NoDup seen (df : DataFrame) :
  NoDup (columns (filter (λ t : bool * (string * column), t.1 = false)
                         (zip (duplicated_from seen (columns df)) df)).*2).
Proof.
  revert seen. induction df as [|[c col] df IH]; intros seen;
    [apply NoDup_nil_2|].
  rewrite drop_duplicated_from_cons.
  case_bool_decide as Hseen; [apply IH|].
  unfold columns. rewrite fmap_cons. apply NoDup_cons. split; [|apply IH].
  cbn. intros Hin. apply list_elem_of_fmap in Hin as ([c' col'] & Hc & Hin).
  cbn in Hc. subst c'. apply drop_duplicated_from_spec in Hin as [Hns _].
  apply Hns. apply elem_of_cons. by left.
Qed.

Lemma drop_duplicated_from_sublist seen (df : DataFrame) :
  (filter (λ t : bool * (string * column), t.1 = false)
          (zip (duplicated_from seen (columns df)) df)).*2 `sublist_of` df.
Proof.
  revert seen. induction df as [|[c col] df IH]; intros seen; [done|].
  rewrite drop_duplicated_from_cons.
  case_bool_decide; [apply sublist_cons, IH|apply sublist_skip, IH].
Qed.

(** The first occurrence of every label survives, in order, and nothing
    else. *)
Lemma drop_duplicated_spec (df : DataFrame) :
  NoDup (columns (drop_duplicated df))
  ∧ drop_duplicated df `sublist_of` df
  ∧ (∀ c col, (c, col) ∈ drop_duplicated df →
       ∃ pre post, df = pre ++ (c, col) :: post ∧ (c ∉ columns pre)).
Proof.
  unfold drop_duplicated, duplicated. split; [apply drop_duplicated_from_NoDup|].
  split; [apply drop_duplicated_from_sublist|].
  intros c col Hin. by apply drop_duplicated_from_spec in Hin as [_ ?].
Qed.

Lemma drop_duplicated_on_grid g f : on_grid g f → on_grid g (drop_duplicated f).
Proof.
  intros (lbl & rest & -> & Hlbl & Hlen).
  unfold drop_duplicated, duplicated. rewrite drop_duplicated_from_cons.
  rewrite bool_decide_false by apply not_elem_of_nil.
  pose proof (drop_duplicated_from_sublist [lbl] rest) as Hsub.
  eexists lbl, _. split; [reflexivity|]. split.
  - destruct Hlbl as [->|Hts]; [by left|]. right. intros Hin. apply Hts.
    unfold columns in *. eapply elem_of_sublist; [exact Hin|].
    by apply fmap_sublist.
  - rewrite Forall_forall in Hlen. apply Forall_forall. intros p Hp.
    apply Hlen. by eapply elem_of_sublist.
Qed.

Lemma merge_key_dtype g (left right : DataFrame) key sfx res :
  on_grid g left → merge left right "timestamp" key sfx = Ok res →
  ∃ K, getitem right key = Ok (Datetime None K).
Proof.
  intros Hgrid Hm.
  apply merge_Ok in Hm as (lk & rk & idx & ll & rl & Hlk & Hrk & Hidx & _).
  destruct (on_grid_timestamp _ _ _ Hgrid Hlk) as (-> & _).
  destruct rk as [cells|[z|] K]; cbn in Hidx; try done. by exists K.
Qed.

Lemma partners_spec (g K : list stamp) i t :
  (∀ t, t ∈ g → is_Some t) → stamps_distinct K → g !! i = Some t →
  (∀ j, K !! j = Some t → partners g K !! i = Some (Some j))
  ∧ (t ∉ K → partners g K !! i = Some None).
Proof.
  intros Hg HK Hi. unfold partners. rewrite list_lookup_fmap, Hi. cbn.
  assert (Hu : ∀ j1 j2, K !! j1 = Some t → K !! j2 = Some t → j1 = j2).
  { eapply distinct_unique_matches; [done..|]. by eapply list_elem_of_lookup_2. }
  split.
  - intros j Hj. f_equal. unfold matches.
    destruct (matches_from_unique 0 t K Hu) as [Hnil|(j' & -> & Hj')].
    + exfalso. eapply (head_matches_None t K).
      * unfold matches. by rewrite Hnil.
      * by eapply list_elem_of_lookup_2.
    + cbn. f_equal. by apply Hu.
  - intros Hnot. unfold matches. by rewrite matches_from_absent.
Qed.

(** The loop keeps the accumulated dataset on the grid when every series it
    joins has distinct stamps in its join column. *)
Lemma merge_others_on_grid g entries (σ0 : store) :
  (∀ t, t ∈ g → is_Some t) →
  (∀ name r, (name, Some r) ∈ entries →
     ∃ df, σ0 !! r = Some df
           ∧ ∀ key K, join_key name df = Some key →
               getitem df key = Ok (Datetime None K) → stamps_distinct K) →
  ∀ final (σ : store) f la σa,
    σ0 `prefix_of` σ → σ !! final = Some f → on_grid g f →
    merge_others entries final σ = Ok (la, σa) →
    ∃ acc, σa !! la = Some acc ∧ on_grid g acc.
Proof.
  intros Hg. induction entries as [|[name df] entries IH];
    intros Hseries final σ f la σa Hpre Hf Hgrid Hrun.
  - cbn in Hrun. unfold ret in Hrun. simplify_eq. eauto.
  - cbn [merge_others] in Hrun. rewrite bind_unfold in Hrun.
    destruct (merge_one name df final σ) as [[l1 σ1]|] eqn:H1; [|done].
    assert (Hrest : ∀ name r, (name, Some r) ∈ entries →
              ∃ df, σ0 !! r = Some df
                    ∧ ∀ key K, join_key name df = Some key →
                        getitem df key = Ok (Datetime None K) → stamps_distinct K).
    { intros n r Hin. apply Hseries. apply elem_of_cons. by right. }
    pose proof (merge_one_prefix _ _ _ _ _ _ H1) as Hpre1.
    assert (Hstep : ∃ f1, σ1 !! l1 = Some f1 ∧ on_grid g f1).
    { destruct df as [r|]; [|cbn in H1; unfold ret in H1; simplify_eq; eauto].
      destruct (merge_one_Ok _ _ _ _ _ _ H1) as (right & Hr & Hcases).
      destruct Hcases as [(-> & -> & _)|[(-> & -> & _)|Hjoin]].
      - eauto.
      - exists f. split; [|done]. by apply lookup_app_l_Some.
      - destruct Hjoin as (key & ks & left & merged & Hne & Hname & Htc
                           & Hleft & Hm & -> & ->).
        rewrite (lookup_app_l_Some _ _ _ _ Hf) in Hleft. simplify_eq.
        destruct (Hseries name r) as (df0 & Hdf0 & Hdist).
        { apply elem_of_cons. by left. }
        pose proof (prefix_lookup_Some _ _ _ _ Hdf0 Hpre) as Hr'.
        rewrite Hr in Hr'. simplify_eq.
        destruct (merge_key_dtype _ _ _ _ _ _ Hgrid Hm) as [K HK].
        assert (HKd : stamps_distinct K).
        { apply (Hdist key); [|done]. unfold join_key.
          rewrite bool_decide_false by done. by rewrite Htc. }
        destruct (merge_loop_on_grid _ _ _ _ _ _ _ Hgrid Hg HK HKd Hm) as [Hgm _].
        exists merged. split; [|done].
        rewrite app_assoc. replace (S (length σ)) with (length (σ ++ [df0])).
        + apply lookup_fresh.
        + rewrite length_app. cbn. lia. }
    destruct Hstep as (f1 & Hf1 & Hg1).
    eapply (IH Hrest l1 σ1 f1); [|done..]. by etrans.
Qed.

(** ** The merger: statements of the specification *)

Lemma lookup_second_fresh (σ : store) a b :
  (σ ++ [a] ++ [b]) !! S (length σ) = Some b.
Proof.
  rewrite app_assoc.
  replace (S (length σ)) with (length (σ ++ [a])) by (rewrite length_app; cbn; lia).
  apply lookup_fresh.
Qed.


(** C5 (counterexample): a primary series with two readings in one minute
    yields a Merged Dataset with one row more than the Timeline Grid. *)
Lemma repeated_minute_repeats_the_grid_row :
  let dfs := [("blood_glucose"%string, Some 0%nat)] in
  let base := create_base_timeline dfs [twin_primary_frame] in
  let run := merge_all_data dfs [twin_primary_frame] in
  is_ok base = true ∧ is_ok run = true
  ∧ nrows (frame_at (run_store base) (run_loc base)) = 2881%nat
  ∧ nrows (frame_at (run_store run) (run_loc run)) = 2882%nat.
Proof. vm_compute. repeat split; reflexivity. Qed.

(** C5 (amended): when no joined series holds two rows with the same
    Canonical Timestamp in its join column, the Merged Dataset has exactly
    one row per Timeline Grid entry, in grid order: its first column is the
    grid and every column has the grid's length.  Each join of the loop then leaves the
    accumulated columns as they are and appends the incoming columns gathered
    through [partners]: grid row [i] receives the series row stamped with the
    grid instant [i], and the missing marker when there is none.  (A series
    with a repeated timestamp repeats the grid row once per matching row.) *)
Theorem merged_dataset_follows_grid_when_stamps_distinct
    dfs (σ : store) l' σ' :
  (∀ name r, (name, Some r) ∈ dfs →
     ∃ df, σ !! r = Some df
           ∧ ∀ key K, join_key name df = Some key →
               getitem df key = Ok (Datetime None K) → stamps_distinct K) →
  merge_all_data dfs σ = Ok (l', σ') →
  ∃ lb σb g merged,
    create_base_timeline dfs σ = Ok (lb, σb)
    ∧ σb !! lb = Some [("timestamp"%string, Datetime None g)]
    ∧ σ' !! l' = Some merged
    ∧ (∃ lbl rest, merged = (lbl, Datetime None g) :: rest)
    ∧ Forall (λ p, col_len p.2 = length g) merged
    ∧ ∀ name r right final left lm (σ1 σ2 : store),
        σ1 !! r = Some right → σ1 !! final = Some left → on_grid g left →
        (∀ key K, join_key name right = Some key →
           getitem right key = Ok (Datetime None K) → stamps_distinct K) →
        merge_one name (Some r) final σ1 = Ok (lm, σ2) → lm ≠ final →
        ∃ key K rl,
          join_key name right = Some key
          ∧ getitem right key = Ok (Datetime None K)
          ∧ length rl = length (right_frame "timestamp" key right)
          ∧ σ2 !! lm
            = Some (left ++ zip rl ((λ p, take p.2 (partners g K))
                                      <$> right_frame "timestamp" key right))
          ∧ ∀ i t, g !! i = Some t →
              (∀ j, K !! j = Some t → partners g K !! i = Some (Some j))
              ∧ (t ∉ K → partners g K !! i = Some None).
Proof.
  intros Hseries Hrun.
  apply merge_all_data_Ok in Hrun
    as (lb & σb & b & bgl & base & m1 & la & σa & acc
        & Hbase & Hd & Hb & Hlb & Hm1 & Hloop & Hacc & -> & ->).
  pose proof (create_base_timeline_Ok _ _ _ _ Hbase)
    as (b' & bgl' & tz & s & g0 & Hd' & Hb' & _ & Hg0 & -> & Hσb).
  rewrite Hd in Hd'. simplify_eq.
  set (g := fmap (M:=option) round_min <$> g0) in *.
  assert (Hg : ∀ t, t ∈ g → is_Some t).
  { intros t Ht. apply list_elem_of_fmap in Ht as (u & -> & Hu).
    destruct (Hg0 u Hu) as [v ->]. by eexists. }
  assert (Hbase_frame : base = [("timestamp"%string, Datetime None g)]).
  { rewrite lookup_second_fresh in Hlb. by simplify_eq. }
  subst base.
  assert (Hpre : σ `prefix_of`
                   σ ++ [[("timestamp"%string, Datetime tz g0)]]
                     ++ [[("timestamp"%string, Datetime None g)]])
    by (by apply prefix_app_r).
  pose proof (prefix_lookup_Some _ _ _ _ Hb' Hpre) as Hb''.
  rewrite Hb in Hb''. simplify_eq.
  (* the primary join *)
  assert (Hbgl_in : ("blood_glucose"%string, Some b') ∈ dfs).
  { unfold dict_get in Hd.
    destruct (filter _ dfs) as [|[n v] rest] eqn:Hf; [done|]. cbn in Hd.
    simplify_eq.
    assert ((n, Some b') ∈ filter (λ p : string * option nat, p.1 = "blood_glucose"%string) dfs)
      as Hin by (rewrite Hf; apply elem_of_cons; by left).
    apply list_elem_of_filter in Hin as [Hn Hin]. cbn in Hn. by subst n. }
  destruct (Hseries _ _ Hbgl_in) as (df & Hdf & Hdist).
  rewrite Hb' in Hdf. simplify_eq.
  assert (Hgrid0 : on_grid g [("timestamp"%string, Datetime None g)]).
  { exists "timestamp"%string, []. split; [done|]. split; [by left|]. constructor. }
  destruct (merge_key_dtype _ _ _ _ _ _ Hgrid0 Hm1) as [K HK].
  assert (HKd : stamps_distinct K) by (by apply (Hdist "date"%string)).
  pose proof (merge_primary_on_grid _ _ _ _ Hg HK HKd Hm1) as Hgrid1.
  (* the loop *)
  assert (Hpre2 : σ `prefix_of`
                    (σ ++ [[("timestamp"%string, Datetime tz g0)]]
                       ++ [[("timestamp"%string, Datetime None g)]])
                    ++ [df] ++ [m1]).
  { etrans; [exact Hpre|]. by apply prefix_app_r. }
  assert (Hm1_at : ((σ ++ [[("timestamp"%string, Datetime tz g0)]]
                       ++ [[("timestamp"%string, Datetime None g)]])
                    ++ [df] ++ [m1])
                   !! S (length (σ ++ [[("timestamp"%string, Datetime tz g0)]]
                                   ++ [[("timestamp"%string, Datetime None g)]]))
                   = Some m1).
  { apply lookup_second_fresh. }
  destruct (merge_others_on_grid g dfs σ Hg Hseries _ _ _ _ _
              Hpre2 Hm1_at Hgrid1 Hloop) as (acc' & Hacc' & Hgrid2).
  rewrite Hacc in Hacc'. simplify_eq.
  pose proof (drop_duplicated_on_grid _ _ Hgrid2) as (lbl & rest & Heq & _ & Hlen).
  eexists _, _, g, (drop_duplicated acc').
  split; [exact Hbase|].
  split.
  { apply lookup_second_fresh. }
  split; [apply lookup_fresh|].
  split; [eauto|].
  split.
  { rewrite Heq. apply Forall_cons. split; [done|exact Hlen]. }
  (* one join of the loop *)
  clear -Hg. intros name r right final left lm σ1 σ2 Hr Hf Hgrid Hdist H1 Hne.
  destruct (merge_one_Ok _ _ _ _ _ _ H1) as (right' & Hr' & Hcases).
  rewrite Hr in Hr'. simplify_eq.
  destruct Hcases as [(-> & _)|[(-> & _)|Hjoin]]; [done..|].
  destruct Hjoin as (key & ks & left' & merged & Hnempty & Hname & Htc
                     & Hleft & Hm & -> & ->).
  rewrite (lookup_app_l_Some _ _ _ _ Hf) in Hleft. simplify_eq.
  destruct (merge_key_dtype _ _ _ _ _ _ Hgrid Hm) as [K HK].
  assert (Hjk : join_key name right' = Some key).
  { unfold join_key. rewrite bool_decide_false by done. by rewrite Htc. }
  assert (HKd : stamps_distinct K) by (by apply (Hdist key)).
  destruct (merge_loop_on_grid _ _ _ _ _ _ _ Hgrid Hg HK HKd Hm)
    as (_ & rl & -> & Hrl).
  exists key, K, rl. split; [done|]. split; [done|].
  split; [rewrite Hrl; unfold columns; by rewrite !length_fmap|].
  split.
  { apply lookup_second_fresh. }
  intros i t Hi. by apply partners_spec.
Qed.

Lemma NoDup_stamps_distinct (s : list stamp) : NoDup s → stamps_distinct s.
Proof. intros Hs i j v Hi Hj. by eapply NoDup_lookup. Qed.

Lemma stamps_distinct_by_decide (s : list stamp) :
  bool_decide (NoDup s) = true → stamps_distinct s.
Proof. intros Hs. apply NoDup_stamps_distinct. by apply bool_decide_eq_true_1 in Hs. Qed.

Lemma run_eta (r : result (loc * store)) :
  is_ok r = true → r = Ok (run_loc r, run_store r).
Proof. by destruct r as [[l s]|]. Qed.

Lemma merged_dataset_follows_grid_when_stamps_distinct_witness :
  (∀ name r, (name, Some r) ∈ demo_frames →
     ∃ df, demo_store !! r = Some df
           ∧ ∀ key K, join_key name df = Some key →
               getitem df key = Ok (Datetime None K) → stamps_distinct K)
  ∧ merge_all_data demo_frames demo_store
    = Ok (run_loc demo_run, run_store demo_run)
  ∧ ∃ lb σb g merged,
      create_base_timeline demo_frames demo_store = Ok (lb, σb)
      ∧ σb !! lb = Some [("timestamp"%string, Datetime None g)]
      ∧ run_store demo_run !! run_loc demo_run = Some merged
      ∧ (∃ lbl rest, merged = (lbl, Datetime None g) :: rest)
      ∧ Forall (λ p, col_len p.2 = length g) merged.
Proof.
  assert (Hseries : ∀ name r, (name, Some r) ∈ demo_frames →
     ∃ df, demo_store !! r = Some df
           ∧ ∀ key K, join_key name df = Some key →
               getitem df key = Ok (Datetime None K) → stamps_distinct K).
  { intros name r Hin. unfold demo_frames in Hin.
    apply elem_of_cons in Hin as [Heq|Hin].
    - injection Heq as -> ->. exists primary_frame. split; [reflexivity|].
      intros key K Hkey HK. injection Hkey as <-.
      injection HK as <-. apply stamps_distinct_by_decide. vm_compute. reflexivity.
    - apply elem_of_cons in Hin as [Heq|Hin]; [|by apply elem_of_nil in Hin].
      injection Heq as -> ->. exists daily_score_frame. split; [reflexivity|].
      intros key K Hkey HK. injection Hkey as <-.
      injection HK as <-. apply stamps_distinct_by_decide. vm_compute. reflexivity. }
  assert (Hrun : merge_all_data demo_frames demo_store
                 = Ok (run_loc demo_run, run_store demo_run)).
  { apply (run_eta demo_run). vm_compute. reflexivity. }
  split; [exact Hseries|]. split; [exact Hrun|].
  destruct (merged_dataset_follows_grid_when_stamps_distinct
              demo_frames demo_store _ _ Hseries Hrun)
    as (lb & σb & g & merged & H1 & H2 & H3 & H4 & H5 & _).
  exists lb, σb, g, merged.
  split; [exact H1|]. split; [exact H2|]. split; [exact H3|].
  split; [exact H4|exact H5].
Defined.

Lemma join_key_secondary name (right : DataFrame) key ks :
  name ≠ "blood_glucose"%string → time_cols (columns right) = key :: ks →
  join_key name right = Some key.
Proof.
  intros Hname Htc. unfold join_key.
  case_bool_decide; [done|]. by rewrite Htc.
Qed.

(** ** Repeating entries in place *)

Lemma expands_refl {A} (l : list A) : expands l l.
Proof.
  induction l as [|x l IH]; [constructor|].
  apply (expands_cons x 0 l l IH).
Qed.

Lemma expands_replicate {A} (x : A) m (l k : list A) :
  expands (replicate (S m) x ++ l) k →
  ∃ n k', k = replicate (S n) x ++ k' ∧ expands l k'.
Proof.
  revert k. induction m as [|m IH]; intros k Hk.
  - cbn in Hk. inversion Hk as [|? n ? k' Hk']; subst. by exists n, k'.
  - cbn [replicate app] in Hk. inversion Hk as [|? n ? k1 Hk1]; subst.
    destruct (IH k1 Hk1) as (n' & k' & -> & Hk').
    exists (S n + n')%nat, k'. split; [|done].
    rewrite app_assoc, <- replicate_add. f_equal. f_equal. lia.
Qed.

Lemma expands_trans {A} (l k m : list A) :
  expands l k → expands k m → expands l m.
Proof.
  intros Hlk. revert m. induction Hlk as [|x n l k Hlk IH]; intros m Hm.
  - inversion Hm. constructor.
  - apply expands_replicate in Hm as (n' & m' & -> & Hm').
    constructor. by apply IH.
Qed.

Lemma expands_fmap {A B} (f : A → B) (l k : list A) :
  expands l k → expands (f <$> l) (f <$> k).
Proof.
  induction 1 as [|x n l k Hlk IH]; [constructor|].
  rewrite fmap_cons, fmap_app, fmap_replicate. by constructor.
Qed.

Lemma expands_sublist {A} (l k : list A) : expands l k → l `sublist_of` k.
Proof.
  induction 1 as [|x n l k Hlk IH]; [done|].
  cbn [replicate app]. apply sublist_skip. by apply sublist_inserts_l.
Qed.

Lemma expands_elem {A} (l k : list A) x : expands l k → x ∈ k → x ∈ l.
Proof.
  induction 1 as [|y n l k Hlk IH]; [done|].
  intros Hx. apply elem_of_app in Hx as [Hx|Hx].
  - apply elem_of_replicate in Hx as [-> _]. apply elem_of_cons. by left.
  - apply elem_of_cons. right. by apply IH.
Qed.

Lemma expands_length {A} (l k : list A) : expands l k → (length l ≤ length k)%nat.
Proof. intros H. by apply sublist_length, expands_sublist. Qed.

Lemma expands_concat {A} (l k : list A) :
  expands l k →
  ∃ reps : list nat,
    length reps = length l
    ∧ k = concat (zip_with (λ n x, replicate (S n) x) reps l).
Proof.
  induction 1 as [|x n l k Hlk (reps & Hlen & ->)]; [by exists []|].
  exists (n :: reps). split; [cbn; by rewrite Hlen|done].
Qed.

Lemma gather_all {A} (d : A) (l : list A) :
  (λ i, default d (l !! i)) <$> seq 0 (length l) = l.
Proof.
  apply list_eq. intros i. rewrite list_lookup_fmap.
  destruct (decide (i < length l)%nat) as [Hi|Hi].
  - rewrite lookup_seq_lt by done. cbn.
    destruct (lookup_lt_is_Some_2 l i Hi) as [x Hx]. by rewrite Hx.
  - rewrite lookup_seq_ge by lia. cbn. symmetry. apply lookup_ge_None. lia.
Qed.

(** The left rows of a left join are all the rows of the left key, in order,
    each once or more. *)
Lemma left_join_from_expands {K} `{EqDecision K} o (lk rk : list K) :
  expands (seq o (length lk)) (left_join_from o lk rk).*1.
Proof.
  revert o. induction lk as [|k lk IH]; intros o; [constructor|].
  cbn [left_join_from length seq]. rewrite fmap_app.
  assert (Hrows : ∃ n, (match matches k rk with
                        | [] => [(o, None)]
                        | j :: js => (λ j0, (o, Some j0)) <$> j :: js
                        end).*1 = replicate (S n) o).
  { destruct (matches k rk) as [|j js]; [by exists 0%nat|].
    exists (length js). cbn. f_equal.
    induction js as [|j' js IHjs]; [done|]. cbn. by f_equal. }
  destruct Hrows as [n ->]. constructor. apply IH.
Qed.

Lemma take_take col os (ix : list nat) :
  take (take col os) (Some <$> ix)
  = take col ((λ i, default None (os !! i)) <$> ix).
Proof.
  destruct col as [cells|tz s]; cbn; f_equal; rewrite <- !list_fmap_compose;
    apply list_fmap_ext; intros k i Hk; cbn; rewrite list_lookup_fmap;
    by destruct (os !! i).
Qed.

Lemma gather_in_range (jx ix : list nat) :
  (∀ i, i ∈ ix → (i < length jx)%nat) →
  (λ i, default None ((Some <$> jx) !! i)) <$> ix
  = Some <$> ((λ i, default 0%nat (jx !! i)) <$> ix).
Proof.
  intros Hr. rewrite <- list_fmap_compose. apply list_fmap_ext.
  intros k i Hi. cbn. rewrite list_lookup_fmap.
  apply list_elem_of_lookup_2 in Hi. apply Hr in Hi.
  destruct (lookup_lt_is_Some_2 jx i Hi) as [x Hx]. by rewrite Hx.
Qed.

(** ** The merger: the join in general *)

Lemma matches_from_spec {K} `{EqDecision K} o (k : K) rk j :
  j ∈ matches_from o k rk ↔ ∃ j', j = (o + j')%nat ∧ rk !! j' = Some k.
Proof.
  split; [apply matches_from_elem|].
  intros (j' & -> & Hj'). revert o j' Hj'.
  induction rk as [|x rk IH]; intros o j' Hj'; [done|].
  cbn [matches_from]. destruct j' as [|j'].
  - cbn in Hj'. simplify_eq. rewrite decide_True by done.
    rewrite Nat.add_0_r. apply elem_of_cons. by left.
  - cbn in Hj'. replace (o + S j')%nat with (S o + j')%nat by lia.
    destruct (decide (x = k)); [apply elem_of_cons; right|]; by apply IH.
Qed.

Lemma matches_nil {K} `{EqDecision K} (k : K) rk : matches k rk = [] ↔ k ∉ rk.
Proof.
  split.
  - intros Hnil Hin. apply list_elem_of_lookup in Hin as [j Hj].
    assert (Hm : (0 + j)%nat ∈ matches k rk)
      by (apply matches_from_spec; eauto).
    rewrite Hnil in Hm. by apply elem_of_nil in Hm.
  - apply matches_from_absent.
Qed.

(** The pairs of the left-join indexer: a left row with each right row that
    holds the same key, and with no partner exactly when no right row holds
    its key. *)
Lemma left_join_from_elem {K} `{EqDecision K} o (lk rk : list K) i oj :
  (i, oj) ∈ left_join_from o lk rk ↔
  ∃ i' k, i = (o + i')%nat ∧ lk !! i' = Some k
          ∧ match oj with Some j => rk !! j = Some k | None => k ∉ rk end.
Proof.
  revert o. induction lk as [|k0 lk IH]; intros o.
  - cbn. split; [by intros ?%elem_of_nil|]. by intros (i' & k & _ & ? & _).
  - cbn [left_join_from]. rewrite elem_of_app, IH. split.
    + intros [Hhead|(i' & k & -> & Hi' & Hoj)].
      * exists 0%nat, k0. rewrite Nat.add_0_r.
        destruct (matches k0 rk) as [|j0 js] eqn:Hm.
        -- apply list_elem_of_singleton in Hhead. simplify_eq.
           split; [done|]. split; [done|]. by apply matches_nil.
        -- apply list_elem_of_fmap in Hhead as (j & Heq & Hj). simplify_eq.
           split; [done|]. split; [done|].
           rewrite <- Hm in Hj. apply matches_from_spec in Hj as (j' & -> & Hj').
           done.
      * exists (S i'), k. split; [lia|]. done.
    + intros (i' & k & -> & Hi' & Hoj). destruct i' as [|i'].
      * left. cbn in Hi'. simplify_eq. rewrite Nat.add_0_r.
        destruct oj as [j|].
        -- assert (Hj : j ∈ matches k rk).
           { apply matches_from_spec. exists j. done. }
           destruct (matches k rk) as [|j0 js] eqn:Hm;
             [by apply elem_of_nil in Hj|].
           by apply (list_elem_of_fmap_2 (λ j, (o, Some j))).
        -- apply matches_nil in Hoj. rewrite Hoj.
           apply elem_of_cons. by left.
      * right. exists i', k. split; [lia|]. done.
Qed.

Lemma take_key_gather (T : list stamp) (ix : list nat) :
  take (Datetime None T) (Some <$> ix)
  = Datetime None ((λ i : nat, mjoin (T !! i)) <$> ix).
Proof. cbn. by rewrite <- list_fmap_compose. Qed.

Lemma keyed_timestamp T f lk :
  keyed T f → getitem f "timestamp" = Ok lk →
  lk = Datetime None T ∧ ∃ rest, f = ("timestamp"%string, Datetime None T) :: rest.
Proof.
  intros (lbl & rest & -> & Hlbl) Hg.
  apply getitem_Ok in Hg as (pre & post & Heq & Hpre & Hpost).
  destruct pre as [|p pre].
  - cbn in Heq. simplify_eq. eauto.
  - cbn in Heq. simplify_eq. exfalso.
    unfold columns in Hpre. rewrite fmap_cons in Hpre.
    apply not_elem_of_cons in Hpre as [Hne _]. cbn in Hne.
    destruct Hlbl as [->|Hrest]; [done|]. apply Hrest.
    unfold columns. rewrite fmap_app, fmap_cons. cbn.
    apply elem_of_app. right. apply elem_of_cons. by left.
Qed.

(** What a successful join on [timestamp] does to the key column of a keyed
    dataset. *)
Lemma merge_keyed T (left right : DataFrame) key sfx res :
  keyed T left → merge left right "timestamp" key sfx = Ok res →
  ∃ K rest ll rl,
    left = ("timestamp"%string, Datetime None T) :: rest
    ∧ getitem right key = Ok (Datetime None K)
    ∧ _items_overlap_with_suffix (columns left)
        (columns (right_frame "timestamp" key right)) sfx = Ok (ll, rl)
    ∧ res = zip ll ((λ p, take p.2 (Some <$> (left_join_indexer T K).*1)) <$> left)
            ++ zip rl ((λ p, take p.2 (left_join_indexer T K).*2)
                         <$> right_frame "timestamp" key right).
Proof.
  intros Hkeyed Hm.
  apply merge_Ok in Hm as (lk & rk & idx & ll & rl & Hlk & Hrk & Hidx & Hov & ->).
  destruct (keyed_timestamp _ _ _ Hkeyed Hlk) as (-> & rest & ->).
  destruct rk as [cells|[z|] K]; cbn in Hidx; try done. simplify_eq.
  by exists K, rest, ll, rl.
Qed.

Lemma gather_all_key (T : list stamp) :
  (λ i : nat, mjoin (T !! i)) <$> seq 0 (length T) = T.
Proof.
  rewrite <- (gather_all None T) at 2. apply list_fmap_ext.
  intros k i Hk. by destruct (T !! i).
Qed.

(** Gathering the left key through the indexer repeats each of its entries
    in place, once or more. *)
Lemma gather_expands (T K : list stamp) :
  expands T ((λ i : nat, mjoin (T !! i)) <$> (left_join_indexer T K).*1).
Proof.
  rewrite <- (gather_all_key T) at 1. apply expands_fmap.
  apply left_join_from_expands.
Qed.

Lemma merge_loop_keyed T (left right : DataFrame) key rs res :
  keyed T left → merge left right "timestamp" key (""%string, rs) = Ok res →
  ∃ T', keyed T' res ∧ expands T T'.
Proof.
  intros Hkeyed Hm.
  destruct (merge_keyed _ _ _ _ _ _ Hkeyed Hm)
    as (K & rest & ll & rl & -> & HK & Hov & ->).
  apply overlap_Ok in Hov as [-> ->].
  eexists. split; [|exact (gather_expands T K)].
  assert (Hll : ∀ tr (l : list string), renamer tr "" <$> l = l).
  { intros tr l. rewrite <- (list_fmap_id l) at 2. apply list_fmap_ext.
    intros. apply renamer_empty. }
  rewrite Hll.
  change (columns (("timestamp"%string, Datetime None T) :: rest))
    with ("timestamp"%string :: columns rest).
  rewrite fmap_cons. cbn [fst snd zip zip_with app].
  rewrite take_key_gather.
  eexists "timestamp"%string, _. split; [reflexivity|]. by left.
Qed.

Lemma merge_primary_keyed g (right : DataFrame) res :
  merge [("timestamp"%string, Datetime None g)] right "timestamp" "date"
        ("_x"%string, "_y"%string) = Ok res →
  ∃ T', keyed T' res ∧ expands g T'.
Proof.
  intros Hm.
  assert (Hkeyed : keyed g [("timestamp"%string, Datetime None g)]).
  { exists "timestamp"%string, []. split; [done|]. by left. }
  destruct (merge_keyed _ _ _ _ _ _ Hkeyed Hm)
    as (K & rest & ll & rl & Heq & HK & Hov & ->).
  apply overlap_Ok in Hov as [-> ->].
  eexists. split; [|exact (gather_expands g K)].
  set (R := columns (right_frame "timestamp" "date" right)).
  cbn [columns fmap list_fmap fst snd zip zip_with app].
  rewrite take_key_gather.
  eexists _, _. split; [reflexivity|].
  destruct (decide ("timestamp"%string ∈ R)) as [Hin'|Hnin].
  - right. intros Hts. unfold columns in Hts.
    apply list_elem_of_fmap in Hts as ([c col] & Hc & Hin'').
    cbn in Hc. subst c. apply elem_of_zip_l in Hin''.
    apply list_elem_of_fmap in Hin'' as (x & Hx & HxR).
    unfold renamer in Hx. case_bool_decide as Htr.
    + apply list_elem_of_filter in Htr as [_ Htr].
      apply list_elem_of_singleton in Htr. subst x. discriminate Hx.
    + subst x. apply Htr. apply list_elem_of_filter. split; [done|].
      apply elem_of_cons. by left.
  - left. unfold renamer. rewrite bool_decide_false; [done|].
    intros Htr. apply list_elem_of_filter in Htr as [Htr _]. done.
Qed.

Lemma merge_others_keyed entries :
  ∀ T final (σ : store) f la σa,
    σ !! final = Some f → keyed T f →
    merge_others entries final σ = Ok (la, σa) →
    ∃ T' acc, σa !! la = Some acc ∧ keyed T' acc ∧ expands T T'.
Proof.
  induction entries as [|[name df] entries IH];
    intros T final σ f la σa Hf Hkeyed Hrun.
  - cbn in Hrun. unfold ret in Hrun. simplify_eq. exists T, f.
    split; [done|]. split; [done|apply expands_refl].
  - cbn [merge_others] in Hrun. rewrite bind_unfold in Hrun.
    destruct (merge_one name df final σ) as [[l1 σ1]|] eqn:H1; [|done].
    assert (Hstep : ∃ T1 f1, σ1 !! l1 = Some f1 ∧ keyed T1 f1 ∧ expands T T1).
    { destruct df as [r|].
      2:{ cbn in H1. unfold ret in H1. simplify_eq. exists T, f.
          split; [done|]. split; [done|apply expands_refl]. }
      destruct (merge_one_Ok _ _ _ _ _ _ H1) as (right & Hr & Hcases).
      destruct Hcases as [(-> & -> & _)|[(-> & -> & _)|Hjoin]].
      - exists T, f. split; [done|]. split; [done|apply expands_refl].
      - exists T, f. split; [by apply lookup_app_l_Some|].
        split; [done|apply expands_refl].
      - destruct Hjoin as (key & ks & left & merged & Hne & Hname & Htc
                           & Hleft & Hm & -> & ->).
        rewrite (lookup_app_l_Some _ _ _ _ Hf) in Hleft. simplify_eq.
        destruct (merge_loop_keyed _ _ _ _ _ _ Hkeyed Hm) as (T1 & Hk1 & He1).
        exists T1, merged. split; [apply lookup_second_fresh|]. done. }
    destruct Hstep as (T1 & f1 & Hf1 & Hk1 & He1).
    destruct (IH T1 l1 σ1 f1 la σa Hf1 Hk1 Hrun) as (T' & acc & Hacc & Hk' & He').
    exists T', acc. split; [done|]. split; [done|].
    by eapply expands_trans.
Qed.

Lemma drop_duplicated_keyed T f : keyed T f → keyed T (drop_duplicated f).
Proof.
  intros (lbl & rest & -> & Hlbl).
  unfold drop_duplicated, duplicated. rewrite drop_duplicated_from_cons.
  rewrite bool_decide_false by apply not_elem_of_nil.
  pose proof (drop_duplicated_from_sublist [lbl] rest) as Hsub.
  eexists lbl, _. split; [reflexivity|].
  destruct Hlbl as [->|Hts]; [by left|]. right. intros Hin. apply Hts.
  unfold columns in *. eapply elem_of_sublist; [exact Hin|].
  by apply fmap_sublist.
Qed.


(** ** The loop of the merger, join by join *)

Lemma merge_others_app pre post final (σ : store) :
  merge_others (pre ++ post) final σ
  = match merge_others pre final σ with
    | Ok (l, σ1) => merge_others post l σ1
    | Raise e => Raise e
    end.
Proof.
  revert final σ. induction pre as [|[name df] pre IH]; intros final σ; [done|].
  cbn [app merge_others]. rewrite !bind_unfold.
  destruct (merge_one name df final σ) as [[l1 σ1]|]; [apply IH|done].
Qed.

(** What the checks of [_items_overlap_with_suffix] leave when labels do
    overlap. *)
Lemma overlap_checks (left right : list string) ls rs ll rl :
  _items_overlap_with_suffix left right (ls, rs) = Ok (ll, rl) →
  filter (λ x, x ∈ right) left ≠ [] →
  suffix_dups right rl = []
  ∧ ∀ x, x ∈ rl → x ∈ left → x ∈ filter (λ x, x ∈ right) left.
Proof.
  intros Hov Htr. pose proof (overlap_Ok _ _ _ _ _ _ Hov) as [-> ->].
  unfold _items_overlap_with_suffix in Hov.
  destruct (filter (λ x, x ∈ right) left) as [|t ts] eqn:Hf; [done|].
  destruct (_ && _); [done|].
  match type of Hov with
  | match ?a ++ ?b ++ ?c ++ ?d with _ => _ end = _ =>
      destruct (a ++ b ++ c ++ d) eqn:Happ; [|done];
      apply app_eq_nil in Happ as [_ Happ];
      apply app_eq_nil in Happ as [Hb Happ];
      apply app_eq_nil in Happ as [_ Hd]
  end.
  split; [exact Hb|].
  intros x Hx Hl. destruct (decide (x ∈ t :: ts)) as [|Hn]; [done|].
  exfalso. assert (Hin : x ∈ filter (λ x, x ∈ left ∧ x ∉ t :: ts)
                               (renamer (t :: ts) rs <$> right))
    by (by apply list_elem_of_filter).
  rewrite Hd in Hin. by apply elem_of_nil in Hin.
Qed.

Lemma length_duplicated_from seen l :
  length (duplicated_from seen l) = length l.
Proof. revert seen. induction l; intros seen; cbn; [done|]. by rewrite IHl. Qed.

Lemma duplicated_from_false_NoDup seen l :
  (∀ b, b ∈ duplicated_from seen l → b = false) →
  NoDup l ∧ ∀ y, y ∈ l → y ∉ seen.
Proof.
  revert seen. induction l as [|x l IH]; intros seen Hall.
  - split; [constructor|]. by intros y ?%elem_of_nil.
  - cbn [duplicated_from] in Hall.
    assert (Hx : x ∉ seen).
    { apply (bool_decide_eq_false_1 (x ∈ seen)). apply Hall.
      apply elem_of_cons. by left. }
    destruct (IH (x :: seen)) as [Hnd Hdis].
    { intros b Hb. apply Hall. apply elem_of_cons. by right. }
    split.
    + constructor; [|done]. intros Hin. apply (Hdis x Hin).
      apply elem_of_cons. by left.
    + intros y Hy. apply elem_of_cons in Hy as [-> | Hy]; [done|].
      intros Hs. apply (Hdis y Hy). apply elem_of_cons. by right.
Qed.

Lemma duplicated_from_NoDup_false seen l b :
  NoDup l → (∀ y, y ∈ l → y ∉ seen) → b ∈ duplicated_from seen l → b = false.
Proof.
  revert seen. induction l as [|x l IH]; intros seen Hnd Hdis Hb.
  - by apply elem_of_nil in Hb.
  - cbn [duplicated_from] in Hb. apply NoDup_cons in Hnd as [Hx Hnd].
    apply elem_of_cons in Hb as [-> | Hb].
    + apply bool_decide_eq_false_2. apply Hdis. apply elem_of_cons. by left.
    + apply (IH (x :: seen)); [done| |done].
      intros y Hy Hs. apply elem_of_cons in Hs as [-> | Hs]; [done|].
      apply (Hdis y); [apply elem_of_cons; by right|done].
Qed.

(** Renaming a side without repeated labels leaves no repeated label, or
    the join is refused. *)
Lemma suffix_dups_nil_NoDup (orig renamed : list string) :
  length orig = length renamed → NoDup orig →
  suffix_dups orig renamed = [] → NoDup renamed.
Proof.
  intros Hlen Hnd Hnil.
  apply (duplicated_from_false_NoDup [] renamed). intros b Hb.
  destruct b; [|done]. exfalso.
  apply list_elem_of_lookup in Hb as [i Hi].
  assert (Hi' : (i < length renamed)%nat).
  { rewrite <- (length_duplicated_from [] renamed). by eapply lookup_lt_Some. }
  destruct (lookup_lt_is_Some_2 renamed i Hi') as [x Hx].
  destruct (lookup_lt_is_Some_2 (duplicated orig) i) as [b' Hb'].
  { unfold duplicated. rewrite length_duplicated_from. lia. }
  assert (b' = false) as ->.
  { apply (duplicated_from_NoDup_false [] orig); [done| |].
    - intros y _. apply not_elem_of_nil.
    - by eapply list_elem_of_lookup_2. }
  assert (Hin : x ∈ suffix_dups orig renamed).
  { unfold suffix_dups. apply list_elem_of_fmap.
    exists ((true, false), x). split; [done|].
    apply list_elem_of_filter. split; [done|].
    apply list_elem_of_lookup. exists i.
    apply lookup_zip_with_Some. exists (true, false), x.
    split; [done|]. split; [|done].
    apply lookup_zip_with_Some. by exists true, false. }
  rewrite Hnil in Hin. by apply elem_of_nil in Hin.
Qed.

Lemma zip_fmap_frame (f : string → string) (g : string * column → column)
    (df : DataFrame) :
  zip (f <$> columns df) (g <$> df) = (λ p, (f p.1, g p)) <$> df.
Proof. induction df as [|p df IH]; [done|]. cbn. by rewrite <- IH. Qed.

(** The result of a join of the loop, column by column. *)
Lemma merge_loop_form T (left right : DataFrame) key rs res :
  keyed T left → merge left right "timestamp" key (""%string, rs) = Ok res →
  ∃ K rest,
    left = ("timestamp"%string, Datetime None T) :: rest
    ∧ getitem right key = Ok (Datetime None K)
    ∧ res = ((λ p, (p.1, take p.2 (Some <$> (left_join_indexer T K).*1))) <$> left)
            ++ ((λ p, (renamer (filter (λ x, x ∈ columns (right_frame "timestamp" key right))
                                       (columns left)) rs p.1,
                       take p.2 (left_join_indexer T K).*2))
                  <$> right_frame "timestamp" key right)
    ∧ (filter (λ x, x ∈ columns (right_frame "timestamp" key right)) (columns left) ≠ [] →
       suffix_dups (columns (right_frame "timestamp" key right))
         (renamer (filter (λ x, x ∈ columns (right_frame "timestamp" key right))
                          (columns left)) rs
            <$> columns (right_frame "timestamp" key right)) = []
       ∧ ∀ x, x ∈ renamer (filter (λ x, x ∈ columns (right_frame "timestamp" key right))
                                  (columns left)) rs
                    <$> columns (right_frame "timestamp" key right) →
              x ∈ columns left →
              x ∈ filter (λ x, x ∈ columns (right_frame "timestamp" key right))
                         (columns left)).
Proof.
  intros Hkeyed Hm.
  destruct (merge_keyed _ _ _ _ _ _ Hkeyed Hm)
    as (K & rest & ll & rl & Hleft & HK & Hov & ->).
  pose proof (overlap_Ok _ _ _ _ _ _ Hov) as [-> ->].
  exists K, rest. split; [done|]. split; [done|]. split.
  - rewrite !zip_fmap_frame. f_equal. apply list_fmap_ext.
    intros k p Hp. by rewrite renamer_empty.
  - intros Htr. by destruct (overlap_checks _ _ _ _ _ _ Hov Htr).
Qed.

(** A later join keeps the columns of the dataset, label and position, and
    repeats its rows in place. *)
Lemma carried_join (merged acc right res : DataFrame) Tm rest jx key rs :
  merged = ("timestamp"%string, Datetime None Tm) :: rest →
  expands (seq 0 (length Tm)) jx → carried jx merged acc →
  merge acc right "timestamp" key (""%string, rs) = Ok res →
  ∃ jx', expands (seq 0 (length Tm)) jx' ∧ carried jx' merged res.
Proof.
  intros -> Hexp Hcar Hm.
  pose proof (Hcar 0%nat _ _ eq_refl) as H0. rewrite take_key_gather in H0.
  destruct acc as [|p acc']; [done|]. cbn in H0. injection H0 as ->.
  set (Tacc := (λ i : nat, mjoin (Tm !! i)) <$> jx) in *.
  assert (Hkeyed : keyed Tacc (("timestamp"%string, Datetime None Tacc) :: acc')).
  { eexists _, _. split; [reflexivity|]. by left. }
  destruct (merge_loop_form _ _ _ _ _ _ Hkeyed Hm) as (K & rest' & _ & HK & -> & _).
  set (ix2 := (left_join_indexer Tacc K).*1).
  assert (Hix : expands (seq 0 (length jx)) ix2).
  { unfold ix2. replace (length jx) with (length Tacc)
      by (unfold Tacc; apply length_fmap).
    apply left_join_from_expands. }
  exists ((λ i, default 0%nat (jx !! i)) <$> ix2). split.
  - eapply expands_trans; [exact Hexp|].
    rewrite <- (gather_all 0%nat jx) at 1. by apply expands_fmap.
  - intros k label col Hk. pose proof (Hcar k label col Hk) as Hacc.
    rewrite lookup_app_l.
    2:{ rewrite length_fmap. by eapply lookup_lt_Some. }
    rewrite list_lookup_fmap, Hacc. cbn. do 2 f_equal.
    rewrite take_take, gather_in_range; [done|].
    intros i Hi. apply (expands_elem _ _ _ Hix) in Hi.
    apply elem_of_seq in Hi. lia.
Qed.

Lemma merge_others_carried (merged : DataFrame) Tm rest entries :
  merged = ("timestamp"%string, Datetime None Tm) :: rest →
  ∀ final (σ : store) acc jx la σa,
    σ !! final = Some acc →
    expands (seq 0 (length Tm)) jx → carried jx merged acc →
    merge_others entries final σ = Ok (la, σa) →
    ∃ acc' jx', σa !! la = Some acc'
                ∧ expands (seq 0 (length Tm)) jx' ∧ carried jx' merged acc'.
Proof.
  intros Hmerged. induction entries as [|[name df] entries IH];
    intros final σ acc jx la σa Hf Hexp Hcar Hrun.
  - cbn in Hrun. unfold ret in Hrun. simplify_eq. by exists acc, jx.
  - cbn [merge_others] in Hrun. rewrite bind_unfold in Hrun.
    destruct (merge_one name df final σ) as [[l1 σ1]|] eqn:H1; [|done].
    assert (Hstep : ∃ acc1 jx1, σ1 !! l1 = Some acc1
                      ∧ expands (seq 0 (length Tm)) jx1 ∧ carried jx1 merged acc1).
    { destruct df as [r|].
      2:{ cbn in H1. unfold ret in H1. simplify_eq. by exists acc, jx. }
      destruct (merge_one_Ok _ _ _ _ _ _ H1) as (right & Hr & Hcases).
      destruct Hcases as [(-> & -> & _)|[(-> & -> & _)|Hjoin]].
      - by exists acc, jx.
      - exists acc, jx. split; [by apply lookup_app_l_Some|]. done.
      - destruct Hjoin as (key & ks & left & res & Hne & Hname & Htc
                           & Hleft & Hm & -> & ->).
        rewrite (lookup_app_l_Some _ _ _ _ Hf) in Hleft. simplify_eq.
        destruct (carried_join _ _ _ _ _ _ _ _ _ eq_refl Hexp Hcar Hm)
          as (jx1 & He1 & Hc1).
        exists res, jx1. split; [apply lookup_second_fresh|]. done. }
    destruct Hstep as (acc1 & jx1 & Hf1 & He1 & Hc1).
    by apply (IH l1 σ1 acc1 jx1).
Qed.

Lemma carried_refl (f : DataFrame) n :
  Forall (λ p, col_len p.2 = n) f → carried (seq 0 n) f f.
Proof.
  intros Hlen k label col Hk. rewrite Hk. do 2 f_equal.
  rewrite Forall_forall in Hlen.
  rewrite <- (Hlen (label, col)) by (by eapply list_elem_of_lookup_2).
  symmetry. apply take_all.
Qed.

(** The labels of a carried frame, up to the length of the frame it carries. *)
Lemma carried_label (f f' : DataFrame) jx j x col :
  carried jx f f' → (j < length f)%nat → f' !! j = Some (x, col) →
  ∃ col0, f !! j = Some (x, col0).
Proof.
  intros Hcar Hj Hf'. destruct (lookup_lt_is_Some_2 f j Hj) as [[x0 col0] H0].
  pose proof (Hcar _ _ _ H0) as H1. rewrite Hf' in H1. simplify_eq.
  by exists col0.
Qed.

Lemma drop_duplicated_from_first seen (df p q : DataFrame) c col :
  df = p ++ (c, col) :: q → c ∉ columns p → c ∉ seen →
  (c, col) ∈ (filter (λ t : bool * (string * column), t.1 = false)
                     (zip (duplicated_from seen (columns df)) df)).*2.
Proof.
  intros ->. revert seen. induction p as [|[c' col'] p IH]; intros seen Hp Hs.
  - cbn [app]. rewrite drop_duplicated_from_cons.
    rewrite bool_decide_false by done. apply elem_of_cons. by left.
  - cbn [app]. rewrite drop_duplicated_from_cons.
    unfold columns in Hp. rewrite fmap_cons in Hp.
    apply not_elem_of_cons in Hp as [Hne Hp]. cbn in Hne.
    assert (Hrec : (c, col) ∈ (filter (λ t : bool * (string * column), t.1 = false)
                      (zip (duplicated_from (c' :: seen) (columns (p ++ (c, col) :: q)))
                           (p ++ (c, col) :: q))).*2).
    { apply IH; [done|]. apply not_elem_of_cons. by split. }
    case_bool_decide; [done|]. apply elem_of_cons. by right.
Qed.

(** The columns that the final drop keeps are the first ones of their
    labels, all of them. *)
Lemma drop_duplicated_iff (df : DataFrame) c col :
  (c, col) ∈ drop_duplicated df
  ↔ ∃ p q, df = p ++ (c, col) :: q ∧ (c ∉ columns p).
Proof.
  split.
  - apply drop_duplicated_spec.
  - intros (p & q & Hdf & Hp). unfold drop_duplicated, duplicated.
    eapply drop_duplicated_from_first; [exact Hdf|exact Hp|apply not_elem_of_nil].
Qed.

Lemma lookup_first (df : DataFrame) k c col :
  df !! k = Some (c, col) →
  (∀ j col', (j < k)%nat → df !! j ≠ Some (c, col')) →
  ∃ p q, df = p ++ (c, col) :: q ∧ (c ∉ columns p).
Proof.
  intros Hk Hfirst. exists (firstn k df), (skipn (S k) df).
  split; [by rewrite take_drop_middle|].
  intros Hin. unfold columns in Hin.
  apply list_elem_of_fmap in Hin as ([c' col'] & Hc & Hin). cbn in Hc. subst c'.
  apply list_elem_of_lookup in Hin as [j Hj].
  apply lookup_take_Some in Hj as [Hj Hlt]. by apply (Hfirst j col').
Qed.

Lemma columns_right_frame_sublist left_on right_on (right : DataFrame) :
  columns (right_frame left_on right_on right) `sublist_of` columns right.
Proof.
  unfold right_frame, columns. case_bool_decide; [|done].
  apply fmap_sublist, sublist_filter.
Qed.

Lemma elem_of_right_frame (right : DataFrame) key c col :
  (c, col) ∈ right → c ≠ "timestamp"%string →
  (c, col) ∈ right_frame "timestamp" key right.
Proof.
  intros Hin Hc. unfold right_frame. case_bool_decide as Hk; [|done].
  apply list_elem_of_filter. split; [|done]. cbn. by subst key.
Qed.

Lemma NoDup_lookup_before (l : list string) j k x :
  NoDup l → l !! j = Some x → l !! k = Some x → (j < k)%nat → False.
Proof.
  intros Hnd Hj Hk Hlt. pose proof (NoDup_lookup l j k x Hnd Hj Hk). lia.
Qed.

(** The join of one series by the loop, in the run that returns the
    dataset: where its columns go, and what becomes of them. *)
Lemma loop_join_in_the_run name (left right merged acc : DataFrame) T key jx :
  keyed T left → name ≠ "blood_glucose"%string →
  merge left right "timestamp" key (""%string, "_" +:+ name) = Ok merged →
  carried jx merged acc →
  ∃ K,
    getitem left "timestamp" = Ok (Datetime None T)
    ∧ getitem right key = Ok (Datetime None K)
    ∧ Forall (λ p, col_len p.2 = length (left_join_indexer T K)) merged
    ∧ (∃ Tm rest, merged = ("timestamp"%string, Datetime None Tm) :: rest
                  ∧ length Tm = length (left_join_indexer T K))
    ∧ ∀ c lcol rcol,
        (c, lcol) ∈ left → (c, rcol) ∈ right → c ≠ "timestamp"%string →
        (c, take lcol (Some <$> (left_join_indexer T K).*1)) ∈ merged
        ∧ (c +:+ "_" +:+ name, take rcol (left_join_indexer T K).*2) ∈ merged
        ∧ (c, take (take lcol (Some <$> (left_join_indexer T K).*1)) (Some <$> jx)) ∈ acc
        ∧ (c +:+ "_" +:+ name,
           take (take rcol (left_join_indexer T K).*2) (Some <$> jx)) ∈ acc
        ∧ (NoDup (columns left) →
           (c, take (take lcol (Some <$> (left_join_indexer T K).*1)) (Some <$> jx))
           ∈ drop_duplicated acc)
        ∧ (NoDup (columns right) → (c +:+ "_" +:+ name) ∉ columns right →
           (c +:+ "_" +:+ name,
            take (take rcol (left_join_indexer T K).*2) (Some <$> jx))
           ∈ drop_duplicated acc).
Proof.
  intros Hkeyed Hname Hm Hcar.
  pose proof (merge_Ok _ _ _ _ _ _ Hm) as (lk & rk0 & idx0 & ll0 & rl0 & Hlk & _).
  destruct (keyed_timestamp _ _ _ Hkeyed Hlk) as [-> _].
  destruct (merge_loop_form _ _ _ _ _ _ Hkeyed Hm) as (K & rest & Hleft & HK & Hres & Hchk).
  set (idx := left_join_indexer T K) in *.
  set (rf := right_frame "timestamp" key right) in *.
  set (tr := filter (λ x, x ∈ columns rf) (columns left)) in *.
  set (rs := "_" +:+ name) in *.
  set (L' := (λ p : string * column, (p.1, take p.2 (Some <$> idx.*1))) <$> left) in *.
  set (R' := (λ p : string * column, (renamer tr rs p.1, take p.2 idx.*2)) <$> rf) in *.
  assert (HlenL : length L' = length left) by apply length_fmap.
  assert (HL : ∀ k c col, left !! k = Some (c, col) →
                 merged !! k = Some (c, take col (Some <$> idx.*1))).
  { intros k c col Hk. rewrite Hres, lookup_app_l.
    - unfold L'. by rewrite list_lookup_fmap, Hk.
    - rewrite HlenL. by eapply lookup_lt_Some. }
  assert (HR : ∀ k c col, rf !! k = Some (c, col) →
                 merged !! (length left + k)%nat
                 = Some (renamer tr rs c, take col idx.*2)).
  { intros k c col Hk. rewrite Hres, lookup_app_r by lia.
    rewrite HlenL. replace (length left + k - length left)%nat with k by lia.
    unfold R'. by rewrite list_lookup_fmap, Hk. }
  assert (HLinv : ∀ j x col0, (j < length left)%nat → merged !! j = Some (x, col0) →
                    columns left !! j = Some x).
  { intros j x col0 Hj Hmj. rewrite Hres, lookup_app_l in Hmj by lia.
    unfold L' in Hmj. rewrite list_lookup_fmap in Hmj. unfold columns.
    rewrite list_lookup_fmap. destruct (left !! j) as [[x' c']|]; [|done].
    cbn in *. by simplify_eq. }
  assert (HRinv : ∀ j x col0, merged !! (length left + j)%nat = Some (x, col0) →
                    (renamer tr rs <$> columns rf) !! j = Some x).
  { intros j x col0 Hmj. rewrite Hres, lookup_app_r in Hmj by lia.
    rewrite HlenL in Hmj.
    replace (length left + j - length left)%nat with j in Hmj by lia.
    unfold R' in Hmj. rewrite list_lookup_fmap in Hmj. unfold columns.
    rewrite !list_lookup_fmap. destruct (rf !! j) as [[x' c']|]; [|done].
    cbn in *. by simplify_eq. }
  exists K. split; [done|]. split; [done|]. split.
  { rewrite Hres. apply Forall_app. split; apply Forall_forall;
      intros [c col] Hin; apply list_elem_of_fmap in Hin as (p & [= -> ->] & _);
      cbn; rewrite col_len_take; unfold idx; by rewrite !length_fmap. }
  split.
  { rewrite Hres. unfold L'. rewrite Hleft, fmap_cons. cbn [fst snd app].
    rewrite take_key_gather. eexists _, _. split; [reflexivity|].
    by rewrite !length_fmap. }
  intros c lcol rcol Hl Hr Hc.
  assert (Hrf : (c, rcol) ∈ rf) by (by apply elem_of_right_frame).
  assert (Hctr : c ∈ tr).
  { apply list_elem_of_filter. split.
    - unfold columns. by apply (list_elem_of_fmap_2 fst _ (c, rcol)).
    - unfold columns. by apply (list_elem_of_fmap_2 fst _ (c, lcol)). }
  assert (Hren : renamer tr rs c = c +:+ rs).
  { unfold renamer. by rewrite bool_decide_true. }
  apply list_elem_of_lookup in Hl as [k Hk].
  apply list_elem_of_lookup in Hrf as [k' Hk'].
  pose proof (HL _ _ _ Hk) as Hmk. pose proof (HR _ _ _ Hk') as Hmk'.
  rewrite Hren in Hmk'.
  pose proof (Hcar _ _ _ Hmk) as Hak. pose proof (Hcar _ _ _ Hmk') as Hak'.
  split; [by eapply list_elem_of_lookup_2|].
  split; [by eapply list_elem_of_lookup_2|].
  split; [by eapply list_elem_of_lookup_2|].
  split; [by eapply list_elem_of_lookup_2|].
  assert (Hklt : (k < length left)%nat) by (by eapply lookup_lt_Some).
  assert (Hmlen : length merged = (length left + length rf)%nat).
  { rewrite Hres, length_app, HlenL. unfold R'. by rewrite length_fmap. }
  assert (Hk'lt : (k' < length rf)%nat) by (by eapply lookup_lt_Some).
  split.
  - intros Hnd. apply drop_duplicated_iff. apply (lookup_first acc k); [done|].
    intros j col' Hj Haj.
    assert (Hjm : (j < length merged)%nat) by lia.
    destruct (carried_label _ _ _ _ _ _ Hcar Hjm Haj) as [col0 Hmj].
    apply (NoDup_lookup_before (columns left) j k c Hnd); [|..|done].
    + eapply HLinv; [lia|done].
    + unfold columns. by rewrite list_lookup_fmap, Hk.
  - intros Hnd Hfresh. apply drop_duplicated_iff.
    apply (lookup_first acc (length left + k')%nat); [done|].
    intros j col' Hj Haj.
    assert (Hjm : (j < length merged)%nat) by lia.
    destruct (carried_label _ _ _ _ _ _ Hcar Hjm Haj) as [col0 Hmj].
    assert (Htr : tr ≠ []) by (intros Hnil; rewrite Hnil in Hctr;
                               by apply elem_of_nil in Hctr).
    destruct (Hchk Htr) as [Hsd Hcross].
    assert (Hrl : (renamer tr rs <$> columns rf) !! k' = Some (c +:+ rs)).
    { unfold columns. rewrite !list_lookup_fmap, Hk'. cbn. by rewrite Hren. }
    destruct (decide (j < length left)%nat) as [Hjl|Hjl].
    + apply Hfresh.
      assert (Hin : c +:+ rs ∈ tr).
      { apply Hcross; [by eapply list_elem_of_lookup_2|].
        eapply list_elem_of_lookup_2. by eapply HLinv. }
      apply list_elem_of_filter in Hin as [Hin _].
      eapply elem_of_sublist; [exact Hin|].
      apply columns_right_frame_sublist.
    + replace j with (length left + (j - length left))%nat in Hmj by lia.
      apply HRinv in Hmj.
      apply (NoDup_lookup_before (renamer tr rs <$> columns rf)
               (j - length left) k' (c +:+ rs)); [|done|done|lia].
      apply (suffix_dups_nil_NoDup (columns rf)); [by rewrite length_fmap| |done].
      exact (sublist_NoDup _ _ Hnd (columns_right_frame_sublist _ _ _)).
Qed.

Lemma run_inv (r : result (loc * store)) l σ :
  r = Ok (l, σ) → l = run_loc r ∧ σ = run_store r.
Proof. by intros ->. Qed.

Lemma frame_at_inv (σ : store) l f : σ !! l = Some f → f = frame_at σ l.
Proof. unfold frame_at. by intros ->. Qed.

Lemma joined_inv (r : result DataFrame) f : r = Ok f → f = joined r.
Proof. by intros ->. Qed.

(** C9 (counterexample): a colliding column can vanish from the returned
    dataset.  The accumulated dataset has the columns [score] and
    [score_sleep] (from the primary series), and the series [sleep] brings
    columns with the same two labels.  The join renames the incoming ones
    to [score_sleep] and [score_sleep_sleep]; the dataset then has two
    columns labelled [score_sleep], and the final drop of repeated labels
    keeps the older one: the value [9] of the incoming [score] is in no
    column of the result. *)
Lemma colliding_column_is_dropped_from_the_result :
  is_ok twice_scored_run = true
  ∧ columns (frame_at (run_store twice_scored_run) (run_loc twice_scored_run))
    = ["timestamp"; "date"; "score"; "score_sleep"; "score_sleep_sleep"]%string
  ∧ holds (Num 9) twice_scored_sleep_frame = true
  ∧ holds (Num 9) (frame_at (run_store twice_scored_run) (run_loc twice_scored_run))
    = false.
Proof. vm_compute. repeat split; reflexivity. Qed.

(** C9 (amended): take a run of [merge_all_data] that returns a dataset, and
    a series [name] of the registry.  After the join of the grid with the
    primary series, the loop reaches the series with an accumulated dataset
    [left], joins it (or passes over it) to [merged], and goes on to [acc];
    the dataset returned is [acc] with, for every label, exactly its first
    column.  When the series is joined (it has rows, it is not the primary
    series and it has a time-like label), every later join keeps the columns
    of [merged], label and position, and repeats its rows in place
    ([carried]).  For a label [c] other than [timestamp] that
    is a column of both [left] and the series, [merged] and [acc] hold the
    existing column under [c] and the incoming one under [c] followed by
    [_] and the series' name, each with its own values gathered by the
    join.  The existing column is in the returned dataset when the labels
    of [left] do not repeat; the incoming one is when the series has no
    repeated label and no column of that suffixed label itself. *)
Theorem colliding_columns_are_suffixed_and_first_labels_kept
    dfs pre post name r (σ : store) l' σ' :
  dfs = pre ++ (name, Some r) :: post →
  merge_all_data dfs σ = Ok (l', σ') →
  ∃ lb σb b bgl base m1 l0 σ0 left right l1 σ1 merged la σa acc,
    create_base_timeline dfs σ = Ok (lb, σb)
    ∧ dict_get dfs "blood_glucose" = Some (Some b)
    ∧ σb !! b = Some bgl ∧ σb !! lb = Some base
    ∧ merge base bgl "timestamp" "date" ("_x"%string, "_y"%string) = Ok m1
    ∧ merge_others pre (S (length σb)) (σb ++ [bgl] ++ [m1]) = Ok (l0, σ0)
    ∧ σ0 !! l0 = Some left ∧ σ0 !! r = Some right
    ∧ merge_one name (Some r) l0 σ0 = Ok (l1, σ1) ∧ σ1 !! l1 = Some merged
    ∧ merge_others post l1 σ1 = Ok (la, σa) ∧ σa !! la = Some acc
    ∧ σ' !! l' = Some (drop_duplicated acc)
    ∧ NoDup (columns (drop_duplicated acc))
    ∧ (∀ c col, (c, col) ∈ drop_duplicated acc
                ↔ ∃ p q, acc = p ++ (c, col) :: q ∧ (c ∉ columns p))
    ∧ (empty right = false → name ≠ "blood_glucose"%string →
       time_cols (columns right) ≠ [] →
       ∃ key T K idx jx,
         join_key name right = Some key
         ∧ getitem left "timestamp" = Ok (Datetime None T)
         ∧ getitem right key = Ok (Datetime None K)
         ∧ join_indexers (Datetime None T) (Datetime None K) = Ok idx
         ∧ expands (seq 0 (length idx)) jx
         ∧ carried jx merged acc
         ∧ ∀ c lcol rcol,
             (c, lcol) ∈ left → (c, rcol) ∈ right → c ≠ "timestamp"%string →
             (c, take lcol (Some <$> idx.*1)) ∈ merged
             ∧ (c +:+ "_" +:+ name, take rcol idx.*2) ∈ merged
             ∧ (c, take (take lcol (Some <$> idx.*1)) (Some <$> jx)) ∈ acc
             ∧ (c +:+ "_" +:+ name, take (take rcol idx.*2) (Some <$> jx)) ∈ acc
             ∧ (NoDup (columns left) →
                (c, take (take lcol (Some <$> idx.*1)) (Some <$> jx))
                ∈ drop_duplicated acc)
             ∧ (NoDup (columns right) → (c +:+ "_" +:+ name) ∉ columns right →
                (c +:+ "_" +:+ name, take (take rcol idx.*2) (Some <$> jx))
                ∈ drop_duplicated acc)).
Proof.
  intros -> Hrun.
  apply merge_all_data_Ok in Hrun
    as (lb & σb & b & bgl & base & m1 & la & σa & acc
        & Hbase & Hd & Hb & Hlb & Hm1 & Hloop & Hacc & -> & ->).
  pose proof (create_base_timeline_Ok _ _ _ _ Hbase)
    as (b' & bgl' & tz & s & g0 & _ & _ & _ & _ & Hlb' & Hσb).
  assert (Hbase_frame : base = [("timestamp"%string,
            Datetime None (fmap (M:=option) round_min <$> g0))]).
  { rewrite Hσb, Hlb', lookup_second_fresh in Hlb. by simplify_eq. }
  subst base. clear Hlb' Hσb.
  destruct (merge_primary_keyed _ _ _ Hm1) as (T1 & Hk1 & _).
  rewrite merge_others_app in Hloop.
  destruct (merge_others pre (S (length σb)) (σb ++ [bgl] ++ [m1]))
    as [[l0 σ0]|] eqn:Hpre; [|done].
  cbn [merge_others] in Hloop. rewrite bind_unfold in Hloop.
  destruct (merge_one name (Some r) l0 σ0) as [[l1 σ1]|] eqn:H1; [|done].
  destruct (merge_others_keyed pre T1 _ _ m1 l0 σ0
              (lookup_second_fresh σb bgl m1) Hk1 Hpre)
    as (T & left & Hleft & Hkeyed & _).
  destruct (merge_one_Ok _ _ _ _ _ _ H1) as (right & Hr & Hcases).
  assert (Hmerged : ∃ merged, σ1 !! l1 = Some merged).
  { destruct Hcases as [(-> & -> & _)|[(-> & -> & _)|Hjoin]].
    - by exists left.
    - exists left. by apply lookup_app_l_Some.
    - destruct Hjoin as (key & ks & left' & merged & _ & _ & _ & _ & _ & -> & ->).
      exists merged. apply lookup_second_fresh. }
  destruct Hmerged as [merged Hmerged].
  eexists lb, σb, b, bgl, _, m1, l0, σ0, left, right,
          l1, σ1, merged, la, σa, acc.
  do 12 (split; [done|]). split; [apply lookup_fresh|].
  split; [apply drop_duplicated_spec|].
  split; [apply drop_duplicated_iff|].
  intros Hrows Hsecondary Htimed.
  destruct Hcases as [(_ & _ & [Hc|Hc])|[(_ & _ & _ & _ & Hc)|Hjoin]];
    [congruence..|].
  destruct Hjoin as (key & ks & left' & merged' & Hnempty & Hname & Htc
                     & Hleft' & Hm & -> & ->).
  rewrite (lookup_app_l_Some _ _ _ _ Hleft) in Hleft'. injection Hleft' as <-.
  rewrite lookup_second_fresh in Hmerged. injection Hmerged as ->.
  destruct (loop_join_in_the_run name left right merged
              ((λ p : string * column, (p.1, take p.2 (Some <$> []))) <$> merged)
              T key [] Hkeyed Hname Hm)
    as (K0 & _ & HK0 & Hlen0 & (Tm & rest & Hmeq & HTm) & _).
  { intros k label col Hk. by rewrite list_lookup_fmap, Hk. }
  assert (Hstart : carried (seq 0 (length Tm)) merged merged).
  { apply carried_refl. by rewrite HTm. }
  destruct (merge_others_carried merged Tm rest post Hmeq _ _ merged
              (seq 0 (length Tm)) la σa
              (lookup_second_fresh σ0 right merged) (expands_refl _) Hstart Hloop)
    as (acc' & jx & Hacc' & Hexp & Hcar).
  rewrite Hacc in Hacc'. injection Hacc' as <-.
  destruct (loop_join_in_the_run name left right merged acc T key jx
              Hkeyed Hname Hm Hcar)
    as (K & Hlk & HK & Hlen & _ & Hcols).
  rewrite HK in HK0. injection HK0 as <-.
  exists key, T, K, (left_join_indexer T K), jx.
  split; [by eapply join_key_secondary|]. split; [done|]. split; [done|].
  split; [done|]. split; [by rewrite <- HTm|]. split; [done|].
  exact Hcols.
Qed.

Lemma colliding_columns_are_suffixed_and_first_labels_kept_witness :
  scored_frames
    = [("blood_glucose"%string, Some 0%nat)] ++ ("sleep"%string, Some 1%nat) :: []
  ∧ merge_all_data scored_frames scored_store
    = Ok (run_loc scored_run, run_store scored_run)
  ∧ ∃ acc lcol idx jx,
      run_store scored_run !! run_loc scored_run = Some (drop_duplicated acc)
      ∧ NoDup (columns (drop_duplicated acc))
      ∧ (∀ c col, (c, col) ∈ drop_duplicated acc
                  ↔ ∃ p q, acc = p ++ (c, col) :: q ∧ (c ∉ columns p))
      ∧ ("score"%string, take (take lcol (Some <$> idx.*1)) (Some <$> jx))
        ∈ drop_duplicated acc
      ∧ ("score_sleep"%string, take (take (Object [Num 9]) idx.*2) (Some <$> jx))
        ∈ drop_duplicated acc.
Proof.
  assert (Hrun : merge_all_data scored_frames scored_store
                 = Ok (run_loc scored_run, run_store scored_run)).
  { apply (run_eta scored_run). vm_compute. reflexivity. }
  split; [reflexivity|]. split; [exact Hrun|].
  destruct (colliding_columns_are_suffixed_and_first_labels_kept
              scored_frames [("blood_glucose"%string, Some 0%nat)] []
              "sleep" 1%nat scored_store
              (run_loc scored_run) (run_store scored_run) eq_refl Hrun)
    as (lb & σb & b & bgl & base & m1 & l0 & σ0 & left & right & l1 & σ1
        & merged & la & σa & acc
        & Hbase & Hd & Hb & Hlb & Hm1 & Hpre & Hleft & Hr & H1 & Hmerged
        & Hpost & Hacc & Hret & Hnd & Hiff & Hjoined).
  apply run_inv in Hbase as [-> ->].
  apply frame_at_inv in Hb as ->.
  apply frame_at_inv in Hlb as ->.
  apply joined_inv in Hm1 as ->.
  apply run_inv in Hpre as [-> ->].
  apply frame_at_inv in Hleft as ->.
  apply frame_at_inv in Hr as ->.
  vm_compute in Hd. injection Hd as <-.
  match type of Hjoined with
    empty ?f = false → _ => set (right := f) in *
  end.
  destruct Hjoined as (key & T & K & idx & jx & _ & _ & _ & _ & _ & _ & Hcols).
  { vm_compute. reflexivity. }
  { discriminate. }
  { vm_compute. discriminate. }
  match type of Hcols with
    context [(_, _) ∈ ?f → (_, _) ∈ right → _] => set (left := f) in *
  end.
  destruct (Hcols "score"%string
              (default (""%string, Object []) (left !! 2%nat)).2
              (Object [Num 9]))
    as (_ & _ & _ & _ & Hkept & Hnew).
  { apply (list_elem_of_lookup_2 _ 2%nat). vm_compute. reflexivity. }
  { apply (list_elem_of_lookup_2 _ 1%nat). vm_compute. reflexivity. }
  { discriminate. }
  exists acc, (default (""%string, Object []) (left !! 2%nat)).2, idx, jx.
  split; [exact Hret|]. split; [exact Hnd|]. split; [exact Hiff|]. split.
  - apply Hkept. apply (bool_decide_unpack _). vm_compute. exact I.
  - change "score_sleep"%string with ("score" +:+ "_" +:+ "sleep")%string.
    apply Hnew.
    + apply (bool_decide_unpack _). vm_compute. exact I.
    + apply (bool_decide_unpack _). vm_compute. exact I.
Defined.
(** C10: the normaliser works on a copy.  Every object that was in the store
    before the call, the caller's frame included, is unchanged afterwards; the
    returned frame is a new object with the same labels in which every column
    but the resolved timestamp column is the input column, cell for cell.
    The merger likewise only adds objects to the store: every registered
    series is the same after [merge_all_data] as before. *)
Theorem normalizer_and_merger_leave_their_inputs_unchanged
    (σ : store) l dc l' adj σ' :
  _standardize_timestamp l dc σ = Ok ((l', adj), σ') →
  (∃ df c df',
     σ !! l = Some df ∧ resolve_date_col (columns df) dc = Ok c
     ∧ σ `prefix_of` σ' ∧ σ' !! l = Some df
     ∧ l' = length σ ∧ σ' !! l' = Some df'
     ∧ columns df' = columns df
     ∧ ∀ k label col, df !! k = Some (label, col) → label ≠ c →
         df' !! k = Some (label, col))
  ∧ (∀ dfs (σ0 : store) lm σm, merge_all_data dfs σ0 = Ok (lm, σm) →
       σ0 `prefix_of` σm
       ∧ ∀ r df, σ0 !! r = Some df → σm !! r = Some df).
Proof.
  intros Hrun. split.
  - pose proof (standardize_prefix _ _ _ _ _ _ Hrun) as Hpre.
    apply standardize_Ok in Hrun
      as (c & col & p & pre & post & Hl & Hc & Hnpre & Hnpost & Hp & -> & -> & ->).
    eexists _, c, _. split; [exact Hl|]. split; [exact Hc|].
    split; [exact Hpre|].
    split; [by apply lookup_app_l_Some|].
    split; [done|]. split; [apply lookup_fresh|].
    split; [apply columns_set_unique|].
    intros k label col' Hk Hne.
    destruct (decide (k = length pre)) as [->|Hk'].
    + rewrite list_lookup_middle in Hk by done. by simplify_eq.
    + destruct (decide (k < length pre)%nat).
      * rewrite lookup_app_l in Hk |- * by done. done.
      * rewrite lookup_app_r in Hk |- * by lia.
        destruct (k - length pre)%nat as [|m] eqn:Hm; [lia|]. done.
  - intros dfs σ0 lm σm Hm.
    pose proof (merge_all_data_prefix _ _ _ _ Hm) as Hpre.
    split; [done|]. intros r df Hr. by eapply prefix_lookup_Some.
Qed.

Lemma normalizer_and_merger_leave_their_inputs_unchanged_witness :
  _standardize_timestamp 0%nat None [aware_frame]
    = Ok ((1%nat, []), [aware_frame; aware_frame_out])
  ∧ ∃ df c df',
      [aware_frame] !! 0%nat = Some df
      ∧ resolve_date_col (columns df) None = Ok c
      ∧ [aware_frame] `prefix_of` [aware_frame; aware_frame_out]
      ∧ [aware_frame; aware_frame_out] !! 0%nat = Some df
      ∧ 1%nat = length [aware_frame]
      ∧ [aware_frame; aware_frame_out] !! 1%nat = Some df'
      ∧ columns df' = columns df
      ∧ ∀ k label col, df !! k = Some (label, col) → label ≠ c →
          df' !! k = Some (label, col).
Proof.
  split; [reflexivity|].
  exact (proj1 (normalizer_and_merger_leave_their_inputs_unchanged
                  [aware_frame] 0%nat None 1%nat []
                  [aware_frame; aware_frame_out] eq_refl)).
Defined.
(** * Further properties *)

(** ** The normaliser: column resolution and parsing *)

Lemma filter_head {A} (P : A → Prop) `{∀ x, Decision (P x)} (l : list A) c :
  (∃ r, filter P l = c :: r)
  ↔ ∃ pre post, l = pre ++ c :: post ∧ P c ∧ ∀ x, x ∈ pre → ¬ P x.
Proof.
  split.
  - induction l as [|x l IH]; intros [r Hr]; [done|].
    rewrite filter_cons in Hr. destruct (decide (P x)) as [Hx|Hx].
    + simplify_eq. exists [], l. split; [done|]. split; [done|].
      intros y Hy. by apply elem_of_nil in Hy.
    + destruct IH as (pre & post & -> & Hc & Hpre); [by eexists|].
      exists (x :: pre), post. split; [done|]. split; [done|].
      intros y Hy. apply elem_of_cons in Hy as [-> | Hy]; [done|by apply Hpre].
  - intros (pre & post & -> & Hc & Hpre). exists (filter P post).
    induction pre as [|x pre IH]; cbn [app].
    + by rewrite filter_cons, decide_True.
    + rewrite filter_cons, decide_False.
      * apply IH. intros y Hy. apply Hpre. apply elem_of_cons. by right.
      * apply Hpre. apply elem_of_cons. by left.
Qed.

Lemma resolve_date_col_None_Raise cols :
  (∀ c, c ∈ date_candidates → c ∉ cols) →
  resolve_date_col cols None = Raise ValueError.
Proof.
  intros Hnone. unfold resolve_date_col.
  destruct (filter _ date_candidates) as [|c r] eqn:Hf; [done|].
  assert (Hin : c ∈ filter (λ col, col ∈ cols) date_candidates)
    by (rewrite Hf; apply elem_of_cons; by left).
  apply list_elem_of_filter in Hin as [Hc Hcand]. by apply Hnone in Hcand.
Qed.

Lemma standardize_no_candidate (σ : store) l df :
  σ !! l = Some df →
  (∀ c, c ∈ date_candidates → c ∉ columns df) →
  _standardize_timestamp l None σ = Raise ValueError.
Proof.
  intros Hl Hnone. rewrite (standardize_spec _ _ _ _ Hl).
  by rewrite resolve_date_col_None_Raise.
Qed.

(** X1: without a column name, a frame that carries none of the six
    candidate labels is refused with [ValueError]; with a column name that
    is not a label of the frame the call fails with [KeyError], whatever
    candidate columns the frame has. *)
Theorem unresolved_date_column_raises (σ : store) l df :
  σ !! l = Some df →
  ((∀ c, c ∈ date_candidates → c ∉ columns df) →
   _standardize_timestamp l None σ = Raise ValueError)
  ∧ (∀ c, c ∉ columns df →
     _standardize_timestamp l (Some c) σ = Raise KeyError).
Proof.
  intros Hl. split.
  - by apply standardize_no_candidate.
  - intros c Hc. rewrite (standardize_spec _ _ _ _ Hl).
    cbn [resolve_date_col rbind]. unfold getitem.
    by rewrite filter_label_nil.
Qed.

Lemma unresolved_date_column_raises_witness :
  _standardize_timestamp 0%nat None [stress_file] = Raise ValueError
  ∧ _standardize_timestamp 0%nat (Some "when"%string) [tie_frame] = Raise KeyError.
Proof.
  split.
  - apply (unresolved_date_column_raises [stress_file] 0%nat stress_file eq_refl).
    intros c Hc. unfold date_candidates in Hc.
    repeat (apply elem_of_cons in Hc as [-> | Hc];
            [apply (bool_decide_unpack _); vm_compute; exact I|]).
    by apply elem_of_nil in Hc.
  - apply (unresolved_date_column_raises [tie_frame] 0%nat tie_frame eq_refl).
    apply (bool_decide_unpack _). vm_compute. exact I.
Defined.

(** X2: automatic detection follows the order of the candidate list, not the
    order of the columns: the column chosen is a candidate that the frame
    has, and no candidate listed before it is a column of the frame; and
    such a candidate is always chosen. *)
Theorem detected_date_column_is_first_candidate_present (cols : list string) c :
  resolve_date_col cols None = Ok c
  ↔ ∃ pre post, date_candidates = pre ++ c :: post
                ∧ c ∈ cols ∧ ∀ x, x ∈ pre → x ∉ cols.
Proof.
  rewrite <- (filter_head (λ col, col ∈ cols) date_candidates c).
  unfold resolve_date_col.
  destruct (filter _ date_candidates) as [|c' r]; split.
  - done.
  - by intros [r Hr].
  - intros [= ->]. by eexists.
  - intros [r' Hr]. by simplify_eq.
Qed.



(** ** The normaliser: values *)

Lemma to_datetime_stamps col p :
  to_datetime col = Ok p → stamps_of p = instants col.
Proof.
  destruct col as [cells|tz s].
  - intros Hp. apply to_datetime_Object in Hp as [tz ->]. cbn.
    by rewrite <- list_fmap_compose.
  - cbn. by intros [= <-].
Qed.

Lemma length_items col : length (items col) = col_len col.
Proof. destruct col; cbn; by rewrite length_fmap. Qed.

Lemma length_instants col : length (instants col) = col_len col.
Proof. destruct col; cbn; [by rewrite length_fmap|done]. Qed.

(** The outcome of a successful call, in terms of the instants that the
    timestamp column denotes. *)
Lemma standardize_instants (σ : store) l dc l' adj σ' :
  _standardize_timestamp l dc σ = Ok ((l', adj), σ') →
  ∃ c col pre post,
    σ !! l = Some (pre ++ (c, col) :: post)
    ∧ resolve_date_col (columns (pre ++ (c, col) :: post)) dc = Ok c
    ∧ (c ∉ columns pre) ∧ (c ∉ columns post)
    ∧ l' = length σ
    ∧ adj = collect_adjustments (items col)
              (fmap (M:=option) round_min <$> instants col)
              (fmap (M:=option) round_min <$> instants col)
    ∧ σ' = σ ++ [pre ++ (c, Datetime None
                               (fmap (M:=option) round_min <$> instants col))
                        :: post].
Proof.
  intros Hrun. apply standardize_Ok in Hrun
    as (c & col & p & pre & post & Hl & Hc & Hpre & Hpost & Hp & -> & -> & ->).
  exists c, col, pre, post. unfold rounded.
  rewrite (to_datetime_stamps _ _ Hp). auto 10.
Qed.

Lemma round_min_mono a b : a ≤ b → round_min a ≤ round_min b.
Proof.
  intros Hab. unfold round_min, round_nsint64. rewrite NS_PER_MIN_eq.
  pose proof (Z.div_mod a 60000000000 ltac:(lia)) as Ha.
  pose proof (Z.mod_pos_bound a 60000000000 ltac:(lia)) as Hra.
  pose proof (Z.div_mod b 60000000000 ltac:(lia)) as Hb.
  pose proof (Z.mod_pos_bound b 60000000000 ltac:(lia)) as Hrb.
  change (60000000000 `div` 2) with 30000000000.
  set (qa := a `div` 60000000000) in *. set (ra := a `mod` 60000000000) in *.
  set (qb := b `div` 60000000000) in *. set (rb := b `mod` 60000000000) in *.
  destruct (decide (qa = qb)) as [Hq|Hq].
  - rewrite <- Hq in *.
    destruct (Z.ltb_spec 30000000000 ra), (Z.ltb_spec 30000000000 rb),
      (Z.eqb_spec ra 30000000000), (Z.eqb_spec rb 30000000000),
      (Z.odd qa); cbn; lia.
  - assert (qa < qb) by lia.
    destruct (Z.ltb_spec 30000000000 ra), (Z.ltb_spec 30000000000 rb),
      (Z.eqb_spec ra 30000000000), (Z.eqb_spec rb 30000000000),
      (Z.odd qa), (Z.odd qb); cbn; lia.
Qed.

(** X4: a timestamp column that is already of a datetime type is not parsed
    again, so the call cannot fail on it; the result holds the same instants
    rounded to the minute, and a zone-aware column, which holds UTC
    instants, loses its zone without any shift of its instants. *)
Theorem parsed_column_keeps_its_instants (σ : store) l dc df c tz s :
  σ !! l = Some df →
  resolve_date_col (columns df) dc = Ok c →
  getitem df c = Ok (Datetime tz s) →
  ∃ adj df',
    _standardize_timestamp l dc σ = Ok ((length σ, adj), σ ++ [df'])
    ∧ getitem df' c = Ok (Datetime None (fmap (M:=option) round_min <$> s))
    ∧ columns df' = columns df.
Proof.
  intros Hl Hc Hg.
  rewrite (standardize_spec _ _ _ _ Hl), Hc. cbn [rbind]. rewrite Hg.
  cbn [rbind to_datetime].
  apply getitem_Ok in Hg as (pre & post & -> & Hpre & Hpost).
  rewrite setitem_unique by done.
  eexists _, _. split; [reflexivity|]. split.
  - by apply getitem_unique.
  - apply columns_set_unique.
Qed.

Lemma parsed_column_keeps_its_instants_witness :
  ∃ adj df',
    _standardize_timestamp 0%nat None [zoned_frame]
    = Ok ((length [zoned_frame], adj), [zoned_frame] ++ [df'])
    ∧ getitem df' "date"
      = Ok (Datetime None (fmap (M:=option) round_min
                             <$> [Some (at_ 2023 1 1 7 0 10); None]))
    ∧ columns df' = columns zoned_frame.
Proof.
  exact (parsed_column_keeps_its_instants [zoned_frame] 0%nat None zoned_frame
           "date" (Some 18000) [Some (at_ 2023 1 1 7 0 10); None]
           eq_refl eq_refl eq_refl).
Defined.

(** X5: normalisation never inverts the order of two timestamps: when row [i]
    denotes an instant that is not after the one of row [j], the same holds
    of their Canonical Timestamps (which may coincide, when both instants
    round to the same minute). *)
Theorem normalisation_keeps_chronological_order
    (σ : store) l dc l' adj σ' df c col i j a b :
  σ !! l = Some df →
  resolve_date_col (columns df) dc = Ok c →
  getitem df c = Ok col →
  instants col !! i = Some (Some a) → instants col !! j = Some (Some b) →
  a ≤ b →
  _standardize_timestamp l dc σ = Ok ((l', adj), σ') →
  ∃ df' s,
    σ' !! l' = Some df' ∧ getitem df' c = Ok (Datetime None s)
    ∧ length s = col_len col
    ∧ s !! i = Some (Some (round_min a)) ∧ s !! j = Some (Some (round_min b))
    ∧ round_min a ≤ round_min b.
Proof.
  intros Hl Hc Hg Hi Hj Hab Hrun.
  apply standardize_instants in Hrun
    as (c' & col' & pre & post & Hl' & Hc' & Hpre & Hpost & -> & -> & ->).
  rewrite Hl in Hl'. simplify_eq. rewrite Hc in Hc'. simplify_eq.
  rewrite getitem_unique in Hg by done. simplify_eq.
  eexists _, _. split; [apply lookup_fresh|].
  split; [by apply getitem_unique|].
  split; [by rewrite length_fmap, length_instants|].
  rewrite !list_lookup_fmap, Hi, Hj. cbn.
  split; [done|]. split; [done|]. by apply round_min_mono.
Qed.

Lemma normalisation_keeps_chronological_order_witness :
  at_ 2023 1 1 12 0 10 ≤ at_ 2023 1 1 12 0 20
  ∧ ∃ l' adj σ',
      _standardize_timestamp 0%nat None [crowded_frame] = Ok ((l', adj), σ')
      ∧ ∃ df' s,
          σ' !! l' = Some df' ∧ getitem df' "date" = Ok (Datetime None s)
          ∧ length s = 4%nat
          ∧ s !! 0%nat = Some (Some (round_min (at_ 2023 1 1 12 0 10)))
          ∧ s !! 1%nat = Some (Some (round_min (at_ 2023 1 1 12 0 20)))
          ∧ round_min (at_ 2023 1 1 12 0 10) ≤ round_min (at_ 2023 1 1 12 0 20).
Proof.
  assert (Hle : at_ 2023 1 1 12 0 10 ≤ at_ 2023 1 1 12 0 20)
    by (vm_compute; discriminate).
  split; [exact Hle|].
  eexists _, _, _. split; [reflexivity|].
  exact (normalisation_keeps_chronological_order [crowded_frame] 0%nat None
           _ _ _ crowded_frame "date" _ 0%nat 1%nat _ _
           eq_refl eq_refl eq_refl eq_refl eq_refl Hle eq_refl).
Defined.

(** ** The normaliser: the adjustment records *)

Lemma collect_adjustments_original its (s : list stamp) a :
  a ∈ collect_adjustments its s s → its !! index a = Some (original a).
Proof.
  unfold collect_adjustments. intros Ha.
  apply list_elem_of_omap in Ha as ([i [o [orig fin]]] & Hin & Hf).
  apply elem_of_lookup_imap in Hin as (j & [o' [orig' fin']] & Heq & Hy).
  injection Heq as -> -> -> ->.
  apply lookup_zip_Some in Hy as [Ho _].
  destruct (stamp_ne orig' fin'); [|done]. injection Hf as <-. by cbn.
Qed.

Lemma collect_adjustments_length_from (h : nat → nat) its (s : list stamp) :
  length its = length s →
  length (omap (λ t : nat * (item * (stamp * stamp)),
                  let '(idx, (o, (orig, final))) := t in
                  if stamp_ne orig final
                  then Some {| index := idx; original := o; original_utc := orig;
                               final := final;
                               difference_seconds := total_seconds_between orig final |}
                  else None)
               (imap (λ idx x, (h idx, x)) (zip its (zip s s))))
  = length (filter (λ t : stamp, t = None) s).
Proof.
  revert h its. induction s as [|t s IH]; intros h [|o its] Hlen; try done.
  cbn [zip zip_with]. rewrite imap_cons. cbn [omap list_omap].
  rewrite filter_cons. cbn in Hlen.
  specialize (IH (h ∘ S) its ltac:(lia)).
  destruct t as [v|].
  - cbn [stamp_ne]. rewrite Z.eqb_refl. cbn [negb].
    rewrite decide_False by done. exact IH.
  - cbn [stamp_ne]. rewrite decide_True by done. cbn [length]. f_equal. exact IH.
Qed.

Lemma collect_adjustments_length its (s : list stamp) :
  length its = length s →
  length (collect_adjustments its s s) = length (filter (λ t : stamp, t = None) s).
Proof. apply (collect_adjustments_length_from id). Qed.

(** X6: the adjustment records count the rows without a timestamp, and
    nothing else: there are as many records as missing entries in the
    normalised column, each quotes the caller's cell of its row, carries no
    delta, and falls in the class [round_down]; no record is ever classed
    [round_up]. *)
Theorem adjustment_records_count_the_missing_timestamps
    (σ : store) l dc l' adj σ' :
  _standardize_timestamp l dc σ = Ok ((l', adj), σ') →
  ∃ c df col df' s,
    σ !! l = Some df ∧ getitem df c = Ok col
    ∧ σ' !! l' = Some df' ∧ getitem df' c = Ok (Datetime None s)
    ∧ length adj = length (filter (λ t : stamp, t = None) s)
    ∧ ∀ a, a ∈ adj →
        items col !! index a = Some (original a)
        ∧ difference_seconds a = None
        ∧ classify (difference_seconds a) = round_down.
Proof.
  intros Hrun. apply standardize_instants in Hrun
    as (c & col & pre & post & Hl & Hc & Hpre & Hpost & -> & -> & ->).
  eexists c, _, col, _, _. split; [exact Hl|].
  split; [by apply getitem_unique|]. split; [apply lookup_fresh|].
  split; [by apply getitem_unique|]. split.
  - apply collect_adjustments_length.
    by rewrite length_items, length_fmap, length_instants.
  - intros a Ha. split; [by eapply collect_adjustments_original|].
    apply collect_adjustments_same in Ha as (_ & _ & _ & Hd).
    by rewrite Hd.
Qed.

Lemma adjustment_records_count_the_missing_timestamps_witness :
  ∃ l' adj σ',
    _standardize_timestamp 0%nat None [crowded_frame] = Ok ((l', adj), σ')
    ∧ ∃ c df col df' s,
        [crowded_frame] !! 0%nat = Some df ∧ getitem df c = Ok col
        ∧ σ' !! l' = Some df' ∧ getitem df' c = Ok (Datetime None s)
        ∧ length adj = length (filter (λ t : stamp, t = None) s)
        ∧ ∀ a, a ∈ adj →
            items col !! index a = Some (original a)
            ∧ difference_seconds a = None
            ∧ classify (difference_seconds a) = round_down.
Proof.
  eexists _, _, _. split; [reflexivity|].
  exact (adjustment_records_count_the_missing_timestamps [crowded_frame] 0%nat
           None _ _ _ eq_refl).
Defined.

(** ** The timeline *)

Lemma stamps_min_all_missing (s : list stamp) :
  Forall (λ t, t = None) s → stamps_min s = None ∧ stamps_max s = None.
Proof.
  intros Hs. assert (Hp : present s = []).
  { unfold present. induction Hs as [|t s -> _ IH]; [done|]. by cbn. }
  unfold stamps_min, stamps_max. by rewrite Hp.
Qed.

(** X7: there is no timeline, and no merged dataset, without a primary
    series that has timestamps.  When the registry has no entry
    [blood_glucose], or has it bound to [None], [create_base_timeline] and
    [merge_all_data] raise [ValueError], whatever else is registered.  When
    the primary frame has no column [date], both raise [KeyError].  When the
    column [date] has no value in any row (it has no rows, or only missing
    entries, and be it datetime-typed or not), the bounds of the range are
    missing and both raise [ValueError].  When the earliest timestamp is
    less than a day after the first instant that can be represented, or the
    latest less than a day before the last, the padding overflows and both
    raise [OutOfBoundsDatetime]. *)
Theorem timeline_needs_a_primary_series_with_timestamps dfs (σ : store) :
  (dict_get dfs "blood_glucose" = None
   ∨ dict_get dfs "blood_glucose" = Some None →
   create_base_timeline dfs σ = Raise ValueError
   ∧ merge_all_data dfs σ = Raise ValueError)
  ∧ ∀ b bgl,
      dict_get dfs "blood_glucose" = Some (Some b) → σ !! b = Some bgl →
      ("date"%string ∉ columns bgl →
       create_base_timeline dfs σ = Raise KeyError
       ∧ merge_all_data dfs σ = Raise KeyError)
      ∧ (∀ col, getitem bgl "date" = Ok col → all_missing col →
           create_base_timeline dfs σ = Raise ValueError
           ∧ merge_all_data dfs σ = Raise ValueError)
      ∧ (∀ tz s lo hi,
           getitem bgl "date" = Ok (Datetime tz s) →
           Some lo ∈ s → Some hi ∈ s → (∀ v, Some v ∈ s → lo ≤ v ≤ hi) →
           lo - NS_PER_DAY < TS_MIN ∨ TS_MAX < hi + NS_PER_DAY →
           create_base_timeline dfs σ = Raise OutOfBoundsDatetime
           ∧ merge_all_data dfs σ = Raise OutOfBoundsDatetime).
Proof.
  assert (Hmerge : ∀ e, create_base_timeline dfs σ = Raise e →
            create_base_timeline dfs σ = Raise e ∧ merge_all_data dfs σ = Raise e).
  { intros e He. split; [done|]. unfold merge_all_data.
    by rewrite bind_unfold, He. }
  split.
  - intros Hd. apply Hmerge. unfold create_base_timeline.
    by destruct Hd as [-> | ->].
  - intros b bgl Hd Hb. split; [|split].
    + intros Hnone. apply Hmerge. unfold create_base_timeline.
      rewrite Hd, bind_unfold, (getitem_at_Some _ _ _ _ Hb).
      unfold getitem. by rewrite filter_label_nil.
    + intros col Hg Hall. apply Hmerge. unfold create_base_timeline.
      rewrite Hd, bind_unfold, (getitem_at_Some _ _ _ _ Hb), Hg.
      destruct col as [cells|tz s]; cbn [all_missing] in Hall.
      * assert (Hf : forallb (λ c, bool_decide (c = NaN)) cells = true).
        { apply forallb_forall. intros x Hx. apply bool_decide_eq_true_2.
          rewrite Forall_forall in Hall. apply Hall. by apply list_elem_of_In. }
        by rewrite Hf.
      * destruct (stamps_min_all_missing s Hall) as [-> ->]. done.
    + intros tz s lo hi Hg Hlo Hhi Hbounds Hout. apply Hmerge.
      assert (Hmin : stamps_min s = Some lo).
      { apply stamps_min_least; [done|]. intros v Hv. by apply Hbounds. }
      assert (Hmax : stamps_max s = Some hi).
      { apply stamps_max_greatest; [done|]. intros v Hv. by apply Hbounds. }
      unfold create_base_timeline.
      rewrite Hd, bind_unfold, (getitem_at_Some _ _ _ _ Hb), Hg, Hmin, Hmax.
      destruct (decide (TS_MIN ≤ lo + - NS_PER_DAY ≤ TS_MAX)) as [Hin|Hnin].
      * rewrite timestamp_add_Ok by done. rewrite bind_lift_Ok.
        rewrite timestamp_add_out; [done|]. lia.
      * rewrite timestamp_add_out; [done|]. lia.
Qed.

Lemma timeline_needs_a_primary_series_with_timestamps_witness :
  (create_base_timeline [("sleep_score"%string, Some 0%nat)] [daily_score_frame]
     = Raise ValueError
   ∧ merge_all_data [("sleep_score"%string, Some 0%nat)] [daily_score_frame]
     = Raise ValueError)
  ∧ merge_all_data [("blood_glucose"%string, Some 0%nat)] [daily_score_frame]
    = Raise KeyError
  ∧ create_base_timeline [("blood_glucose"%string, Some 0%nat)]
      [[("date"%string, Object []); ("bgl"%string, Object [])]]
    = Raise ValueError
  ∧ create_base_timeline [("blood_glucose"%string, Some 0%nat)] [blank_primary_frame]
    = Raise ValueError
  ∧ create_base_timeline [("blood_glucose"%string, Some 0%nat)] [late_primary_frame]
    = Raise OutOfBoundsDatetime.
Proof.
  split; [|split; [|split; [|split]]].
  - apply (proj1 (timeline_needs_a_primary_series_with_timestamps
                    [("sleep_score"%string, Some 0%nat)] [daily_score_frame])).
    left. reflexivity.
  - refine (proj2 (proj1 (proj2 (timeline_needs_a_primary_series_with_timestamps
              [("blood_glucose"%string, Some 0%nat)] [daily_score_frame])
              0%nat daily_score_frame eq_refl eq_refl) _)).
    apply (bool_decide_unpack _). vm_compute. exact I.
  - refine (proj1 (proj1 (proj2 (proj2 (timeline_needs_a_primary_series_with_timestamps
              [("blood_glucose"%string, Some 0%nat)]
              [[("date"%string, Object []); ("bgl"%string, Object [])]])
              0%nat _ eq_refl eq_refl)) (Object []) eq_refl _)).
    constructor.
  - refine (proj1 (proj1 (proj2 (proj2 (timeline_needs_a_primary_series_with_timestamps
              [("blood_glucose"%string, Some 0%nat)] [blank_primary_frame])
              0%nat _ eq_refl eq_refl)) (Datetime None [None]) eq_refl _)).
    by repeat constructor.
  - refine (proj1 (proj2 (proj2 (proj2 (timeline_needs_a_primary_series_with_timestamps
              [("blood_glucose"%string, Some 0%nat)] [late_primary_frame])
              0%nat _ eq_refl eq_refl)) None [Some (at_ 2262 4 11 0 0 0)]
              (at_ 2262 4 11 0 0 0) (at_ 2262 4 11 0 0 0) eq_refl _ _ _ _)).
    + apply elem_of_cons. by left.
    + apply elem_of_cons. by left.
    + intros v Hv. apply elem_of_cons in Hv as [[= ->] | Hv]; [lia|].
      by apply elem_of_nil in Hv.
    + right. by vm_compute.
Defined.

(** The timeline of a primary series whose timestamps are whole minutes. *)
Lemma create_base_timeline_canonical dfs (σ : store) b bgl (s : list stamp) lo hi :
  dict_get dfs "blood_glucose" = Some (Some b) →
  σ !! b = Some bgl →
  getitem bgl "date" = Ok (Datetime None s) →
  (∀ v, Some v ∈ s → v `mod` NS_PER_MIN = 0) →
  Some lo ∈ s → Some hi ∈ s → (∀ v, Some v ∈ s → lo ≤ v ≤ hi) →
  TS_MIN ≤ lo - NS_PER_DAY → hi + NS_PER_DAY ≤ TS_MAX →
  let g := (λ k, Some (lo - NS_PER_DAY + k * NS_PER_MIN))
             <$> seqZ 0 ((hi + NS_PER_DAY - (lo - NS_PER_DAY)) `div` NS_PER_MIN + 1) in
  create_base_timeline dfs σ
  = Ok (S (length σ),
        σ ++ [[("timestamp"%string, Datetime None g)]]
          ++ [[("timestamp"%string, Datetime None g)]]).
Proof.
  intros Hd Hb Hg Hcanon Hlo Hhi Hbounds Hlow Hhigh g.
  assert (Hmin : stamps_min s = Some lo).
  { apply stamps_min_least; [done|]. intros v Hv. by apply Hbounds. }
  assert (Hmax : stamps_max s = Some hi).
  { apply stamps_max_greatest; [done|]. intros v Hv. by apply Hbounds. }
  rewrite (create_base_timeline_spec dfs σ b bgl None s lo hi) by done.
  subst g. cbv zeta. rewrite timeline_canonical; [done|].
  rewrite day_is_whole_minutes, Zminus_mod, (Hcanon _ Hlo), Z.mod_mul
    by (rewrite NS_PER_MIN_eq; lia).
  reflexivity.
Qed.

(** X8: every timestamp of a normalised primary series whose range leaves a
    day of room at both ends of the representable instants is an instant of
    the Timeline Grid: the reading stamped [v] finds its grid row at
    position [(v - lo) / 1 min + 1440], one day of minutes after the first
    row. *)
Theorem primary_timestamps_lie_on_the_grid
    dfs (σ : store) b bgl (s : list stamp) lo hi v :
  dict_get dfs "blood_glucose" = Some (Some b) →
  σ !! b = Some bgl →
  getitem bgl "date" = Ok (Datetime None s) →
  (∀ v, Some v ∈ s → v `mod` NS_PER_MIN = 0) →
  Some lo ∈ s → Some hi ∈ s → (∀ v, Some v ∈ s → lo ≤ v ≤ hi) →
  TS_MIN ≤ lo - NS_PER_DAY → hi + NS_PER_DAY ≤ TS_MAX →
  Some v ∈ s →
  ∃ l' σ' g,
    create_base_timeline dfs σ = Ok (l', σ')
    ∧ σ' !! l' = Some [("timestamp"%string, Datetime None g)]
    ∧ g !! Z.to_nat ((v - lo) `div` NS_PER_MIN + 1440) = Some (Some v).
Proof.
  intros Hd Hb Hg Hcanon Hlo Hhi Hbounds Hlow Hhigh Hv.
  eexists _, _, _.
  split; [by apply (create_base_timeline_canonical dfs σ b bgl s lo hi)|].
  split; [apply lookup_second_fresh|].
  pose proof (Hcanon _ Hlo) as Hlo0. pose proof (Hcanon _ Hhi) as Hhi0.
  pose proof (Hcanon _ Hv) as Hv0.
  destruct (Hbounds _ Hv) as [Hlv Hvh].
  rewrite day_is_whole_minutes. rewrite NS_PER_MIN_eq in *.
  pose proof (Z.div_mod hi 60000000000 ltac:(lia)) as Eh.
  pose proof (Z.div_mod lo 60000000000 ltac:(lia)) as El.
  pose proof (Z.div_mod v 60000000000 ltac:(lia)) as Ev.
  rewrite Hlo0 in El. rewrite Hhi0 in Eh. rewrite Hv0 in Ev.
  set (ql := lo `div` 60000000000) in *.
  set (qh := hi `div` 60000000000) in *.
  set (qv := v `div` 60000000000) in *.
  replace ((v - lo) `div` 60000000000) with (qv - ql).
  2:{ replace (v - lo) with ((qv - ql) * 60000000000) by lia.
      by rewrite Z.div_mul. }
  replace ((hi + 1440 * 60000000000 - (lo - 1440 * 60000000000))
             `div` 60000000000) with (qh - ql + 2880).
  2:{ replace (hi + 1440 * 60000000000 - (lo - 1440 * 60000000000))
        with ((qh - ql + 2880) * 60000000000) by lia.
      by rewrite Z.div_mul. }
  rewrite list_lookup_fmap, lookup_seqZ_lt by lia. cbn. do 2 f_equal. lia.
Qed.

Lemma primary_timestamps_lie_on_the_grid_witness :
  (∀ v, Some v ∈ [Some (at_ 2023 1 1 0 0 0); Some (at_ 2023 1 1 12 0 0);
                   Some (at_ 2023 1 2 0 0 0)] → v `mod` NS_PER_MIN = 0)
  ∧ (∀ v, Some v ∈ [Some (at_ 2023 1 1 0 0 0); Some (at_ 2023 1 1 12 0 0);
                     Some (at_ 2023 1 2 0 0 0)]
          → at_ 2023 1 1 0 0 0 ≤ v ≤ at_ 2023 1 2 0 0 0)
  ∧ TS_MIN ≤ at_ 2023 1 1 0 0 0 - NS_PER_DAY
  ∧ at_ 2023 1 2 0 0 0 + NS_PER_DAY ≤ TS_MAX
  ∧ ∃ l' σ' g,
      create_base_timeline [("blood_glucose"%string, Some 0%nat)] [primary_frame]
        = Ok (l', σ')
      ∧ σ' !! l' = Some [("timestamp"%string, Datetime None g)]
      ∧ g !! Z.to_nat ((at_ 2023 1 1 12 0 0 - at_ 2023 1 1 0 0 0) `div` NS_PER_MIN + 1440)
        = Some (Some (at_ 2023 1 1 12 0 0)).
Proof.
  assert (H1 : ∀ v, Some v ∈ [Some (at_ 2023 1 1 0 0 0); Some (at_ 2023 1 1 12 0 0);
                               Some (at_ 2023 1 2 0 0 0)] → v `mod` NS_PER_MIN = 0).
  { intros v Hv.
    repeat (apply elem_of_cons in Hv as [[= ->] | Hv]; [vm_compute; reflexivity|]).
    by apply elem_of_nil in Hv. }
  assert (H2 : ∀ v, Some v ∈ [Some (at_ 2023 1 1 0 0 0); Some (at_ 2023 1 1 12 0 0);
                               Some (at_ 2023 1 2 0 0 0)]
                    → at_ 2023 1 1 0 0 0 ≤ v ≤ at_ 2023 1 2 0 0 0).
  { intros v Hv.
    repeat (apply elem_of_cons in Hv as [[= ->] | Hv];
            [vm_compute; split; discriminate|]).
    by apply elem_of_nil in Hv. }
  split; [exact H1|]. split; [exact H2|].
  split; [by vm_compute|]. split; [by vm_compute|].
  apply (primary_timestamps_lie_on_the_grid
           [("blood_glucose"%string, Some 0%nat)] [primary_frame] 0%nat
           primary_frame _ (at_ 2023 1 1 0 0 0) (at_ 2023 1 2 0 0 0)
           (at_ 2023 1 1 12 0 0) eq_refl eq_refl eq_refl H1).
  - apply elem_of_cons. by left.
  - do 2 (apply elem_of_cons; right). apply elem_of_cons. by left.
  - exact H2.
  - by vm_compute.
  - by vm_compute.
  - apply elem_of_cons. right. apply elem_of_cons. by left.
Defined.

(** X9: the merged dataset never loses a minute of the Timeline Grid,
    whatever the series hold: its first column is the grid with each instant
    repeated in place, once or more (more than once when a series has
    several rows for that minute).  The rows are thus in grid order, every
    instant of the grid is there and nothing else, and the dataset has at
    least as many rows as the grid. *)
Theorem merged_dataset_keeps_every_grid_minute dfs (σ : store) l' σ' :
  merge_all_data dfs σ = Ok (l', σ') →
  ∃ lb σb g merged lbl T rest,
    create_base_timeline dfs σ = Ok (lb, σb)
    ∧ σb !! lb = Some [("timestamp"%string, Datetime None g)]
    ∧ σ' !! l' = Some merged
    ∧ merged = (lbl, Datetime None T) :: rest
    ∧ (∃ reps : list nat,
         length reps = length g
         ∧ T = concat (zip_with (λ n t, replicate (S n) t) reps g))
    ∧ g `sublist_of` T
    ∧ (∀ t, t ∈ T → t ∈ g)
    ∧ (length g ≤ nrows merged)%nat.
Proof.
  intros Hrun.
  apply merge_all_data_Ok in Hrun
    as (lb & σb & b & bgl & base & m1 & la & σa & acc
        & Hbase & Hd & Hb & Hlb & Hm1 & Hloop & Hacc & -> & ->).
  pose proof (create_base_timeline_Ok _ _ _ _ Hbase)
    as (b' & bgl' & tz & s & g0 & Hd' & Hb' & _ & Hg0 & -> & Hσb).
  set (g := fmap (M:=option) round_min <$> g0) in *.
  assert (Hbase_frame : base = [("timestamp"%string, Datetime None g)]).
  { rewrite Hσb, lookup_second_fresh in Hlb. by simplify_eq. }
  subst base.
  destruct (merge_primary_keyed _ _ _ Hm1) as (T1 & Hk1 & He1).
  pose proof (lookup_second_fresh σb bgl m1) as Hm1_at.
  pose proof (merge_others_keyed dfs T1 _ _ m1 la σa Hm1_at Hk1 Hloop)
    as (T2 & acc' & Hacc' & Hk2 & He2).
  rewrite Hacc in Hacc'. simplify_eq.
  pose proof (expands_trans _ _ _ He1 He2) as He.
  destruct (drop_duplicated_keyed _ _ Hk2) as (lbl & rest & Heq & _).
  eexists _, _, g, (drop_duplicated acc'), lbl, T2, rest.
  split; [exact Hbase|]. split; [exact Hlb|]. split; [apply lookup_fresh|].
  split; [done|]. split; [by apply expands_concat|].
  split; [by apply expands_sublist|].
  split; [intros t Ht; by apply (expands_elem _ _ _ He)|].
  rewrite Heq. cbn. by apply expands_length.
Qed.

Lemma merged_dataset_keeps_every_grid_minute_witness :
  let run := merge_all_data [("blood_glucose"%string, Some 0%nat)] [twin_primary_frame] in
  ∃ lb σb g merged lbl T rest,
    create_base_timeline [("blood_glucose"%string, Some 0%nat)] [twin_primary_frame]
      = Ok (lb, σb)
    ∧ σb !! lb = Some [("timestamp"%string, Datetime None g)]
    ∧ run_store run !! run_loc run = Some merged
    ∧ merged = (lbl, Datetime None T) :: rest
    ∧ (∃ reps : list nat,
         length reps = length g
         ∧ T = concat (zip_with (λ n t, replicate (S n) t) reps g))
    ∧ g `sublist_of` T
    ∧ (∀ t, t ∈ T → t ∈ g)
    ∧ (length g ≤ nrows merged)%nat.
Proof.
  intros run.
  apply (merged_dataset_keeps_every_grid_minute
           [("blood_glucose"%string, Some 0%nat)] [twin_primary_frame]
           (run_loc run) (run_store run)).
  apply (run_eta run). vm_compute. reflexivity.
Defined.

(** ** The merger: series that are passed over, and series that cannot be joined *)

Lemma passed_over_mono (σ σ1 : store) e :
  σ `prefix_of` σ1 → passed_over σ e → passed_over σ1 e.
Proof.
  intros Hpre. unfold passed_over. destruct e.2 as [r|]; [|done].
  intros (df & Hr & Hcases). exists df. split; [|done].
  by eapply prefix_lookup_Some.
Qed.

Lemma merge_one_passed_over (σ : store) name df final :
  passed_over σ (name, df) →
  ∃ σ1, merge_one name df final σ = Ok (final, σ1) ∧ σ `prefix_of` σ1.
Proof.
  unfold passed_over. cbn [fst snd]. destruct df as [r|].
  - intros (d & Hr & Hcases). unfold merge_one.
    rewrite bind_unfold. unfold read at 1. rewrite Hr.
    destruct (empty d) eqn:Hempty; cbn [orb]; [by exists σ|].
    case_bool_decide as Hname; [by exists σ|].
    destruct Hcases as [?|[?|Htc]]; [done..|].
    unfold copy. rewrite !bind_unfold. unfold read at 1. rewrite Hr.
    unfold alloc at 1. rewrite bind_unfold, read_fresh, Htc.
    exists (σ ++ [d]). split; [done|]. by apply prefix_app_r.
  - intros _. by exists σ.
Qed.

Lemma merge_others_passed_over entries final (σ : store) :
  Forall (passed_over σ) entries →
  ∃ σ', merge_others entries final σ = Ok (final, σ') ∧ σ `prefix_of` σ'.
Proof.
  revert σ. induction entries as [|[name df] entries IH]; intros σ Hall.
  - by exists σ.
  - apply Forall_cons in Hall as [Hone Hrest].
    destruct (merge_one_passed_over σ name df final Hone) as (σ1 & H1 & Hpre1).
    destruct (IH σ1) as (σ' & H' & Hpre').
    { eapply Forall_impl; [exact Hrest|]. intros e. by apply passed_over_mono. }
    exists σ'. split; [|by etrans].
    cbn [merge_others]. by rewrite bind_unfold, H1.
Qed.

(** X10: a registered series adds nothing to the merged dataset when it is
    bound to [None], has no rows, or has no label that contains [time] or
    [date] (a series keyed by [sleep_start], for one): the loop passes over
    it without a message.  When this holds of every registered series but
    the primary one, the merged dataset is the join of the grid with the
    primary series, less its repeated labels. *)
Theorem series_without_time_like_label_are_left_out
    dfs (σ : store) l' σ' :
  Forall (passed_over σ) dfs →
  merge_all_data dfs σ = Ok (l', σ') →
  ∃ lb σb g b bgl m1,
    create_base_timeline dfs σ = Ok (lb, σb)
    ∧ σb !! lb = Some [("timestamp"%string, Datetime None g)]
    ∧ dict_get dfs "blood_glucose" = Some (Some b) ∧ σ !! b = Some bgl
    ∧ merge [("timestamp"%string, Datetime None g)] bgl "timestamp" "date"
            ("_x"%string, "_y"%string) = Ok m1
    ∧ σ' !! l' = Some (drop_duplicated m1).
Proof.
  intros Hall Hrun.
  apply merge_all_data_Ok in Hrun
    as (lb & σb & b & bgl & base & m1 & la & σa & acc
        & Hbase & Hd & Hb & Hlb & Hm1 & Hloop & Hacc & -> & ->).
  pose proof (create_base_timeline_Ok _ _ _ _ Hbase)
    as (b' & bgl' & tz & s & g0 & Hd' & Hb' & _ & Hg0 & -> & Hσb).
  rewrite Hd in Hd'. injection Hd' as <-.
  pose proof (create_base_timeline_prefix _ _ _ _ Hbase) as Hpre.
  pose proof (prefix_lookup_Some _ _ _ _ Hb' Hpre) as Hb''.
  rewrite Hb in Hb''. injection Hb'' as <-.
  assert (Hbase_frame : base = [("timestamp"%string,
            Datetime None (fmap (M:=option) round_min <$> g0))]).
  { rewrite Hσb, lookup_second_fresh in Hlb. by simplify_eq. }
  subst base.
  destruct (merge_others_passed_over dfs (S (length σb)) (σb ++ [bgl] ++ [m1]))
    as (σ2 & Hloop' & Hpre2).
  { eapply Forall_impl; [exact Hall|]. intros e. apply passed_over_mono.
    etrans; [exact Hpre|]. by apply prefix_app_r. }
  rewrite Hloop in Hloop'. injection Hloop' as -> ->.
  pose proof (prefix_lookup_Some _ _ _ _ (lookup_second_fresh σb bgl m1) Hpre2)
    as Hacc'.
  rewrite Hacc in Hacc'. injection Hacc' as ->.
  eexists _, σb, _, b, bgl, m1.
  split; [exact Hbase|]. split; [exact Hlb|]. split; [done|]. split; [done|].
  split; [exact Hm1|]. apply lookup_fresh.
Qed.

Lemma series_without_time_like_label_are_left_out_witness :
  Forall (passed_over nightly_store) nightly_frames
  ∧ ∃ lb σb g b bgl m1,
      create_base_timeline nightly_frames nightly_store = Ok (lb, σb)
      ∧ σb !! lb = Some [("timestamp"%string, Datetime None g)]
      ∧ dict_get nightly_frames "blood_glucose" = Some (Some b)
      ∧ nightly_store !! b = Some bgl
      ∧ merge [("timestamp"%string, Datetime None g)] bgl "timestamp" "date"
              ("_x"%string, "_y"%string) = Ok m1
      ∧ run_store nightly_run !! run_loc nightly_run = Some (drop_duplicated m1).
Proof.
  assert (Hall : Forall (passed_over nightly_store) nightly_frames).
  { apply Forall_cons. split.
    - exists primary_frame. split; [reflexivity|]. right. left. reflexivity.
    - apply Forall_cons. split; [|apply Forall_nil_2].
      exists nightly_out. split; [reflexivity|]. right. right.
      vm_compute. reflexivity. }
  split; [exact Hall|].
  apply (series_without_time_like_label_are_left_out nightly_frames nightly_store
           (run_loc nightly_run) (run_store nightly_run) Hall).
  apply (run_eta nightly_run). vm_compute. reflexivity.
Defined.

Lemma getitem_set_other (pre post : DataFrame) c x y key :
  key ≠ c →
  getitem (pre ++ (c, x) :: post) key = getitem (pre ++ (c, y) :: post) key.
Proof.
  intros Hne. unfold getitem.
  rewrite !filter_app, !filter_cons. cbn [fst].
  by rewrite !decide_False by done.
Qed.

Lemma empty_set_same_length (pre post : DataFrame) c x y :
  col_len x = col_len y →
  empty (pre ++ (c, x) :: post) = empty (pre ++ (c, y) :: post).
Proof.
  intros Hlen. destruct pre as [|[c0 col0] pre]; cbn; [|done].
  by rewrite Hlen.
Qed.

Lemma col_len_rounded col p :
  to_datetime col = Ok p → col_len (Datetime None (rounded p)) = col_len col.
Proof.
  intros Hp. cbn. unfold rounded.
  by rewrite length_fmap, (to_datetime_stamps _ _ Hp), length_instants.
Qed.

(** X11: the normaliser and the merger do not agree on the timestamp column
    of a series whose first time-like label is not the one the normaliser
    resolved.  When that first time-like column is text, it is still text
    after normalisation, and the join of the normalised series onto a
    dataset keyed by a datetime [timestamp] raises [ValueError]: the run of
    the merger stops there. *)
Theorem join_on_a_column_left_as_text_raises
    (σ : store) l dc l' adj σ' df c key ks cells name :
  σ !! l = Some df →
  resolve_date_col (columns df) dc = Ok c →
  time_cols (columns df) = key :: ks → key ≠ c →
  getitem df key = Ok (Object cells) →
  empty df = false → name ≠ "blood_glucose"%string →
  _standardize_timestamp l dc σ = Ok ((l', adj), σ') →
  ∀ (σ1 : store) final left tz T,
    σ' `prefix_of` σ1 → σ1 !! final = Some left →
    getitem left "timestamp" = Ok (Datetime tz T) →
    merge_one name (Some l') final σ1 = Raise ValueError.
Proof.
  intros Hl Hc Htc Hne Hkey Hempty Hname Hrun σ1 final left tz T Hpre Hf Hts.
  apply standardize_Ok in Hrun
    as (c' & col & p & pre & post & Hl' & Hc' & Hnpre & Hnpost & Hp & -> & -> & ->).
  rewrite Hl in Hl'. simplify_eq. rewrite Hc in Hc'. simplify_eq.
  set (df' := pre ++ (c', Datetime None (rounded p)) :: post).
  assert (Hdf' : σ1 !! length σ = Some df').
  { eapply prefix_lookup_Some; [apply lookup_fresh|exact Hpre]. }
  assert (Hcols : columns df' = columns (pre ++ (c', col) :: post))
    by apply columns_set_unique.
  assert (Hkey' : getitem df' key = Ok (Object cells)).
  { unfold df'. by rewrite (getitem_set_other _ _ _ _ col). }
  assert (Hempty' : empty df' = false).
  { unfold df'. rewrite (empty_set_same_length _ _ _ _ col); [done|].
    by apply col_len_rounded. }
  unfold merge_one. rewrite bind_unfold. unfold read at 1. rewrite Hdf', Hempty'.
  rewrite bool_decide_false by done. cbn [orb].
  unfold copy. rewrite !bind_unfold. unfold read at 1. rewrite Hdf'.
  unfold alloc at 1. rewrite bind_unfold, read_fresh, Hcols, Htc.
  rewrite bind_unfold. unfold read at 1.
  rewrite (lookup_app_l_Some _ _ _ _ Hf). rewrite bind_unfold.
  unfold merge. rewrite Hts. cbn [rbind]. rewrite Hkey'. cbn [rbind].
  by destruct tz.
Qed.

Lemma join_on_a_column_left_as_text_raises_witness :
  _standardize_timestamp 0%nat None [two_clocks_frame; acc_frame]
    = Ok ((2%nat, []), [two_clocks_frame; acc_frame; two_clocks_out])
  ∧ merge_one "activity" (Some 2%nat) 1%nat
      [two_clocks_frame; acc_frame; two_clocks_out] = Raise ValueError.
Proof.
  assert (Hrun : _standardize_timestamp 0%nat None [two_clocks_frame; acc_frame]
                 = Ok ((2%nat, []), [two_clocks_frame; acc_frame; two_clocks_out]))
    by (vm_compute; reflexivity).
  split; [exact Hrun|].
  assert (Hne : "timestamp"%string ≠ "date"%string) by discriminate.
  assert (Hname : "activity"%string ≠ "blood_glucose"%string) by discriminate.
  exact (join_on_a_column_left_as_text_raises
           [two_clocks_frame; acc_frame] 0%nat None 2%nat []
           [two_clocks_frame; acc_frame; two_clocks_out]
           two_clocks_frame "date" "timestamp" ["date"%string]
           [DateStr (at_ 2023 1 1 12 0 0) None] "activity"
           eq_refl eq_refl eq_refl Hne eq_refl eq_refl Hname Hrun
           [two_clocks_frame; acc_frame; two_clocks_out] 1%nat acc_frame None
           [Some (at_ 2023 1 1 0 0 0); Some (at_ 2023 1 1 0 1 0)]
           (reflexivity _) eq_refl eq_refl).
Defined.

(** ** The merger: which rows a join pairs *)

(** X12: a join of the loop pairs rows on equal timestamps and on nothing
    else: row [i] of the accumulated dataset is paired with row [j] of the
    series exactly when both hold the same instant, and stands alone, with
    missing values in the incoming columns, exactly when no row of the
    series holds its instant.  A series row whose instant is in no row of
    the dataset is in no row of the result; there is no matching to the
    nearest minute.  Every column of the result has one entry per pair. *)
Theorem join_pairs_rows_with_equal_timestamps
    name r final (σ : store) lm σ2 (left right : DataFrame) T :
  σ !! r = Some right → σ !! final = Some left →
  getitem left "timestamp" = Ok (Datetime None T) →
  merge_one name (Some r) final σ = Ok (lm, σ2) → lm ≠ final →
  ∃ key K idx merged,
    join_key name right = Some key
    ∧ getitem right key = Ok (Datetime None K)
    ∧ join_indexers (Datetime None T) (Datetime None K) = Ok idx
    ∧ σ2 !! lm = Some merged
    ∧ Forall (λ p, col_len p.2 = length idx) merged
    ∧ (∀ i j, (i, Some j) ∈ idx ↔ ∃ t, T !! i = Some t ∧ K !! j = Some t)
    ∧ (∀ i, (i, None) ∈ idx ↔ ∃ t, T !! i = Some t ∧ t ∉ K)
    ∧ (∀ j t, K !! j = Some t → t ∉ T → Some j ∉ idx.*2).
Proof.
  intros Hr Hf Hts H1 Hne.
  destruct (merge_one_Ok _ _ _ _ _ _ H1) as (right' & Hr' & Hcases).
  rewrite Hr in Hr'. simplify_eq.
  destruct Hcases as [(-> & _)|[(-> & _)|Hjoin]]; [done..|].
  destruct Hjoin as (key & ks & left' & merged & Hnempty & Hname & Htc
                     & Hleft & Hm & -> & ->).
  rewrite (lookup_app_l_Some _ _ _ _ Hf) in Hleft. simplify_eq.
  apply merge_Ok in Hm as (lk & rk & idx & ll & rl & Hlk & Hrk & Hidx & Hov & ->).
  rewrite Hts in Hlk. simplify_eq.
  destruct rk as [cells|[z|] K]; cbn in Hidx; try done. simplify_eq.
  assert (Hspec : ∀ i oj, (i, oj) ∈ left_join_indexer T K ↔
            ∃ t, T !! i = Some t
                 ∧ match oj with Some j => K !! j = Some t | None => t ∉ K end).
  { intros i oj. unfold left_join_indexer. rewrite left_join_from_elem. split.
    - intros (i' & k & -> & Hi' & Hoj). by exists k.
    - intros (t & Hi & Hoj). by exists i, t. }
  eexists key, K, (left_join_indexer T K), _.
  split; [by eapply join_key_secondary|]. split; [done|]. split; [done|].
  split; [apply lookup_second_fresh|]. split.
  - apply Forall_app. split.
    + rewrite <- (length_fmap fst (left_join_indexer T K)),
        <- (length_fmap Some (left_join_indexer T K).*1).
      apply zip_take_col_len.
    + rewrite <- (length_fmap snd (left_join_indexer T K)).
      apply zip_take_col_len.
  - split; [intros i j; apply (Hspec i (Some j))|].
    split; [intros i; apply (Hspec i None)|].
    intros j t Hj Hnot Hin.
    apply list_elem_of_fmap in Hin as ([i oj] & Heq & Hin). cbn in Heq. subst oj.
    apply Hspec in Hin as (t' & Hi & Hj'). rewrite Hj in Hj'. simplify_eq.
    apply Hnot. by eapply list_elem_of_lookup_2.
Qed.

Lemma join_pairs_rows_with_equal_timestamps_witness :
  merge_one "sleep" (Some 1%nat) 0%nat [acc_frame; sleep_frame]
    = Ok (3%nat, [acc_frame; sleep_frame; sleep_frame; acc_sleep_frame])
  ∧ ∃ key K idx merged,
      join_key "sleep" sleep_frame = Some key
      ∧ getitem sleep_frame key = Ok (Datetime None K)
      ∧ join_indexers
          (Datetime None [Some (at_ 2023 1 1 0 0 0); Some (at_ 2023 1 1 0 1 0)])
          (Datetime None K) = Ok idx
      ∧ [acc_frame; sleep_frame; sleep_frame; acc_sleep_frame] !! 3%nat = Some merged
      ∧ Forall (λ p, col_len p.2 = length idx) merged
      ∧ (∀ i j, (i, Some j) ∈ idx ↔
           ∃ t, [Some (at_ 2023 1 1 0 0 0); Some (at_ 2023 1 1 0 1 0)] !! i = Some t
                ∧ K !! j = Some t)
      ∧ (∀ i, (i, None) ∈ idx ↔
           ∃ t, [Some (at_ 2023 1 1 0 0 0); Some (at_ 2023 1 1 0 1 0)] !! i = Some t
                ∧ t ∉ K)
      ∧ (∀ j t, K !! j = Some t →
           t ∉ [Some (at_ 2023 1 1 0 0 0); Some (at_ 2023 1 1 0 1 0)] →
           Some j ∉ idx.*2).
Proof.
  assert (Hrun : merge_one "sleep" (Some 1%nat) 0%nat [acc_frame; sleep_frame]
                 = Ok (3%nat, [acc_frame; sleep_frame; sleep_frame; acc_sleep_frame])).
  { vm_compute. reflexivity. }
  split; [exact Hrun|].
  assert (Hne : 3%nat ≠ 0%nat) by discriminate.
  exact (join_pairs_rows_with_equal_timestamps "sleep" 1%nat 0%nat
           [acc_frame; sleep_frame] 3%nat
           [acc_frame; sleep_frame; sleep_frame; acc_sleep_frame]
           acc_frame sleep_frame _ eq_refl eq_refl eq_refl Hrun Hne).
Defined.

(** ** Registering series *)

Lemma filter_key_nil {V} (d : list (string * V)) k :
  k ∉ d.*1 → filter (λ p : string * V, p.1 = k) d = [].
Proof.
  induction d as [|p d IH]; [done|]. rewrite fmap_cons. intros Hk.
  apply not_elem_of_cons in Hk as [Hne Hk]. rewrite filter_cons.
  rewrite decide_False by done. by apply IH.
Qed.

Lemma dict_get_set {V} (d : list (string * V)) k v :
  dict_get (dict_set d k v) k = Some v.
Proof.
  unfold dict_set, dict_get. case_bool_decide as Hk.
  - induction d as [|p d IH]; [by apply elem_of_nil in Hk|].
    rewrite fmap_cons, filter_cons. case_bool_decide as Hp.
    + cbn [fst]. by rewrite decide_True.
    + rewrite decide_False by done. apply IH.
      rewrite fmap_cons in Hk. apply elem_of_cons in Hk as [Hk|Hk]; [done|done].
  - rewrite filter_app, filter_key_nil by done.
    rewrite filter_cons. cbn [fst]. by rewrite decide_True.
Qed.

Lemma dict_get_set_other {V} (d : list (string * V)) k v k' :
  k' ≠ k → dict_get (dict_set d k v) k' = dict_get d k'.
Proof.
  intros Hne. unfold dict_set, dict_get. case_bool_decide as Hk.
  - f_equal. f_equal. clear Hk. induction d as [|p d IH]; [done|].
    rewrite fmap_cons, !filter_cons. case_bool_decide as Hp.
    + cbn [fst]. rewrite decide_False by done.
      rewrite decide_False by (by rewrite Hp). exact IH.
    + destruct (decide (p.1 = k')); by rewrite IH.
  - rewrite filter_app, filter_cons. cbn [fst].
    rewrite decide_False by done. by rewrite filter_nil, app_nil_r.
Qed.

Lemma read_csv_Ok file usecols (σ : store) l σ' :
  read_csv file usecols σ = Ok (l, σ') →
  l = length σ
  ∧ σ' = σ ++ [filter (λ p : string * column, p.1 ∈ usecols) file]
  ∧ ∀ c, c ∈ usecols → c ∈ columns file.
Proof.
  unfold read_csv. destruct (forallb _ usecols) eqn:Hall; [|done].
  unfold alloc. intros [= <- <-]. split; [done|]. split; [done|].
  intros c Hc. rewrite forallb_forall in Hall.
  apply list_elem_of_In in Hc. apply Hall in Hc.
  by apply bool_decide_eq_true_1 in Hc.
Qed.

Lemma columns_usecols (file : DataFrame) (usecols : list string) c :
  c ∈ columns (filter (λ p : string * column, p.1 ∈ usecols) file)
  ↔ c ∈ usecols ∧ c ∈ columns file.
Proof.
  unfold columns. rewrite !list_elem_of_fmap. split.
  - intros (p & -> & Hp). apply list_elem_of_filter in Hp as [Hin Hp].
    split; [done|]. by exists p.
  - intros (Hc & p & -> & Hp). exists p. split; [done|].
    by apply list_elem_of_filter.
Qed.

Lemma head_time_cols cols k :
  (∀ x, x ∈ cols → is_time_like x = true → x = k) →
  k ∈ cols → is_time_like k = true → head (time_cols cols) = Some k.
Proof.
  intros Honly Hk Htl. unfold time_cols.
  destruct (filter _ cols) as [|x r] eqn:Hf.
  - assert (Hin : k ∈ filter (λ col, is_time_like col = true) cols)
      by (by apply list_elem_of_filter).
    rewrite Hf in Hin. by apply elem_of_nil in Hin.
  - assert (Hin : x ∈ filter (λ col, is_time_like col = true) cols)
      by (rewrite Hf; apply elem_of_cons; by left).
    apply list_elem_of_filter in Hin as [Hx Hin]. cbn. f_equal.
    by apply Honly.
Qed.

(** Reading a file with a fixed list of columns, normalising the one named
    [date_col], the only time-like label of the list: the frame obtained is
    joined by the merger on the very column that was normalised. *)
Lemma read_and_standardize file usecols date_col name
    (σ σ0 σ1 : store) l0 l1 adj :
  (∀ x, x ∈ usecols → is_time_like x = true → x = date_col) →
  is_time_like date_col = true → name ≠ "blood_glucose"%string →
  read_csv file usecols σ = Ok (l0, σ0) →
  _standardize_timestamp l0 (Some date_col) σ0 = Ok ((l1, adj), σ1) →
  ∃ F s,
    σ1 !! l1 = Some F
    ∧ (∀ c, c ∈ columns F ↔ c ∈ usecols ∧ c ∈ columns file)
    ∧ join_key name F = Some date_col
    ∧ getitem F date_col = Ok (Datetime None s)
    ∧ (∀ i v, s !! i = Some (Some v) → v `mod` NS_PER_MIN = 0)
    ∧ σ `prefix_of` σ1.
Proof.
  intros Honly Htl Hname Hread Hstd.
  apply read_csv_Ok in Hread as (-> & -> & Hall).
  apply standardize_Ok in Hstd
    as (c & col & p & pre & post & Hl & Hc & Hpre & Hpost & Hp & -> & -> & ->).
  cbn in Hc. injection Hc as <-.
  rewrite lookup_fresh in Hl. injection Hl as Hfile.
  assert (Hcols : ∀ c, c ∈ columns (pre ++ (date_col, Datetime None (rounded p)) :: post)
                       ↔ c ∈ usecols ∧ c ∈ columns file).
  { intros c. rewrite (columns_set_unique pre post date_col _ col), <- Hfile.
    apply columns_usecols. }
  eexists _, (rounded p). split; [apply lookup_fresh|]. split; [exact Hcols|].
  split.
  - unfold join_key. rewrite bool_decide_false by done.
    assert (Hin : date_col ∈ columns (pre ++ (date_col, Datetime None (rounded p)) :: post)).
    { unfold columns. rewrite fmap_app, fmap_cons.
      apply elem_of_app. right. apply elem_of_cons. by left. }
    apply head_time_cols; [|exact Hin|exact Htl].
    intros x Hx. apply Hcols in Hx as [Hx _]. by apply Honly.
  - split; [by apply getitem_unique|]. split.
    + intros i v. apply rounded_canonical.
    + etrans; [|apply prefix_app_r; reflexivity]. by apply prefix_app_r.
Qed.

Lemma essential_cols_time_like x :
  x ∈ essential_cols → is_time_like x = true → x = "DATE"%string.
Proof.
  intros Hx. unfold essential_cols in Hx.
  repeat (apply elem_of_cons in Hx as [-> | Hx];
          [first [by intros _ | intros H; by vm_compute in H]|]).
  by apply elem_of_nil in Hx.
Qed.

Lemma sleep_score_cols_time_like x :
  x ∈ sleep_score_cols → is_time_like x = true → x = "timestamp"%string.
Proof.
  intros Hx. unfold sleep_score_cols in Hx.
  repeat (apply elem_of_cons in Hx as [-> | Hx];
          [first [by intros _ | intros H; by vm_compute in H]|]).
  by apply elem_of_nil in Hx.
Qed.

Lemma sleep_profile_cols_time_like x :
  x ∈ sleep_profile_cols → is_time_like x = true → x = "creation_date"%string.
Proof.
  intros Hx. unfold sleep_profile_cols in Hx.
  repeat (apply elem_of_cons in Hx as [-> | Hx];
          [first [by intros _ | intros H; by vm_compute in H]|]).
  by apply elem_of_nil in Hx.
Qed.

Lemma essential_cols_no_candidate c :
  c ∈ date_candidates → c ∉ essential_cols.
Proof.
  intros Hc. unfold date_candidates in Hc.
  repeat (apply elem_of_cons in Hc as [-> | Hc];
          [apply (bool_decide_unpack _); vm_compute; exact I|]).
  by apply elem_of_nil in Hc.
Qed.

(** One branch of [process_sleep]: the file, when there is one, is read,
    normalised and registered. *)
Lemma register_branch (file : option DataFrame) usecols date_col name
    (dfs dfs1 : data_frames_t) (σ σ1 : store) :
  (∀ x, x ∈ usecols → is_time_like x = true → x = date_col) →
  is_time_like date_col = true → name ≠ "blood_glucose"%string →
  match file with
  | Some f =>
      df <~ read_csv f usecols ;;
      df <~ _standardize_timestamp df (Some date_col) ;;
      ret (dict_set dfs name (Some df.1))
  | None => ret dfs
  end σ = Ok (dfs1, σ1) →
  σ `prefix_of` σ1
  ∧ match file with
    | None => dfs1 = dfs
    | Some f =>
        ∃ r F s,
          dfs1 = dict_set dfs name (Some r)
          ∧ σ1 !! r = Some F
          ∧ (∀ c, c ∈ columns F ↔ c ∈ usecols ∧ c ∈ columns f)
          ∧ join_key name F = Some date_col
          ∧ getitem F date_col = Ok (Datetime None s)
          ∧ (∀ i v, s !! i = Some (Some v) → v `mod` NS_PER_MIN = 0)
    end.
Proof.
  intros Honly Htl Hname. destruct file as [f|].
  - rewrite bind_unfold.
    destruct (read_csv f usecols σ) as [[l0 σ0]|] eqn:Hread; [|done].
    rewrite bind_unfold.
    destruct (_standardize_timestamp l0 (Some date_col) σ0)
      as [[[l1 adj] σ2]|] eqn:Hstd; [|done].
    unfold ret. intros [= <- <-]. cbn [fst].
    destruct (read_and_standardize _ _ _ _ _ _ _ _ _ _ Honly Htl Hname Hread Hstd)
      as (F & s & HF & Hcols & Hkey & Hget & Hcanon & Hpre).
    split; [done|]. by exists l1, F, s.
  - unfold ret. intros [= <- <-]. done.
Qed.

(** X13: [process_stress_score] registers the stress scores under
    [stress_score], normalised on the column [DATE] that the call names.
    None of the six candidate labels is among the columns read, so the name
    is needed: automatic detection would raise [ValueError] on this frame.
    Whatever the order of the columns in the file, [DATE] is also the column
    on which the merger joins the series, and it holds Canonical Timestamps.
    Other entries of the registry and the objects already in the store are
    untouched. *)
Theorem stress_score_is_registered_on_its_DATE_column
    file dfs (σ : store) ret dfs' σ' :
  process_stress_score (Some file) dfs σ = Ok ((ret, dfs'), σ') →
  ∃ r F s,
    ret = Some r
    ∧ dict_get dfs' "stress_score" = Some (Some r)
    ∧ (∀ k, k ≠ "stress_score"%string → dict_get dfs' k = dict_get dfs k)
    ∧ σ `prefix_of` σ'
    ∧ σ' !! r = Some F
    ∧ (∀ c, c ∈ columns F ↔ c ∈ essential_cols ∧ c ∈ columns file)
    ∧ join_key "stress_score" F = Some "DATE"%string
    ∧ getitem F "DATE" = Ok (Datetime None s)
    ∧ (∀ i v, s !! i = Some (Some v) → v `mod` NS_PER_MIN = 0)
    ∧ _standardize_timestamp r None σ' = Raise ValueError.
Proof.
  unfold process_stress_score. rewrite bind_unfold.
  destruct (read_csv file essential_cols σ) as [[l0 σ0]|] eqn:Hread; [|done].
  rewrite bind_unfold.
  destruct (_standardize_timestamp l0 (Some "DATE"%string) σ0)
    as [[[l1 adj] σ1]|] eqn:Hstd; [|done].
  cbn [fst]. rewrite dict_get_set. unfold Store.ret. intros [= <- <- <-].
  assert (Hname : "stress_score"%string ≠ "blood_glucose"%string) by discriminate.
  destruct (read_and_standardize _ _ _ "stress_score" _ _ _ _ _ _
              essential_cols_time_like eq_refl Hname Hread Hstd)
    as (F & s & HF & Hcols & Hkey & Hget & Hcanon & Hpre).
  exists l1, F, s. split; [done|]. split; [apply dict_get_set|].
  split; [intros k Hk; by apply dict_get_set_other|].
  do 6 (split; [done|]).
  apply (standardize_no_candidate σ1 l1 F HF).
  intros c Hc Hin. apply Hcols in Hin as [Hin _].
  by apply essential_cols_no_candidate in Hc.
Qed.

Lemma stress_score_is_registered_on_its_DATE_column_witness :
  process_stress_score (Some stress_file) [] []
    = Ok ((Some 1%nat, [("stress_score"%string, Some 1%nat)]),
          [stress_frame; stress_frame_out])
  ∧ ∃ r F s,
      Some 1%nat = Some r
      ∧ dict_get [("stress_score"%string, Some 1%nat)] "stress_score" = Some (Some r)
      ∧ (∀ k, k ≠ "stress_score"%string →
           dict_get [("stress_score"%string, Some 1%nat)] k
           = dict_get (@nil (string * option loc)) k)
      ∧ [] `prefix_of` [stress_frame; stress_frame_out]
      ∧ [stress_frame; stress_frame_out] !! r = Some F
      ∧ (∀ c, c ∈ columns F ↔ c ∈ essential_cols ∧ c ∈ columns stress_file)
      ∧ join_key "stress_score" F = Some "DATE"%string
      ∧ getitem F "DATE" = Ok (Datetime None s)
      ∧ (∀ i v, s !! i = Some (Some v) → v `mod` NS_PER_MIN = 0)
      ∧ _standardize_timestamp r None [stress_frame; stress_frame_out]
        = Raise ValueError.
Proof.
  assert (Hrun : process_stress_score (Some stress_file) [] []
                 = Ok ((Some 1%nat, [("stress_score"%string, Some 1%nat)]),
                       [stress_frame; stress_frame_out]))
    by (vm_compute; reflexivity).
  split; [exact Hrun|].
  exact (stress_score_is_registered_on_its_DATE_column stress_file [] []
           _ _ _ Hrun).
Defined.

(** X14: [process_sleep] handles its two files independently: each one that
    exists is read with its fixed list of columns, normalised on the column
    the call names ([timestamp] for the scores, [creation_date] for the
    profile) and registered; a file that does not exist leaves its entry of
    the registry as it was.  For either series the column normalised is the
    one on which the merger joins it, whatever the order of the columns in
    the file.  The pair returned is (profile, score), as looked up in the
    registry after the call. *)
Theorem sleep_series_are_registered_on_their_named_columns
    profile score dfs (σ : store) rp rs dfs' σ' :
  process_sleep profile score dfs σ = Ok (((rp, rs), dfs'), σ') →
  rp = mjoin (dict_get dfs' "sleep_profile")
  ∧ rs = mjoin (dict_get dfs' "sleep_score")
  ∧ σ `prefix_of` σ'
  ∧ (∀ k, k ≠ "sleep_score"%string → k ≠ "sleep_profile"%string →
       dict_get dfs' k = dict_get dfs k)
  ∧ match score with
    | None => dict_get dfs' "sleep_score" = dict_get dfs "sleep_score"
    | Some file =>
        ∃ r F s,
          dict_get dfs' "sleep_score" = Some (Some r)
          ∧ σ' !! r = Some F
          ∧ (∀ c, c ∈ columns F ↔ c ∈ sleep_score_cols ∧ c ∈ columns file)
          ∧ join_key "sleep_score" F = Some "timestamp"%string
          ∧ getitem F "timestamp" = Ok (Datetime None s)
          ∧ (∀ i v, s !! i = Some (Some v) → v `mod` NS_PER_MIN = 0)
    end
  ∧ match profile with
    | None => dict_get dfs' "sleep_profile" = dict_get dfs "sleep_profile"
    | Some file =>
        ∃ r F s,
          dict_get dfs' "sleep_profile" = Some (Some r)
          ∧ σ' !! r = Some F
          ∧ (∀ c, c ∈ columns F ↔ c ∈ sleep_profile_cols ∧ c ∈ columns file)
          ∧ join_key "sleep_profile" F = Some "creation_date"%string
          ∧ getitem F "creation_date" = Ok (Datetime None s)
          ∧ (∀ i v, s !! i = Some (Some v) → v `mod` NS_PER_MIN = 0)
    end.
Proof.
  unfold process_sleep. rewrite bind_unfold.
  match goal with
  | |- match ?m σ with _ => _ end = _ → _ =>
      destruct (m σ) as [[dfs1 σ1]|] eqn:Hscore; [|done]
  end.
  rewrite bind_unfold.
  match goal with
  | |- match ?m σ1 with _ => _ end = _ → _ =>
      destruct (m σ1) as [[dfs2 σ2]|] eqn:Hprofile; [|done]
  end.
  unfold ret. intros [= <- <- <- <-].
  assert (Hn1 : "sleep_score"%string ≠ "blood_glucose"%string) by discriminate.
  assert (Hn2 : "sleep_profile"%string ≠ "blood_glucose"%string) by discriminate.
  assert (Hn3 : "sleep_score"%string ≠ "sleep_profile"%string) by discriminate.
  assert (Hn4 : "sleep_profile"%string ≠ "sleep_score"%string) by discriminate.
  apply (register_branch score sleep_score_cols "timestamp" "sleep_score")
    in Hscore as [Hpre1 Hscore];
    [|exact sleep_score_cols_time_like|reflexivity|exact Hn1].
  apply (register_branch profile sleep_profile_cols "creation_date" "sleep_profile")
    in Hprofile as [Hpre2 Hprofile];
    [|exact sleep_profile_cols_time_like|reflexivity|exact Hn2].
  split; [done|]. split; [done|]. split; [by etrans|].
  assert (Hd2 : ∀ k, k ≠ "sleep_profile"%string → dict_get dfs2 k = dict_get dfs1 k).
  { intros k Hk. destruct profile as [fp|].
    - destruct Hprofile as (r & F & s & -> & _). by apply dict_get_set_other.
    - by subst dfs2. }
  assert (Hd1 : ∀ k, k ≠ "sleep_score"%string → dict_get dfs1 k = dict_get dfs k).
  { intros k Hk. destruct score as [fs|].
    - destruct Hscore as (r & F & s & -> & _). by apply dict_get_set_other.
    - by subst dfs1. }
  split; [intros k Hk1 Hk2; by rewrite Hd2, Hd1|].
  split.
  - destruct score as [fs|].
    + destruct Hscore as (r & F & s & -> & HF & Hrest).
      exists r, F, s. split; [by rewrite Hd2, dict_get_set|].
      split; [by eapply prefix_lookup_Some|]. exact Hrest.
    + subst dfs1. by apply Hd2.
  - destruct profile as [fp|].
    + destruct Hprofile as (r & F & s & -> & HF & Hrest).
      exists r, F, s. split; [apply dict_get_set|]. split; [done|]. exact Hrest.
    + subst dfs2. by apply Hd1.
Qed.

Lemma sleep_series_are_registered_on_their_named_columns_witness :
  process_sleep (Some sleep_profile_file) (Some sleep_score_file) [] []
    = Ok (((Some 3%nat, Some 1%nat),
           [("sleep_score"%string, Some 1%nat); ("sleep_profile"%string, Some 3%nat)]),
          [sleep_score_frame; sleep_score_frame_out;
           sleep_profile_file; sleep_profile_frame_out])
  ∧ (∃ r F s,
       dict_get [("sleep_score"%string, Some 1%nat); ("sleep_profile"%string, Some 3%nat)]
                "sleep_score" = Some (Some r)
       ∧ [sleep_score_frame; sleep_score_frame_out;
          sleep_profile_file; sleep_profile_frame_out] !! r = Some F
       ∧ (∀ c, c ∈ columns F ↔ c ∈ sleep_score_cols ∧ c ∈ columns sleep_score_file)
       ∧ join_key "sleep_score" F = Some "timestamp"%string
       ∧ getitem F "timestamp" = Ok (Datetime None s)
       ∧ (∀ i v, s !! i = Some (Some v) → v `mod` NS_PER_MIN = 0)).
Proof.
  assert (Hrun : process_sleep (Some sleep_profile_file) (Some sleep_score_file) [] []
            = Ok (((Some 3%nat, Some 1%nat),
                   [("sleep_score"%string, Some 1%nat);
                    ("sleep_profile"%string, Some 3%nat)]),
                  [sleep_score_frame; sleep_score_frame_out;
                   sleep_profile_file; sleep_profile_frame_out]))
    by (vm_compute; reflexivity).
  split; [exact Hrun|].
  exact (proj1 (proj2 (proj2 (proj2 (proj2
           (sleep_series_are_registered_on_their_named_columns
              (Some sleep_profile_file) (Some sleep_score_file) [] []
              _ _ _ _ Hrun)))))).
Defined.

Lemma read_csv_missing file (usecols : list string) c (σ : store) :
  c ∈ usecols → c ∉ columns file → read_csv file usecols σ = Raise ValueError.
Proof.
  intros Hc Hnot. unfold read_csv.
  destruct (forallb _ usecols) eqn:Hall; [|done].
  rewrite forallb_forall in Hall. apply list_elem_of_In in Hc.
  apply Hall in Hc. by apply bool_decide_eq_true_1 in Hc.
Qed.

(** X15: a file that lacks one of the columns listed for it is refused as a
    whole: [process_stress_score] raises [ValueError] and registers nothing,
    and [process_sleep] raises [ValueError] on such a score file before it
    looks at the profile file, and on such a profile file after the scores
    were normalised. *)
Theorem file_without_a_listed_column_is_refused file c :
  (c ∈ essential_cols → c ∉ columns file →
   ∀ dfs (σ : store), process_stress_score (Some file) dfs σ = Raise ValueError)
  ∧ (c ∈ sleep_score_cols → c ∉ columns file →
     ∀ profile dfs (σ : store),
       process_sleep profile (Some file) dfs σ = Raise ValueError)
  ∧ (c ∈ sleep_profile_cols → c ∉ columns file →
     ∀ dfs (σ : store), process_sleep (Some file) None dfs σ = Raise ValueError).
Proof.
  split; [|split].
  - intros Hc Hnot dfs σ. unfold process_stress_score.
    by rewrite bind_unfold, (read_csv_missing _ _ c).
  - intros Hc Hnot profile dfs σ. unfold process_sleep.
    by rewrite !bind_unfold, (read_csv_missing _ _ c).
  - intros Hc Hnot dfs σ. unfold process_sleep.
    rewrite bind_unfold. unfold ret at 1.
    by rewrite !bind_unfold, (read_csv_missing _ _ c).
Qed.

Lemma file_without_a_listed_column_is_refused_witness :
  process_stress_score (Some sleep_score_file) [] [] = Raise ValueError
  ∧ process_sleep (Some sleep_profile_file) (Some stress_file) [] []
    = Raise ValueError.
Proof.
  split.
  - apply (proj1 (file_without_a_listed_column_is_refused sleep_score_file "DATE")).
    + apply elem_of_cons. by left.
    + apply (bool_decide_unpack _). vm_compute. exact I.
  - apply (proj1 (proj2 (file_without_a_listed_column_is_refused stress_file
                           "timestamp"))).
    + apply elem_of_cons. by left.
    + apply (bool_decide_unpack _). vm_compute. exact I.
Defined.

(** ** The merger: a primary series with a column [timestamp] *)

(** X16: the join of the primary series uses the default suffixes.  When the
    primary frame has a column labelled [timestamp] of its own, the grid's
    column comes out as [timestamp_x] and the primary one as [timestamp_y],
    so the dataset has no column [timestamp] any more, and the first series
    that the loop tries to join raises [KeyError]. *)
Theorem primary_with_a_timestamp_column_breaks_the_loop
    g (bgl m1 : DataFrame) :
  merge [("timestamp"%string, Datetime None g)] bgl "timestamp" "date"
        ("_x"%string, "_y"%string) = Ok m1 →
  "timestamp"%string ∈ columns bgl →
  head (columns m1) = Some "timestamp_x"%string
  ∧ "timestamp_y"%string ∈ columns m1
  ∧ ("timestamp"%string ∉ columns m1)
  ∧ ∀ name r final (σ : store) right,
      σ !! final = Some m1 → σ !! r = Some right →
      empty right = false → name ≠ "blood_glucose"%string →
      (time_cols (columns right) ≠ []) →
      merge_one name (Some r) final σ = Raise KeyError.
Proof.
  intros Hm Hts.
  apply merge_Ok in Hm as (lk & rk & idx & ll & rl & Hlk & Hrk & Hidx & Hov & ->).
  rewrite bool_decide_false in Hov |- * by discriminate.
  apply overlap_Ok in Hov as [-> ->].
  assert (Htr : filter (λ x, x ∈ columns bgl)
                  (columns [("timestamp"%string, Datetime None g)])
                = ["timestamp"%string]).
  { cbn [columns fmap list_fmap fst]. rewrite filter_cons, decide_True by done.
    done. }
  rewrite Htr. cbn [columns fmap list_fmap fst snd zip zip_with app].
  assert (Hx : renamer ["timestamp"%string] "_x" "timestamp" = "timestamp_x"%string)
    by reflexivity.
  rewrite Hx.
  assert (Hlen : length (renamer ["timestamp"%string] "_y" <$> columns bgl)
                 = length ((λ p : string * column, take p.2 idx.*2) <$> bgl))
    by (unfold columns; by rewrite !length_fmap).
  assert (Hcols : (zip (renamer ["timestamp"%string] "_y" <$> columns bgl)
                       ((λ p : string * column, take p.2 idx.*2) <$> bgl)).*1
                  = renamer ["timestamp"%string] "_y" <$> columns bgl).
  { apply fst_zip. rewrite Hlen. lia. }
  assert (Hnot : "timestamp"%string
                 ∉ "timestamp_x"%string
                   :: (zip (renamer ["timestamp"%string] "_y" <$> columns bgl)
                           ((λ p : string * column, take p.2 idx.*2) <$> bgl)).*1).
  { rewrite Hcols. apply not_elem_of_cons. split; [discriminate|].
    intros Hin. apply list_elem_of_fmap in Hin as (x & Hx' & _).
    unfold renamer in Hx'. case_bool_decide as Hc.
    - apply list_elem_of_singleton in Hc. subst x. discriminate Hx'.
    - subst x. apply Hc. apply elem_of_cons. by left. }
  split; [done|]. split.
  { apply elem_of_cons. right. rewrite Hcols.
    apply (list_elem_of_fmap_2 (renamer ["timestamp"%string] "_y") _ "timestamp"%string).
    exact Hts. }
  split; [exact Hnot|].
  intros name r final σ right Hf Hr Hempty Hname Htc.
  unfold merge_one. rewrite bind_unfold. unfold read at 1. rewrite Hr, Hempty.
  rewrite bool_decide_false by done. cbn [orb].
  unfold copy. rewrite !bind_unfold. unfold read at 1. rewrite Hr.
  unfold alloc at 1. rewrite bind_unfold, read_fresh.
  destruct (time_cols (columns right)) as [|key ks]; [done|].
  rewrite bind_unfold. unfold read at 1.
  rewrite (lookup_app_l_Some _ _ _ _ Hf). rewrite bind_unfold.
  unfold merge, getitem at 1. rewrite filter_label_nil; [done|exact Hnot].
Qed.

Lemma primary_with_a_timestamp_column_breaks_the_loop_witness :
  merge [("timestamp"%string, Datetime None [Some (at_ 2023 1 1 0 0 0)])]
        stamped_primary_frame "timestamp" "date" ("_x"%string, "_y"%string)
    = Ok stamped_primary_joined
  ∧ head (columns stamped_primary_joined) = Some "timestamp_x"%string
  ∧ "timestamp_y"%string ∈ columns stamped_primary_joined
  ∧ ("timestamp"%string ∉ columns stamped_primary_joined)
  ∧ merge_one "sleep" (Some 1%nat) 0%nat [stamped_primary_joined; sleep_frame]
    = Raise KeyError.
Proof.
  assert (Hm : merge [("timestamp"%string, Datetime None [Some (at_ 2023 1 1 0 0 0)])]
                 stamped_primary_frame "timestamp" "date" ("_x"%string, "_y"%string)
               = Ok stamped_primary_joined) by (vm_compute; reflexivity).
  assert (Hts : "timestamp"%string ∈ columns stamped_primary_frame).
  { apply elem_of_cons. right. apply elem_of_cons. by left. }
  destruct (primary_with_a_timestamp_column_breaks_the_loop _ _ _ Hm Hts)
    as (H1 & H2 & H3 & H4).
  split; [exact Hm|]. split; [exact H1|]. split; [exact H2|]. split; [exact H3|].
  apply (H4 "sleep"%string 1%nat 0%nat [stamped_primary_joined; sleep_frame]
            sleep_frame eq_refl eq_refl eq_refl); discriminate.
Defined.
